(** * Multi-service MCP server: gateway, manifest and memory store

    A shallow embedding of the Flask application (gateway dispatch, the
    manifest literal, the five tool modules) together with the properties
    of its dispatch, error surfacing and memory store.

    Conventions of the embedding:
    - Python values that travel through the gateway (decoded JSON bodies,
      parameter bags, handler results) are values of [pyval]; a dict is an
      association list in insertion order, looked up at its first binding.
    - Handlers are computations in a state-and-exception monad over
      [world], which records every outward effect (HTTP exchanges,
      subprocess launches, temporary files, the memory table).
    - What the environment decides (upstream replies, clock readings,
      random bits, the SQL LIKE operator, Python's [repr]) is read from a
      record [env].
    - The ORM layer is a table of rows in rowid order.  The [key] and
      [value] columns are [String] and [Text]: what is bound to them is
      stored, compared and read back as SQLite text, and a value the driver
      cannot bind raises.  LIMIT and OFFSET follow SQLite, the configured
      default backend ([MEMORY_DB_URI] defaults to a sqlite URI). *)

From Stdlib Require Import ZArith NArith QArith_base String Ascii List Bool Lia.
From Stdlib Require Import DecimalString.
Import ListNotations.

Set Warnings "-register-all".

Local Open Scope string_scope.
Local Open Scope list_scope.
Local Open Scope Z_scope.

Notation "a +s+ b" := (String.append a b) (at level 60, right associativity).

(** ** Python values *)

Inductive pyval : Type :=
| PNone
| PBool (b : bool)
| PInt (z : Z)
| PFloat (q : Q)
| PStr (s : string)
| PList (l : list pyval)
| PDict (d : list (string * pyval)).

Definition dict := list (string * pyval).

(** Python truthiness, as tested by [if not x]. *)
Definition truthy (v : pyval) : bool :=
  match v with
  | PNone => false
  | PBool b => b
  | PInt z => negb (z =? 0)
  | PFloat q => negb (Qnum q =? 0)
  | PStr s => negb (String.eqb s "")
  | PList l => match l with [] => false | _ => true end
  | PDict d => match d with [] => false | _ => true end
  end.

(** [type(v).__name__] *)
Definition py_type_name (v : pyval) : string :=
  match v with
  | PNone => "NoneType"
  | PBool _ => "bool"
  | PInt _ => "int"
  | PFloat _ => "float"
  | PStr _ => "str"
  | PList _ => "list"
  | PDict _ => "dict"
  end.

Fixpoint dict_get (d : dict) (k : string) (default : pyval) : pyval :=
  match d with
  | [] => default
  | (k', v) :: d' => if String.eqb k' k then v else dict_get d' k default
  end.

Fixpoint dict_has (d : dict) (k : string) : bool :=
  match d with
  | [] => false
  | (k', _) :: d' => String.eqb k' k || dict_has d' k
  end.

(** [d[k] = v] on an insertion-ordered dict. *)
Fixpoint dict_set (d : dict) (k : string) (v : pyval) : dict :=
  match d with
  | [] => [(k, v)]
  | (k', v') :: d' =>
      if String.eqb k' k then (k', v) :: d' else (k', v') :: dict_set d' k v
  end.

Definition dict_keys (d : dict) : list string := map fst d.

(** Structural equality of values, used for column comparisons. *)
Fixpoint pyval_eqb (a b : pyval) : bool :=
  match a, b with
  | PNone, PNone => true
  | PBool x, PBool y => Bool.eqb x y
  | PInt x, PInt y => Z.eqb x y
  | PFloat x, PFloat y => Z.eqb (Qnum x) (Qnum y) && Pos.eqb (Qden x) (Qden y)
  | PStr x, PStr y => String.eqb x y
  | PList x, PList y =>
      (fix go (l1 l2 : list pyval) : bool :=
         match l1, l2 with
         | [], [] => true
         | u :: l1', v :: l2' => pyval_eqb u v && go l1' l2'
         | _, _ => false
         end) x y
  | PDict x, PDict y =>
      (fix go (l1 l2 : list (string * pyval)) : bool :=
         match l1, l2 with
         | [], [] => true
         | (k1, u) :: l1', (k2, v) :: l2' =>
             String.eqb k1 k2 && pyval_eqb u v && go l1' l2'
         | _, _ => false
         end) x y
  | _, _ => false
  end.

(** ** Exceptions and outcomes *)

Record exn : Type := Exn { exn_type : string; exn_msg : string }.

Definition ValueError (msg : string) : exn := Exn "ValueError" msg.
Definition TypeError (msg : string) : exn := Exn "TypeError" msg.
Definition Exception (msg : string) : exn := Exn "Exception" msg.
Definition AttributeError (msg : string) : exn := Exn "AttributeError" msg.
Definition OverflowError (msg : string) : exn := Exn "OverflowError" msg.

Inductive outcome (A : Type) : Type :=
| Return (a : A)
| Raise (e : exn).
Arguments Return {A} a.
Arguments Raise {A} e.

(** ** The world handlers act on *)

Record http_request : Type := HttpRequest {
  rq_method : string;
  rq_url : string;
  rq_headers : list (string * pyval);
  rq_params : list (string * pyval);
  rq_json : option pyval
}.

(** What one HTTP exchange can come to: the transport raises, or a response
    arrives with a status code and a body that [response.json()] decodes or
    fails on. *)
Inductive http_outcome : Type :=
| NetError (e : exn)
| Reply (status_code : Z) (json : outcome pyval).

(** What [subprocess.run(..., check=True)] can come to. *)
Inductive proc_outcome : Type :=
| Exited0 (stdout : string)
| CalledProcessError (stderr : string)
| SpawnError (e : exn).

Record MemoryItem : Type := mkItem {
  it_id : Z;
  it_key : pyval;
  it_value : pyval;
  it_metadata : pyval;
  it_created_at : Z;
  it_updated_at : Z
}.

Record world : Type := mkWorld {
  w_requests : list http_request;
  w_procs : list (string * string);
  w_tmp : list string;
  w_tmp_made : nat;
  w_scripts : bool;
  w_engine : bool;
  w_table : list MemoryItem;
  w_queries : nat;
  w_clock : nat;
  w_uuids : nat
}.

Definition set_requests (l : list http_request) (w : world) : world :=
  mkWorld l (w_procs w) (w_tmp w) (w_tmp_made w) (w_scripts w) (w_engine w)
          (w_table w) (w_queries w) (w_clock w) (w_uuids w).
Definition set_procs (l : list (string * string)) (w : world) : world :=
  mkWorld (w_requests w) l (w_tmp w) (w_tmp_made w) (w_scripts w) (w_engine w)
          (w_table w) (w_queries w) (w_clock w) (w_uuids w).
Definition set_tmp (l : list string) (n : nat) (w : world) : world :=
  mkWorld (w_requests w) (w_procs w) l n (w_scripts w) (w_engine w)
          (w_table w) (w_queries w) (w_clock w) (w_uuids w).
Definition set_scripts (b : bool) (w : world) : world :=
  mkWorld (w_requests w) (w_procs w) (w_tmp w) (w_tmp_made w) b (w_engine w)
          (w_table w) (w_queries w) (w_clock w) (w_uuids w).
Definition set_engine (b : bool) (w : world) : world :=
  mkWorld (w_requests w) (w_procs w) (w_tmp w) (w_tmp_made w) (w_scripts w) b
          (w_table w) (w_queries w) (w_clock w) (w_uuids w).
Definition set_table (t : list MemoryItem) (w : world) : world :=
  mkWorld (w_requests w) (w_procs w) (w_tmp w) (w_tmp_made w) (w_scripts w)
          (w_engine w) t (w_queries w) (w_clock w) (w_uuids w).
Definition set_queries (n : nat) (w : world) : world :=
  mkWorld (w_requests w) (w_procs w) (w_tmp w) (w_tmp_made w) (w_scripts w)
          (w_engine w) (w_table w) n (w_clock w) (w_uuids w).
Definition set_clock (n : nat) (w : world) : world :=
  mkWorld (w_requests w) (w_procs w) (w_tmp w) (w_tmp_made w) (w_scripts w)
          (w_engine w) (w_table w) (w_queries w) n (w_uuids w).
Definition set_uuids (n : nat) (w : world) : world :=
  mkWorld (w_requests w) (w_procs w) (w_tmp w) (w_tmp_made w) (w_scripts w)
          (w_engine w) (w_table w) (w_queries w) (w_clock w) n.

(** The number of backend operations performed so far: HTTP exchanges,
    temporary files made, subprocesses launched, database queries. *)
Definition backend_calls (w : world) : nat :=
  (length (w_requests w) + w_tmp_made w + length (w_procs w) + w_queries w)%nat.

(** ** The monad of handlers *)

Definition M (A : Type) : Type := world -> outcome A * world.

Definition ret {A} (a : A) : M A := fun w => (Return a, w).
Definition raise {A} (e : exn) : M A := fun w => (Raise e, w).
Definition bind {A B} (c : M A) (k : A -> M B) : M B :=
  fun w => match c w with
           | (Return a, w') => k a w'
           | (Raise e, w') => (Raise e, w')
           end.
(** [try: c  except Exception as e: h e] *)
Definition try_except {A} (c : M A) (h : exn -> M A) : M A :=
  fun w => match c w with
           | (Return a, w') => (Return a, w')
           | (Raise e, w') => h e w'
           end.
Definition get_world : M world := fun w => (Return w, w).
Definition modify (f : world -> world) : M unit := fun w => (Return tt, f w).
Definition lift_outcome {A} (o : outcome A) : M A := fun w => (o, w).

Notation "x <- c ;; k" := (bind c (fun x => k))
  (at level 61, c at next level, right associativity).
Notation "c ;;; k" := (bind c (fun _ => k))
  (at level 61, right associativity).

(** [obj.get(k, default)]; only a dict has the method. *)
Definition py_get (obj : pyval) (k : string) (default : pyval) : M pyval :=
  match obj with
  | PDict d => ret (dict_get d k default)
  | _ => raise (AttributeError
                  ("'" +s+ py_type_name obj +s+ "' object has no attribute 'get'"))
  end.

(** ** The environment *)

(** [config.py]: values read from the process environment at start-up.
    Tokens and keys without a default are [None] when unset. *)
Record Config : Type := mkConfig {
  GITHUB_API_URL : string;
  GITHUB_TOKEN : pyval;
  GITLAB_API_URL : string;
  GITLAB_TOKEN : pyval;
  GMAPS_API_KEY : pyval;
  PUPPETEER_HEADLESS : bool;
  CHROME_PATH : string
}.

Record env : Type := mkEnv {
  config : Config;
  (** Python built-ins and standard library *)
  py_repr : pyval -> string;
  int_of_str : string -> option Z;
  json_loads : string -> outcome pyval;
  json_dumps : pyval -> string;
  isoformat : Z -> string;
  (** the network: the reply to a request, given the exchanges before it *)
  http_reply : list http_request -> http_request -> http_outcome;
  (** the file system and the node subprocess *)
  script_dir : string;
  script_dir_fault : option exn;
  mktemp : nat -> string -> outcome string;
  node_run : list (string * string) -> string -> string -> proc_outcome;
  read_b64 : string -> outcome string;
  (** the clock, the random source and the SQL engine's LIKE operator *)
  utcnow : nat -> Z;
  urandom16 : nat -> N;
  sql_like : string -> pyval -> bool;
  (** the SQL engine and its driver: the text of a REAL in a text column,
      and the error raised for a Python value the driver has no binding for *)
  sql_real_text : Q -> string;
  sql_bind_error : pyval -> exn;
  (** what node prints on stderr when the script it is given is not there *)
  node_no_script : string -> string
}.

(** The table of a tool module: action name to handler. *)
Definition handler : Type := pyval -> M pyval.
Definition handler_table : Type := list (string * handler).

Fixpoint lookup_handler (tbl : handler_table) (name : string) : option handler :=
  match tbl with
  | [] => None
  | (n, h) :: tbl' => if String.eqb n name then Some h else lookup_handler tbl' name
  end.

Section Builtins.
Variable E : env.

(** [str(v)], as an f-string renders a value. *)
Definition py_str (v : pyval) : string :=
  match v with
  | PStr s => s
  | _ => py_repr E v
  end.

(** [int(v)] *)
Definition py_int (v : pyval) : outcome Z :=
  match v with
  | PInt z => Return z
  | PBool b => Return (if b then 1 else 0)
  | PFloat q => Return (Z.quot (Qnum q) (Zpos (Qden q)))
  | PStr s =>
      match int_of_str E s with
      | Some z => Return z
      | None => Raise (ValueError
                  ("invalid literal for int() with base 10: " +s+ py_repr E v))
      end
  | _ => Raise (TypeError
           ("int() argument must be a string, a bytes-like object or a real number, not '"
              +s+ py_type_name v +s+ "'"))
  end.

(** The body shared by every [handle_action]:
    [if action not in action_handlers: raise ValueError(...)] and the call.
    Membership hashes the action, which a list or a dict refuses. *)
Definition run_action (action_handlers : handler_table)
    (action parameters : pyval) : M pyval :=
  match action with
  | PList _ | PDict _ =>
      raise (TypeError ("unhashable type: '" +s+ py_type_name action +s+ "'"))
  | PStr a =>
      match lookup_handler action_handlers a with
      | Some h => h parameters
      | None => raise (ValueError ("Unknown action: " +s+ py_str action))
      end
  | _ => raise (ValueError ("Unknown action: " +s+ py_str action))
  end.

(** [requests.get] / [requests.post]: the exchange is recorded; the
    transport may raise. *)
Definition requests_send (rq : http_request) : M (Z * outcome pyval) :=
  fun w =>
    let w' := set_requests (w_requests w ++ [rq]) w in
    match http_reply E (w_requests w) rq with
    | NetError e => (Raise e, w')
    | Reply code body => (Return (code, body), w')
    end.

Definition requests_get (url : string) (params headers : list (string * pyval))
  : M (Z * outcome pyval) :=
  requests_send (HttpRequest "GET" url headers params None).

Definition requests_post (url : string) (json : pyval)
    (headers : list (string * pyval)) : M (Z * outcome pyval) :=
  requests_send (HttpRequest "POST" url headers [] (Some json)).

(** The tail of every HTTP handler:
    [if response.status_code != 200: raise Exception(f"... error: {response.json()}")]
    then [return response.json()]. *)
Definition api_result (label : string) (ok : list Z)
    (response : Z * outcome pyval) : M pyval :=
  if negb (existsb (Z.eqb (fst response)) ok) then
    body <- lift_outcome (snd response) ;;
    raise (Exception (label +s+ py_str body))
  else lift_outcome (snd response).

End Builtins.

(** ** tools/github_tool.py *)

Module github.
Section Handlers.
Variable E : env.
Let cfg := config E.

Definition auth_headers : list (string * pyval) :=
  [("Authorization", PStr ("token " +s+ py_str E (GITHUB_TOKEN cfg)))].

Definition list_repos (parameters : pyval) : M pyval :=
  username <- py_get parameters "username" PNone ;;
  if negb (truthy username) then
    raise (ValueError "Username parameter is required")
  else
    response <- requests_get E
      (GITHUB_API_URL cfg +s+ "/users/" +s+ py_str E username +s+ "/repos")
      [] auth_headers ;;
    api_result E "GitHub API error: " [200] response.

Definition get_repo (parameters : pyval) : M pyval :=
  owner <- py_get parameters "owner" PNone ;;
  repo <- py_get parameters "repo" PNone ;;
  if negb (truthy owner) || negb (truthy repo) then
    raise (ValueError "Owner and repo parameters are required")
  else
    response <- requests_get E
      (GITHUB_API_URL cfg +s+ "/repos/" +s+ py_str E owner +s+ "/" +s+ py_str E repo)
      [] auth_headers ;;
    api_result E "GitHub API error: " [200] response.

Definition search_repos (parameters : pyval) : M pyval :=
  query <- py_get parameters "query" PNone ;;
  if negb (truthy query) then
    raise (ValueError "Query parameter is required")
  else
    response <- requests_get E
      (GITHUB_API_URL cfg +s+ "/search/repositories")
      [("q", query)] auth_headers ;;
    api_result E "GitHub API error: " [200] response.

Definition get_issues (parameters : pyval) : M pyval :=
  owner <- py_get parameters "owner" PNone ;;
  repo <- py_get parameters "repo" PNone ;;
  state <- py_get parameters "state" (PStr "open") ;;
  if negb (truthy owner) || negb (truthy repo) then
    raise (ValueError "Owner and repo parameters are required")
  else
    response <- requests_get E
      (GITHUB_API_URL cfg +s+ "/repos/" +s+ py_str E owner +s+ "/"
         +s+ py_str E repo +s+ "/issues")
      [("state", state)] auth_headers ;;
    api_result E "GitHub API error: " [200] response.

Definition create_issue (parameters : pyval) : M pyval :=
  owner <- py_get parameters "owner" PNone ;;
  repo <- py_get parameters "repo" PNone ;;
  title <- py_get parameters "title" PNone ;;
  body <- py_get parameters "body" (PStr "") ;;
  if negb (truthy owner) || negb (truthy repo) then
    raise (ValueError "Owner and repo parameters are required")
  else if negb (truthy title) then
    raise (ValueError "Title parameter is required")
  else
    response <- requests_post E
      (GITHUB_API_URL cfg +s+ "/repos/" +s+ py_str E owner +s+ "/"
         +s+ py_str E repo +s+ "/issues")
      (PDict [("title", title); ("body", body)]) auth_headers ;;
    api_result E "GitHub API error: " [201; 200] response.

Definition action_handlers : handler_table :=
  [("listRepos", list_repos);
   ("getRepo", get_repo);
   ("searchRepos", search_repos);
   ("getIssues", get_issues);
   ("createIssue", create_issue)].

Definition handle_action (action parameters : pyval) : M pyval :=
  run_action E action_handlers action parameters.

End Handlers.
End github.

(** ** tools/gitlab_tool.py *)

Module gitlab.
Section Handlers.
Variable E : env.
Let cfg := config E.

Definition auth_headers : list (string * pyval) :=
  [("Private-Token", GITLAB_TOKEN cfg)].

Definition list_projects (parameters : pyval) : M pyval :=
  response <- requests_get E (GITLAB_API_URL cfg +s+ "/projects") [] auth_headers ;;
  api_result E "GitLab API error: " [200] response.

Definition get_project (parameters : pyval) : M pyval :=
  project_id <- py_get parameters "projectId" PNone ;;
  if negb (truthy project_id) then
    raise (ValueError "Project ID parameter is required")
  else
    response <- requests_get E
      (GITLAB_API_URL cfg +s+ "/projects/" +s+ py_str E project_id)
      [] auth_headers ;;
    api_result E "GitLab API error: " [200] response.

Definition search_projects (parameters : pyval) : M pyval :=
  query <- py_get parameters "query" PNone ;;
  if negb (truthy query) then
    raise (ValueError "Query parameter is required")
  else
    response <- requests_get E
      (GITLAB_API_URL cfg +s+ "/search")
      [("scope", PStr "projects"); ("search", query)] auth_headers ;;
    api_result E "GitLab API error: " [200] response.

Definition get_issues (parameters : pyval) : M pyval :=
  project_id <- py_get parameters "projectId" PNone ;;
  state <- py_get parameters "state" (PStr "opened") ;;
  if negb (truthy project_id) then
    raise (ValueError "Project ID parameter is required")
  else
    response <- requests_get E
      (GITLAB_API_URL cfg +s+ "/projects/" +s+ py_str E project_id +s+ "/issues")
      [("state", state)] auth_headers ;;
    api_result E "GitLab API error: " [200] response.

Definition create_issue (parameters : pyval) : M pyval :=
  project_id <- py_get parameters "projectId" PNone ;;
  title <- py_get parameters "title" PNone ;;
  description <- py_get parameters "description" (PStr "") ;;
  if negb (truthy project_id) then
    raise (ValueError "Project ID parameter is required")
  else if negb (truthy title) then
    raise (ValueError "Title parameter is required")
  else
    response <- requests_post E
      (GITLAB_API_URL cfg +s+ "/projects/" +s+ py_str E project_id +s+ "/issues")
      (PDict [("title", title); ("description", description)]) auth_headers ;;
    api_result E "GitLab API error: " [201; 200] response.

Definition get_pipelines (parameters : pyval) : M pyval :=
  project_id <- py_get parameters "projectId" PNone ;;
  if negb (truthy project_id) then
    raise (ValueError "Project ID parameter is required")
  else
    response <- requests_get E
      (GITLAB_API_URL cfg +s+ "/projects/" +s+ py_str E project_id +s+ "/pipelines")
      [] auth_headers ;;
    api_result E "GitLab API error: " [200] response.

Definition action_handlers : handler_table :=
  [("listProjects", list_projects);
   ("getProject", get_project);
   ("searchProjects", search_projects);
   ("getIssues", get_issues);
   ("createIssue", create_issue);
   ("getPipelines", get_pipelines)].

Definition handle_action (action parameters : pyval) : M pyval :=
  run_action E action_handlers action parameters.

End Handlers.
End gitlab.

(** ** tools/gmaps_tool.py *)

Module gmaps.
Section Handlers.
Variable E : env.
Let cfg := config E.

Definition geocode (parameters : pyval) : M pyval :=
  address <- py_get parameters "address" PNone ;;
  if negb (truthy address) then
    raise (ValueError "Address parameter is required")
  else
    response <- requests_get E
      "https://maps.googleapis.com/maps/api/geocode/json"
      [("address", address); ("key", GMAPS_API_KEY cfg)] [] ;;
    api_result E "Google Maps API error: " [200] response.

Definition reverse_geocode (parameters : pyval) : M pyval :=
  lat <- py_get parameters "lat" PNone ;;
  lng <- py_get parameters "lng" PNone ;;
  if negb (truthy lat) || negb (truthy lng) then
    raise (ValueError "Latitude and longitude parameters are required")
  else
    response <- requests_get E
      "https://maps.googleapis.com/maps/api/geocode/json"
      [("latlng", PStr (py_str E lat +s+ "," +s+ py_str E lng));
       ("key", GMAPS_API_KEY cfg)] [] ;;
    api_result E "Google Maps API error: " [200] response.

Definition get_directions (parameters : pyval) : M pyval :=
  origin <- py_get parameters "origin" PNone ;;
  destination <- py_get parameters "destination" PNone ;;
  mode <- py_get parameters "mode" (PStr "driving") ;;
  if negb (truthy origin) || negb (truthy destination) then
    raise (ValueError "Origin and destination parameters are required")
  else
    response <- requests_get E
      "https://maps.googleapis.com/maps/api/directions/json"
      [("origin", origin); ("destination", destination); ("mode", mode);
       ("key", GMAPS_API_KEY cfg)] [] ;;
    api_result E "Google Maps API error: " [200] response.

Definition search_places (parameters : pyval) : M pyval :=
  query <- py_get parameters "query" PNone ;;
  location <- py_get parameters "location" PNone ;;
  radius <- py_get parameters "radius" (PInt 1000) ;;
  place_type <- py_get parameters "type" PNone ;;
  if negb (truthy query) && negb (truthy location && truthy place_type) then
    raise (ValueError "Either query or location with type parameters are required")
  else
    response <-
      (if truthy query then
         requests_get E
           "https://maps.googleapis.com/maps/api/place/textsearch/json"
           [("key", GMAPS_API_KEY cfg); ("query", query)] []
       else
         requests_get E
           "https://maps.googleapis.com/maps/api/place/nearbysearch/json"
           [("key", GMAPS_API_KEY cfg); ("location", location);
            ("radius", radius); ("type", place_type)] []) ;;
    api_result E "Google Maps API error: " [200] response.

Definition get_place_details (parameters : pyval) : M pyval :=
  place_id <- py_get parameters "placeId" PNone ;;
  if negb (truthy place_id) then
    raise (ValueError "Place ID parameter is required")
  else
    response <- requests_get E
      "https://maps.googleapis.com/maps/api/place/details/json"
      [("place_id", place_id);
       ("fields", PStr "name,rating,formatted_address,geometry,photo,opening_hours,price_level,website,formatted_phone_number");
       ("key", GMAPS_API_KEY cfg)] [] ;;
    api_result E "Google Maps API error: " [200] response.

Definition action_handlers : handler_table :=
  [("geocode", geocode);
   ("reverseGeocode", reverse_geocode);
   ("getDirections", get_directions);
   ("searchPlaces", search_places);
   ("getPlaceDetails", get_place_details)].

Definition handle_action (action parameters : pyval) : M pyval :=
  run_action E action_handlers action parameters.

End Handlers.
End gmaps.

(** ** tools/memory_tool.py *)

(** [str(uuid.uuid4())]: sixteen random bytes with the version and variant
    bits forced, printed as 32 lower-case hex digits grouped 8-4-4-4-12. *)
Definition hex_digit (n : N) : ascii :=
  match n with
  | 0%N => "0" | 1%N => "1" | 2%N => "2" | 3%N => "3"
  | 4%N => "4" | 5%N => "5" | 6%N => "6" | 7%N => "7"
  | 8%N => "8" | 9%N => "9" | 10%N => "a" | 11%N => "b"
  | 12%N => "c" | 13%N => "d" | 14%N => "e" | _ => "f"
  end%char.

Fixpoint hex_of (digits : nat) (x : N) : string :=
  match digits with
  | O => ""
  | S d => hex_of d (N.shiftr x 4) +s+ String (hex_digit (N.land x 15)) ""
  end.

Definition uuid4_int (random : N) : N :=
  let i := N.land random (N.ones 128) in
  let i := N.ldiff i (N.shiftl 0xc000 48) in
  let i := N.lor i (N.shiftl 0x8000 48) in
  let i := N.ldiff i (N.shiftl 0xf000 64) in
  N.lor i (N.shiftl 4 76).

Definition uuid_str (i : N) : string :=
  let hex := hex_of 32 i in
  substring 0 8 hex +s+ "-" +s+ substring 8 4 hex +s+ "-" +s+ substring 12 4 hex
    +s+ "-" +s+ substring 16 4 hex +s+ "-" +s+ substring 20 12 hex.

(** SQLite's rowid for a new row: one more than the largest in use. *)
Definition next_rowid (t : list MemoryItem) : Z :=
  1 + fold_right Z.max 0 (map it_id t).

(** [query.limit(limit).offset(offset)] as SQLite reads it: a negative LIMIT
    is no limit, a negative OFFSET is zero. *)
Definition sql_limit_offset {A} (limit offset : Z) (rows : list A) : list A :=
  let rest := skipn (Z.to_nat offset) rows in
  if limit <? 0 then rest else firstn (Z.to_nat limit) rest.

(** Whether an integer binds to a SQLite INTEGER (64-bit signed). *)
Definition fits_int64 (z : Z) : bool :=
  (- 2 ^ 63 <=? z) && (z <? 2 ^ 63).

(** The decimal text of an integer. *)
Definition int_text (z : Z) : string := NilZero.string_of_int (Z.to_int z).

(** What a [String] or [Text] column makes of a Python value bound to it,
    in an INSERT, an UPDATE or a comparison.  The column types pass the
    value to the driver unchanged; the driver binds [None], [str], [int]
    ([bool] included) and [float], and raises for anything else, and for
    an [int] outside 64 bits; the column's TEXT affinity then turns a
    number into its text.  The result is [PNone] (NULL) or a [PStr]. *)
Definition sql_text (E : env) (v : pyval) : outcome pyval :=
  match v with
  | PNone => Return PNone
  | PStr s => Return (PStr s)
  | PBool b => Return (PStr (if b then "1" else "0"))
  | PInt z =>
      if fits_int64 z then Return (PStr (int_text z))
      else Raise (OverflowError "Python int too large to convert to SQLite INTEGER")
  | PFloat q => Return (PStr (sql_real_text E q))
  | PList _ | PDict _ => Raise (sql_bind_error E v)
  end.

Module memory.
Section Handlers.
Variable E : env.

Definition to_dict (self : MemoryItem) : pyval :=
  PDict [("id", PInt (it_id self));
         ("key", it_key self);
         ("value", it_value self);
         ("metadata", it_metadata self);
         ("created_at", PStr (isoformat E (it_created_at self)));
         ("updated_at", PStr (isoformat E (it_updated_at self)))].

(** [if engine is None: initialize_db(current_app)] *)
Definition ensure_engine : M unit :=
  fun w => if w_engine w then (Return tt, w) else (Return tt, set_engine true w).

(** [datetime.datetime.utcnow()]: one more reading of the clock. *)
Definition now : M Z :=
  fun w => (Return (utcnow E (w_clock w)), set_clock (S (w_clock w)) w).

(** [str(uuid.uuid4())] *)
Definition uuid4 : M string :=
  fun w => (Return (uuid_str (uuid4_int (urandom16 E (w_uuids w)))),
            set_uuids (S (w_uuids w)) w).

(** [session.query(MemoryItem).filter_by(key=key).first()]: the key is
    bound to the comparison with the [key] column, and the first row whose
    stored text equals the bound text is loaded.  The statement is issued
    whether or not the driver accepts the key. *)
Definition query_by_key (key : pyval) : M (option MemoryItem) :=
  fun w =>
    let w' := set_queries (S (w_queries w)) w in
    match sql_text E key with
    | Return bound =>
        (Return (find (fun it => pyval_eqb (it_key it) bound) (w_table w)), w')
    | Raise e => (Raise e, w')
    end.

(** The rows a query yields, and one execution of it. *)
Definition run_query (rows : list MemoryItem) : M (list MemoryItem) :=
  fun w => (Return rows, set_queries (S (w_queries w)) w).

Definition get_memory (parameters : pyval) : M pyval :=
  key <- py_get parameters "key" PNone ;;
  if negb (truthy key) then
    raise (ValueError "Key parameter is required")
  else
    ensure_engine ;;;
    item <- query_by_key key ;;
    match item with
    | None =>
        raise (ValueError ("Memory item with key '" +s+ py_str E key +s+ "' not found"))
    | Some it => ret (to_dict it)
    end.

Definition set_memory (parameters : pyval) : M pyval :=
  key <- py_get parameters "key" PNone ;;
  value <- py_get parameters "value" PNone ;;
  metadata <- py_get parameters "metadata" (PDict []) ;;
  key <- (if negb (truthy key) then (u <- uuid4 ;; ret (PStr u)) else ret key) ;;
  ensure_engine ;;;
  item <- query_by_key key ;;
  match item with
  | Some it =>
      t <- now ;;
      (* commit: UPDATE ... SET value = ? ... WHERE id = ?; a value the
         driver refuses raises and leaves the row as it was *)
      stored <- lift_outcome (sql_text E value) ;;
      let it' := mkItem (it_id it) (it_key it) stored metadata (it_created_at it) t in
      modify (fun w => set_table
                (map (fun r => if it_id r =? it_id it then it' else r) (w_table w)) w) ;;;
      (* [to_dict] reloads the row the commit has expired *)
      ret (to_dict it')
  | None =>
      (* commit: INSERT, the column defaults each read the clock; a value
         the driver refuses raises and no row is added *)
      created <- now ;;
      updated <- now ;;
      stored_key <- lift_outcome (sql_text E key) ;;
      stored <- lift_outcome (sql_text E value) ;;
      w <- get_world ;;
      let it' := mkItem (next_rowid (w_table w)) stored_key stored metadata
                        created updated in
      modify (set_table (w_table w ++ [it'])) ;;;
      ret (to_dict it')
  end.

Definition delete_memory (parameters : pyval) : M pyval :=
  key <- py_get parameters "key" PNone ;;
  if negb (truthy key) then
    raise (ValueError "Key parameter is required")
  else
    ensure_engine ;;;
    item <- query_by_key key ;;
    match item with
    | None =>
        raise (ValueError ("Memory item with key '" +s+ py_str E key +s+ "' not found"))
    | Some it =>
        (* commit: DELETE ... WHERE id = ? *)
        modify (fun w => set_table
                  (filter (fun r => negb (it_id r =? it_id it)) (w_table w)) w) ;;;
        ret (PDict [("success", PBool true);
                    ("message", PStr ("Memory item with key " +s+ py_str E key
                                        +s+ " deleted successfully"))])
    end.

(** The rows [query] selects once the optional key filter is applied. *)
Definition filtered_rows (filter_key : pyval) (t : list MemoryItem)
  : list MemoryItem :=
  if truthy filter_key then
    filter (fun it => sql_like E ("%" +s+ py_str E filter_key +s+ "%") (it_key it)) t
  else t.

Definition list_memory (parameters : pyval) : M pyval :=
  filter_key <- py_get parameters "filterKey" PNone ;;
  limit_arg <- py_get parameters "limit" (PInt 100) ;;
  limit <- lift_outcome (py_int E limit_arg) ;;
  offset_arg <- py_get parameters "offset" (PInt 0) ;;
  offset <- lift_outcome (py_int E offset_arg) ;;
  ensure_engine ;;;
  w <- get_world ;;
  let query := filtered_rows filter_key (w_table w) in
  counted <- run_query query ;;
  let total := Z.of_nat (length counted) in
  if negb (fits_int64 limit && fits_int64 offset) then
    raise (OverflowError "Python int too large to convert to SQLite INTEGER")
  else
    items <- run_query (sql_limit_offset limit offset query) ;;
    ret (PDict [("items", PList (map to_dict items));
                ("total", PInt total);
                ("limit", PInt limit);
                ("offset", PInt offset)]).

Definition search_memory (parameters : pyval) : M pyval :=
  query_string <- py_get parameters "q" PNone ;;
  if negb (truthy query_string) then
    raise (ValueError "Query parameter is required")
  else
    ensure_engine ;;;
    w <- get_world ;;
    items <- run_query
      (filter (fun it => sql_like E ("%" +s+ py_str E query_string +s+ "%")
                                  (it_value it)) (w_table w)) ;;
    let result := map to_dict items in
    ret (PDict [("items", PList result);
                ("count", PInt (Z.of_nat (length result)));
                ("query", query_string)]).

Definition action_handlers : handler_table :=
  [("get", get_memory);
   ("set", set_memory);
   ("delete", delete_memory);
   ("list", list_memory);
   ("search", search_memory)].

Definition handle_action (action parameters : pyval) : M pyval :=
  run_action E action_handlers action parameters.

End Handlers.
End memory.

(** ** tools/puppeteer_tool.py *)

Module puppeteer.
Section Handlers.
Variable E : env.
Let cfg := config E.

(** [ensure_script_dir()]: makes the script directory and writes the three
    node scripts that are not there yet; any step may raise. *)
Definition ensure_script_dir : M unit :=
  fun w => match script_dir_fault E with
           | Some e => (Raise e, w)
           | None => (Return tt, set_scripts true w)
           end.

(** [tempfile.NamedTemporaryFile(suffix=..., delete=False)] *)
Definition make_tmp (suffix : string) : M string :=
  fun w => match mktemp E (w_tmp_made w) suffix with
           | Return p => (Return p, set_tmp (p :: w_tmp w) (S (w_tmp_made w)) w)
           | Raise e => (Raise e, set_tmp (w_tmp w) (S (w_tmp_made w)) w)
           end.

(** [if os.path.exists(output_path): os.unlink(output_path)] *)
Definition unlink (path : string) : M unit :=
  modify (fun w => set_tmp (filter (fun p => negb (String.eqb p path)) (w_tmp w))
                           (w_tmp_made w) w).

(** [for param in names: if param in parameters: script_args[param] = parameters[param]] *)
Definition copy_optional (names : list string) (parameters : pyval)
    (script_args : dict) : dict :=
  match parameters with
  | PDict d =>
      fold_left (fun acc param =>
                   if dict_has d param then dict_set acc param (dict_get d param PNone)
                   else acc)
                names script_args
  | _ => script_args
  end.

(** [subprocess.run(['node', script, json.dumps(script_args)], check=True)].
    When node cannot be started the call raises as the environment says.
    When it starts, it runs the script if [ensure_script_dir] has written
    the scripts; on a script that is not there it prints its own error and
    exits with a non-zero code. *)
Definition run_node (script : string) (script_args : dict)
  : world -> proc_outcome * world :=
  fun w =>
    let argv := json_dumps E (PDict script_args) in
    let ran :=
      match node_run E (w_procs w) script argv with
      | SpawnError e => SpawnError e
      | started =>
          if w_scripts w then started
          else CalledProcessError (node_no_script E script)
      end in
    (ran, set_procs (w_procs w ++ [(script, argv)]) w).

Definition failure (error : pyval) : pyval :=
  PDict [("success", PBool false); ("error", error)].

(** The [except subprocess.CalledProcessError] handler: the script's stderr
    is tried as JSON, and kept as it is when that fails in any way. *)
Definition stderr_failure (error_message : string) : pyval :=
  match json_loads E error_message with
  | Return (PDict error_data) =>
      failure (dict_get error_data "error" (PStr error_message))
  | _ => failure (PStr error_message)
  end.

Definition take_screenshot (parameters : pyval) : M pyval :=
  url <- py_get parameters "url" PNone ;;
  full_page <- py_get parameters "fullPage" (PBool false) ;;
  image_type <- py_get parameters "type" (PStr "png") ;;
  if negb (truthy url) then
    raise (ValueError "URL parameter is required")
  else
    output_path <- make_tmp ("." +s+ py_str E image_type) ;;
    let script_args :=
      copy_optional ["waitForSelector"; "waitTime"; "viewport"; "userAgent"; "quality"]
        parameters
        [("url", url); ("outputPath", PStr output_path); ("fullPage", full_page);
         ("type", image_type); ("headless", PBool (PUPPETEER_HEADLESS cfg));
         ("executablePath", PStr (CHROME_PATH cfg))] in
    let script_path := script_dir E +s+ "/screenshot.js" in
    fun w =>
      match run_node script_path script_args w with
      | (Exited0 stdout, w1) =>
          try_except
            (result <- lift_outcome (json_loads E stdout) ;;
             base64_image <- lift_outcome (read_b64 E output_path) ;;
             unlink output_path ;;;
             ret (PDict [("success", PBool true); ("imageType", image_type);
                         ("base64Image", PStr base64_image)]))
            (fun e => unlink output_path ;;; ret (failure (PStr (exn_msg e))))
            w1
      | (CalledProcessError stderr, w1) =>
          (unlink output_path ;;; ret (stderr_failure stderr)) w1
      | (SpawnError e, w1) =>
          (unlink output_path ;;; ret (failure (PStr (exn_msg e)))) w1
      end.

Definition generate_pdf (parameters : pyval) : M pyval :=
  url <- py_get parameters "url" PNone ;;
  print_background <- py_get parameters "printBackground" (PBool true) ;;
  if negb (truthy url) then
    raise (ValueError "URL parameter is required")
  else
    output_path <- make_tmp ".pdf" ;;
    let script_args :=
      copy_optional ["format"; "margin"; "waitForSelector"; "waitTime"; "viewport";
                     "userAgent"]
        parameters
        [("url", url); ("outputPath", PStr output_path);
         ("printBackground", print_background);
         ("headless", PBool (PUPPETEER_HEADLESS cfg));
         ("executablePath", PStr (CHROME_PATH cfg))] in
    let script_path := script_dir E +s+ "/pdf.js" in
    fun w =>
      match run_node script_path script_args w with
      | (Exited0 stdout, w1) =>
          try_except
            (result <- lift_outcome (json_loads E stdout) ;;
             base64_pdf <- lift_outcome (read_b64 E output_path) ;;
             unlink output_path ;;;
             ret (PDict [("success", PBool true); ("base64Pdf", PStr base64_pdf)]))
            (fun e => unlink output_path ;;; ret (failure (PStr (exn_msg e))))
            w1
      | (CalledProcessError stderr, w1) =>
          (unlink output_path ;;; ret (stderr_failure stderr)) w1
      | (SpawnError e, w1) =>
          (unlink output_path ;;; ret (failure (PStr (exn_msg e)))) w1
      end.

Definition extract_content (parameters : pyval) : M pyval :=
  url <- py_get parameters "url" PNone ;;
  selector <- py_get parameters "selector" PNone ;;
  extract_html <- py_get parameters "extractHtml" (PBool false) ;;
  if negb (truthy url) then
    raise (ValueError "URL parameter is required")
  else
    let script_args :=
      copy_optional ["waitForSelector"; "waitTime"; "userAgent"]
        parameters
        [("url", url); ("selector", selector); ("extractHtml", extract_html);
         ("headless", PBool (PUPPETEER_HEADLESS cfg));
         ("executablePath", PStr (CHROME_PATH cfg))] in
    let script_path := script_dir E +s+ "/extract.js" in
    fun w =>
      match run_node script_path script_args w with
      | (Exited0 stdout, w1) =>
          try_except
            (result <- lift_outcome (json_loads E stdout) ;;
             content <- py_get result "content" PNone ;;
             ret (PDict [("success", PBool true); ("content", content)]))
            (fun e => ret (failure (PStr (exn_msg e))))
            w1
      | (CalledProcessError stderr, w1) => (Return (stderr_failure stderr), w1)
      | (SpawnError e, w1) => (Return (failure (PStr (exn_msg e))), w1)
      end.

Definition action_handlers : handler_table :=
  [("screenshot", take_screenshot);
   ("pdf", generate_pdf);
   ("extract", extract_content)].

Definition handle_action (action parameters : pyval) : M pyval :=
  ensure_script_dir ;;;
  run_action E action_handlers action parameters.

End Handlers.
End puppeteer.

(** ** app.py: the gateway *)

(** What a view function hands back to Flask: a JSON body with a status
    code, or an exception that escapes the view. *)
Inductive response : Type :=
| Response (body : pyval) (status : Z)
| Unhandled (e : exn).

Definition success_envelope (tool_name action result : pyval) : pyval :=
  PDict [("tool", tool_name); ("action", action);
         ("status", PStr "success"); ("result", result)].

Definition error_envelope (tool_name action : pyval) (e : exn) : pyval :=
  PDict [("tool", tool_name); ("action", action);
         ("status", PStr "error");
         ("error", PDict [("type", PStr (exn_type e));
                          ("message", PStr (exn_msg e))])].

Section Gateway.
Variable E : env.

(** The [if tool_name == ... elif ...] chain: the [handle_action] it imports. *)
Definition route (tool_name : pyval) : option (pyval -> pyval -> M pyval) :=
  match tool_name with
  | PStr t =>
      if String.eqb t "github" then Some (github.handle_action E)
      else if String.eqb t "gitlab" then Some (gitlab.handle_action E)
      else if String.eqb t "gmaps" then Some (gmaps.handle_action E)
      else if String.eqb t "memory" then Some (memory.handle_action E)
      else if String.eqb t "puppeteer" then Some (puppeteer.handle_action E)
      else None
  | _ => None
  end.

Definition mcp_gateway (data : pyval) : world -> response * world :=
  fun w =>
    if negb (truthy data) then
      (Response (PDict [("error", PStr "Request body is required")]) 400, w)
    else
      match data with
      | PDict d =>
          let tool_name := dict_get d "tool" PNone in
          let action := dict_get d "action" PNone in
          let parameters := dict_get d "parameters" (PDict []) in
          if negb (truthy tool_name) then
            (Response (PDict [("error", PStr "Tool name is required")]) 400, w)
          else if negb (truthy action) then
            (Response (PDict [("error", PStr "Action is required")]) 400, w)
          else
            match route tool_name with
            | Some handle_action =>
                match handle_action action parameters w with
                | (Return result, w') =>
                    (Response (success_envelope tool_name action result) 200, w')
                | (Raise e, w') =>
                    (Response (error_envelope tool_name action e) 500, w')
                end
            | None =>
                (Response (PDict [("error",
                                   PStr ("Unknown tool: " +s+ py_str E tool_name))])
                          404, w)
            end
      | _ =>
          (Unhandled (AttributeError
                        ("'" +s+ py_type_name data +s+ "' object has no attribute 'get'")),
           w)
      end.

(** The action tables behind the gateway, by tool name. *)
Definition registry : list (string * handler_table) :=
  [("github", github.action_handlers E);
   ("gitlab", gitlab.action_handlers E);
   ("gmaps", gmaps.action_handlers E);
   ("memory", memory.action_handlers E);
   ("puppeteer", puppeteer.action_handlers E)].

Fixpoint lookup_tool (r : list (string * handler_table)) (tool : string)
  : option handler_table :=
  match r with
  | [] => None
  | (t, tbl) :: r' => if String.eqb t tool then Some tbl else lookup_tool r' tool
  end.

(** The handler a dispatch for [(tool, action)] comes to run, if any. *)
Definition resolve (tool action : string) : option handler :=
  match lookup_tool registry tool with
  | Some tbl => lookup_handler tbl action
  | None => None
  end.

End Gateway.

(** The (tool, action) names the gateway can dispatch. *)
Definition registered_actions (E : env) : list (string * string) :=
  flat_map (fun entry => map (fun a => (fst entry, fst a)) (snd entry)) (registry E).

(** ** app.py: the manifest literal of [mcp_manifest] *)

Definition manifest : pyval :=
  PDict [
    ("manifestVersion", PStr "1.0");
    ("tools", PDict [
      ("github", PDict [
        ("actions", PDict [
          ("listRepos", PDict [
            ("description", PStr "List repositories for a user or organization");
            ("parameters", PDict [
              ("username", PDict [
                ("type", PStr "string");
                ("description", PStr "GitHub username or organization name")])]);
            ("returns", PDict [("type", PStr "array"); ("description", PStr "List of repository objects")])]);
          ("getRepo", PDict [
            ("description", PStr "Get details for a specific repository");
            ("parameters", PDict [
              ("owner", PDict [("type", PStr "string"); ("description", PStr "Repository owner")]);
              ("repo", PDict [("type", PStr "string"); ("description", PStr "Repository name")])]);
            ("returns", PDict [("type", PStr "object"); ("description", PStr "Repository details")])]);
          ("searchRepos", PDict [
            ("description", PStr "Search for repositories");
            ("parameters", PDict [
              ("query", PDict [("type", PStr "string"); ("description", PStr "Search query")])]);
            ("returns", PDict [("type", PStr "object"); ("description", PStr "Search results")])]);
          ("getIssues", PDict [
            ("description", PStr "Get issues for a repository");
            ("parameters", PDict [
              ("owner", PDict [("type", PStr "string"); ("description", PStr "Repository owner")]);
              ("repo", PDict [("type", PStr "string"); ("description", PStr "Repository name")]);
              ("state", PDict [
                ("type", PStr "string");
                ("description", PStr "Issue state (open, closed, all)");
                ("default", PStr "open")])]);
            ("returns", PDict [("type", PStr "array"); ("description", PStr "List of issue objects")])]);
          ("createIssue", PDict [
            ("description", PStr "Create a new issue in a repository");
            ("parameters", PDict [
              ("owner", PDict [("type", PStr "string"); ("description", PStr "Repository owner")]);
              ("repo", PDict [("type", PStr "string"); ("description", PStr "Repository name")]);
              ("title", PDict [("type", PStr "string"); ("description", PStr "Issue title")]);
              ("body", PDict [("type", PStr "string"); ("description", PStr "Issue body")])]);
            ("returns", PDict [("type", PStr "object"); ("description", PStr "Created issue")])])])]);
      ("gitlab", PDict [
        ("actions", PDict [
          ("listProjects", PDict [
            ("description", PStr "List all projects accessible by the authenticated user");
            ("parameters", PDict []);
            ("returns", PDict [("type", PStr "array"); ("description", PStr "List of project objects")])]);
          ("getProject", PDict [
            ("description", PStr "Get details for a specific project");
            ("parameters", PDict [
              ("projectId", PDict [("type", PStr "string"); ("description", PStr "GitLab project ID")])]);
            ("returns", PDict [("type", PStr "object"); ("description", PStr "Project details")])]);
          ("searchProjects", PDict [
            ("description", PStr "Search for projects on GitLab");
            ("parameters", PDict [
              ("query", PDict [("type", PStr "string"); ("description", PStr "Search query")])]);
            ("returns", PDict [("type", PStr "object"); ("description", PStr "Search results")])])])]);
      ("gmaps", PDict [
        ("actions", PDict [
          ("geocode", PDict [
            ("description", PStr "Convert an address to geographic coordinates");
            ("parameters", PDict [
              ("address", PDict [("type", PStr "string"); ("description", PStr "Address to geocode")])]);
            ("returns", PDict [("type", PStr "object"); ("description", PStr "Geocoding results")])]);
          ("reverseGeocode", PDict [
            ("description", PStr "Convert geographic coordinates to an address");
            ("parameters", PDict [
              ("lat", PDict [("type", PStr "number"); ("description", PStr "Latitude")]);
              ("lng", PDict [("type", PStr "number"); ("description", PStr "Longitude")])]);
            ("returns", PDict [("type", PStr "object"); ("description", PStr "Reverse geocoding results")])]);
          ("getDirections", PDict [
            ("description", PStr "Get directions between two locations");
            ("parameters", PDict [
              ("origin", PDict [
                ("type", PStr "string");
                ("description", PStr "Origin address or coordinates")]);
              ("destination", PDict [
                ("type", PStr "string");
                ("description", PStr "Destination address or coordinates")]);
              ("mode", PDict [
                ("type", PStr "string");
                ("description", PStr "Travel mode (driving, walking, bicycling, transit)");
                ("default", PStr "driving")])]);
            ("returns", PDict [("type", PStr "object"); ("description", PStr "Directions results")])])])]);
      ("memory", PDict [
        ("actions", PDict [
          ("get", PDict [
            ("description", PStr "Get a memory item by key");
            ("parameters", PDict [
              ("key", PDict [("type", PStr "string"); ("description", PStr "Memory item key")])]);
            ("returns", PDict [("type", PStr "object"); ("description", PStr "Memory item")])]);
          ("set", PDict [
            ("description", PStr "Create or update a memory item");
            ("parameters", PDict [
              ("key", PDict [("type", PStr "string"); ("description", PStr "Memory item key")]);
              ("value", PDict [("type", PStr "any"); ("description", PStr "Memory item value")]);
              ("metadata", PDict [
                ("type", PStr "object");
                ("description", PStr "Optional metadata");
                ("default", PDict [])])]);
            ("returns", PDict [
              ("type", PStr "object");
              ("description", PStr "Created or updated memory item")])]);
          ("delete", PDict [
            ("description", PStr "Delete a memory item by key");
            ("parameters", PDict [
              ("key", PDict [("type", PStr "string"); ("description", PStr "Memory item key")])]);
            ("returns", PDict [("type", PStr "object"); ("description", PStr "Deletion result")])]);
          ("list", PDict [
            ("description", PStr "List all memory items, with optional filtering");
            ("parameters", PDict [
              ("filterKey", PDict [("type", PStr "string"); ("description", PStr "Optional key filter")]);
              ("limit", PDict [
                ("type", PStr "number");
                ("description", PStr "Maximum number of items to return");
                ("default", PInt 100)]);
              ("offset", PDict [
                ("type", PStr "number");
                ("description", PStr "Number of items to skip");
                ("default", PInt 0)])]);
            ("returns", PDict [
              ("type", PStr "object");
              ("description", PStr "List of memory items with pagination info")])])])]);
      ("puppeteer", PDict [
        ("actions", PDict [
          ("screenshot", PDict [
            ("description", PStr "Take a screenshot of a webpage");
            ("parameters", PDict [
              ("url", PDict [("type", PStr "string"); ("description", PStr "URL to screenshot")]);
              ("fullPage", PDict [
                ("type", PStr "boolean");
                ("description", PStr "Whether to capture the full page");
                ("default", PBool false)]);
              ("type", PDict [
                ("type", PStr "string");
                ("description", PStr "Image type (png or jpeg)");
                ("default", PStr "png")])]);
            ("returns", PDict [
              ("type", PStr "object");
              ("description", PStr "Screenshot result with base64-encoded image")])]);
          ("pdf", PDict [
            ("description", PStr "Generate a PDF of a webpage");
            ("parameters", PDict [
              ("url", PDict [("type", PStr "string"); ("description", PStr "URL to convert to PDF")]);
              ("printBackground", PDict [
                ("type", PStr "boolean");
                ("description", PStr "Whether to print background graphics");
                ("default", PBool true)])]);
            ("returns", PDict [
              ("type", PStr "object");
              ("description", PStr "PDF result with base64-encoded document")])]);
          ("extract", PDict [
            ("description", PStr "Extract content from a webpage");
            ("parameters", PDict [
              ("url", PDict [
                ("type", PStr "string");
                ("description", PStr "URL to extract content from")]);
              ("selector", PDict [
                ("type", PStr "string");
                ("description", PStr "CSS selector for content to extract")])]);
            ("returns", PDict [("type", PStr "object"); ("description", PStr "Extracted content")])])])])])].

Definition mcp_manifest : response := Response manifest 200.

Definition as_dict (v : pyval) : dict :=
  match v with
  | PDict d => d
  | _ => []
  end.

(** The (tool, action) names the manifest advertises, in document order. *)
Definition manifest_actions : list (string * string) :=
  flat_map (fun tool =>
              map (fun a => (fst tool, fst a))
                  (as_dict (dict_get (as_dict (snd tool)) "actions" PNone)))
           (as_dict (dict_get (as_dict manifest) "tools" PNone)).

Definition pair_eqb (x y : string * string) : bool :=
  String.eqb (fst x) (fst y) && String.eqb (snd x) (snd y).

Definition occurrences (x : string * string) (l : list (string * string)) : nat :=
  length (filter (pair_eqb x) l).

(** ** Observations on responses and on the store *)

Definition response_status (r : response) : option Z :=
  match r with
  | Response _ status => Some status
  | Unhandled _ => None
  end.

(** [body["status"]], when the body is an envelope. *)
Definition envelope_status (r : response) : option pyval :=
  match r with
  | Response (PDict d) _ =>
      if dict_has d "status" then Some (dict_get d "status" PNone) else None
  | _ => None
  end.

(** [body["error"]["type"]], when the body carries an error object. *)
Definition error_kind (r : response) : option pyval :=
  match r with
  | Response (PDict d) _ =>
      match dict_get d "error" PNone with
      | PDict e => if dict_has e "type" then Some (dict_get e "type" PNone) else None
      | _ => None
      end
  | _ => None
  end.

(** The prefix of the message an HTTP handler gives the [Exception] it
    raises for an upstream status it does not accept. *)
Definition api_error_label (tool : string) : string :=
  if String.eqb tool "github" then "GitHub API error: "
  else if String.eqb tool "gitlab" then "GitLab API error: "
  else "Google Maps API error: ".

(** The unique constraints of the [memory_items] table. *)
Definition table_ok (t : list MemoryItem) : Prop :=
  NoDup (map it_id t) /\ NoDup (map it_key t).

(** The parameter checks each handler makes before any backend work, in
    the order it makes them: the parameters tested together and the message
    of the [ValueError] raised when one of them is missing or falsy. *)
Definition required_checks
  : list ((string * string) * list (list string * string)) :=
  [(("github", "listRepos"), [(["username"], "Username parameter is required")]);
   (("github", "getRepo"), [(["owner"; "repo"], "Owner and repo parameters are required")]);
   (("github", "searchRepos"), [(["query"], "Query parameter is required")]);
   (("github", "getIssues"), [(["owner"; "repo"], "Owner and repo parameters are required")]);
   (("github", "createIssue"),
      [(["owner"; "repo"], "Owner and repo parameters are required");
       (["title"], "Title parameter is required")]);
   (("gitlab", "getProject"), [(["projectId"], "Project ID parameter is required")]);
   (("gitlab", "searchProjects"), [(["query"], "Query parameter is required")]);
   (("gitlab", "getIssues"), [(["projectId"], "Project ID parameter is required")]);
   (("gitlab", "createIssue"),
      [(["projectId"], "Project ID parameter is required");
       (["title"], "Title parameter is required")]);
   (("gitlab", "getPipelines"), [(["projectId"], "Project ID parameter is required")]);
   (("gmaps", "geocode"), [(["address"], "Address parameter is required")]);
   (("gmaps", "reverseGeocode"),
      [(["lat"; "lng"], "Latitude and longitude parameters are required")]);
   (("gmaps", "getDirections"),
      [(["origin"; "destination"], "Origin and destination parameters are required")]);
   (("gmaps", "getPlaceDetails"), [(["placeId"], "Place ID parameter is required")]);
   (("memory", "get"), [(["key"], "Key parameter is required")]);
   (("memory", "delete"), [(["key"], "Key parameter is required")]);
   (("memory", "search"), [(["q"], "Query parameter is required")]);
   (("puppeteer", "screenshot"), [(["url"], "URL parameter is required")]);
   (("puppeteer", "pdf"), [(["url"], "URL parameter is required")]);
   (("puppeteer", "extract"), [(["url"], "URL parameter is required")])].

(** The message of the first check that a parameter bag fails, if any. *)
Fixpoint first_missing (checks : list (list string * string)) (parameters : dict)
  : option string :=
  match checks with
  | [] => None
  | (names, msg) :: checks' =>
      if forallb (fun n => truthy (dict_get parameters n PNone)) names
      then first_missing checks' parameters
      else Some msg
  end.

(** ** A concrete environment, for running the model *)

Definition repr0 (v : pyval) : string :=
  match v with
  | PNone => "None"
  | PBool true => "True"
  | PBool false => "False"
  | PStr s => "'" +s+ s +s+ "'"
  | PList [] => "[]"
  | PDict [] => "{}"
  | _ => "<value>"
  end.

Definition config0 : Config :=
  mkConfig "https://api.github.com" PNone "https://gitlab.com/api/v4" PNone PNone
           true "/usr/bin/chromium-browser".

(** A LIKE for the patterns the handlers build, [%text%]: the subject is
    a text in which [text] occurs. *)
Definition like0 (pattern : string) (subject : pyval) : bool :=
  match subject with
  | PStr s =>
      match index 0 (substring 1 (String.length pattern - 2) pattern) s with
      | Some _ => true
      | None => false
      end
  | _ => false
  end.

(** Every upstream answers 200 with an empty list, node exits with the
    given outcome, the clock ticks by one per reading. *)
Definition env_of (node : proc_outcome) (like : string -> pyval -> bool) : env :=
  mkEnv config0 repr0 (fun _ => None)
        (fun _ => Raise (Exn "JSONDecodeError" "Expecting value: line 1 column 1 (char 0)"))
        (fun _ => "{}")
        (fun _ => "1970-01-01T00:00:00")
        (fun _ _ => Reply 200 (Return (PList [])))
        "/app/node_scripts" None
        (fun _ suffix => Return ("/tmp/tmpabc" +s+ suffix))
        (fun _ _ _ => node)
        (fun _ => Return "")
        (fun n => Z.of_nat n)
        (fun n => N.of_nat n)
        like
        (fun _ => "0.0")
        (fun v => Exn "ProgrammingError"
                      ("Error binding parameter: type '" +s+ py_type_name v
                         +s+ "' is not supported"))
        (fun script => "Error: Cannot find module '" +s+ script +s+ "'").

Definition env_with (node : proc_outcome) : env := env_of node (fun _ _ => true).

Definition env0 : env := env_with (Exited0 "{}").

(** The same environment with [like0] for LIKE. *)
Definition env_like : env := env_of (Exited0 "{}") like0.

Definition world0 : world := mkWorld [] [] [] 0 false false [] 0 0 0.

(** The store after one [set] of value "v" under key "k". *)
Definition world_with_k : world :=
  snd (memory.set_memory env0 (PDict [("key", PStr "k"); ("value", PStr "v")]) world0).

(** A store of three items, under the keys "alpha", "beta" and "alphabet". *)
Definition world_abc : world :=
  snd (memory.set_memory env_like
         (PDict [("key", PStr "alphabet"); ("value", PStr "3")])
         (snd (memory.set_memory env_like
                 (PDict [("key", PStr "beta"); ("value", PStr "2")])
                 (snd (memory.set_memory env_like
                         (PDict [("key", PStr "alpha"); ("value", PStr "1")])
                         world0))))).

(** The JSON body of a gateway call. *)
Definition call (tool action : string) (parameters : dict) : pyval :=
  PDict [("tool", PStr tool); ("action", PStr action);
         ("parameters", PDict parameters)].

(** ** The direct routes of the tool modules *)

(** What a view reads of the Flask request: the query string, and what
    [request.get_json()] gives or raises. *)
Record flask_request : Type := mkRequest {
  fr_args : list (string * string);
  fr_json : outcome pyval
}.

(** [request.args.get(k, default)] *)
Fixpoint args_get (args : list (string * string)) (k : string) (default : pyval)
  : pyval :=
  match args with
  | [] => default
  | (k', v) :: args' => if String.eqb k' k then PStr v else args_get args' k default
  end.

(** The frame of every direct route:
    [try: ... return jsonify(result), ok
     except Exception as e: return jsonify(on_error(str(e))), 400]. *)
Definition view (ok : Z) (on_error : string -> pyval) (c : M pyval)
  : world -> response * world :=
  fun w => match c w with
           | (Return result, w') => (Response result ok, w')
           | (Raise e, w') => (Response (on_error (exn_msg e)) 400, w')
           end.

Definition error_body (msg : string) : pyval := PDict [("error", PStr msg)].

Module github_api.
Section Routes.
Variable E : env.

Definition api_list_repos (request : flask_request) : world -> response * world :=
  view 200 error_body
    (let username := args_get (fr_args request) "username" PNone in
     github.list_repos E (PDict [("username", username)])).

Definition api_get_repo (owner repo : string) (request : flask_request)
  : world -> response * world :=
  view 200 error_body
    (github.get_repo E (PDict [("owner", PStr owner); ("repo", PStr repo)])).

Definition api_search_repos (request : flask_request) : world -> response * world :=
  view 200 error_body
    (let query := args_get (fr_args request) "query" PNone in
     github.search_repos E (PDict [("query", query)])).

Definition api_get_issues (owner repo : string) (request : flask_request)
  : world -> response * world :=
  view 200 error_body
    (let state := args_get (fr_args request) "state" (PStr "open") in
     github.get_issues E
       (PDict [("owner", PStr owner); ("repo", PStr repo); ("state", state)])).

Definition api_create_issue (owner repo : string) (request : flask_request)
  : world -> response * world :=
  view 201 error_body
    (data <- lift_outcome (fr_json request) ;;
     title <- py_get data "title" PNone ;;
     body <- py_get data "body" (PStr "") ;;
     github.create_issue E
       (PDict [("owner", PStr owner); ("repo", PStr repo);
               ("title", title); ("body", body)])).

End Routes.
End github_api.

Module gitlab_api.
Section Routes.
Variable E : env.

Definition api_list_projects (request : flask_request) : world -> response * world :=
  view 200 error_body (gitlab.list_projects E (PDict [])).

Definition api_get_project (project_id : string) (request : flask_request)
  : world -> response * world :=
  view 200 error_body (gitlab.get_project E (PDict [("projectId", PStr project_id)])).

Definition api_search_projects (request : flask_request) : world -> response * world :=
  view 200 error_body
    (let query := args_get (fr_args request) "query" PNone in
     gitlab.search_projects E (PDict [("query", query)])).

Definition api_get_issues (project_id : string) (request : flask_request)
  : world -> response * world :=
  view 200 error_body
    (let state := args_get (fr_args request) "state" (PStr "opened") in
     gitlab.get_issues E (PDict [("projectId", PStr project_id); ("state", state)])).

Definition api_create_issue (project_id : string) (request : flask_request)
  : world -> response * world :=
  view 201 error_body
    (data <- lift_outcome (fr_json request) ;;
     title <- py_get data "title" PNone ;;
     description <- py_get data "description" (PStr "") ;;
     gitlab.create_issue E
       (PDict [("projectId", PStr project_id); ("title", title);
               ("description", description)])).

Definition api_get_pipelines (project_id : string) (request : flask_request)
  : world -> response * world :=
  view 200 error_body (gitlab.get_pipelines E (PDict [("projectId", PStr project_id)])).

End Routes.
End gitlab_api.

Module gmaps_api.
Section Routes.
Variable E : env.

Definition api_geocode (request : flask_request) : world -> response * world :=
  view 200 error_body
    (let address := args_get (fr_args request) "address" PNone in
     gmaps.geocode E (PDict [("address", address)])).

Definition api_reverse_geocode (request : flask_request) : world -> response * world :=
  view 200 error_body
    (let lat := args_get (fr_args request) "lat" PNone in
     let lng := args_get (fr_args request) "lng" PNone in
     gmaps.reverse_geocode E (PDict [("lat", lat); ("lng", lng)])).

Definition api_get_directions (request : flask_request) : world -> response * world :=
  view 200 error_body
    (let origin := args_get (fr_args request) "origin" PNone in
     let destination := args_get (fr_args request) "destination" PNone in
     let mode := args_get (fr_args request) "mode" (PStr "driving") in
     gmaps.get_directions E
       (PDict [("origin", origin); ("destination", destination); ("mode", mode)])).

Definition api_search_places (request : flask_request) : world -> response * world :=
  view 200 error_body
    (gmaps.search_places E
       (PDict [("query", args_get (fr_args request) "query" PNone);
               ("location", args_get (fr_args request) "location" PNone);
               ("radius", args_get (fr_args request) "radius" (PInt 1000));
               ("type", args_get (fr_args request) "type" PNone)])).

Definition api_get_place_details (request : flask_request) : world -> response * world :=
  view 200 error_body
    (let place_id := args_get (fr_args request) "placeId" PNone in
     gmaps.get_place_details E (PDict [("placeId", place_id)])).

End Routes.
End gmaps_api.

Module memory_api.
Section Routes.
Variable E : env.

Definition api_get_memory (request : flask_request) : world -> response * world :=
  view 200 error_body
    (let key := args_get (fr_args request) "key" PNone in
     memory.get_memory E (PDict [("key", key)])).

Definition api_set_memory (request : flask_request) : world -> response * world :=
  view 200 error_body
    (data <- lift_outcome (fr_json request) ;;
     key <- py_get data "key" PNone ;;
     value <- py_get data "value" PNone ;;
     metadata <- py_get data "metadata" (PDict []) ;;
     memory.set_memory E
       (PDict [("key", key); ("value", value); ("metadata", metadata)])).

Definition api_delete_memory (request : flask_request) : world -> response * world :=
  view 200 error_body
    (let key := args_get (fr_args request) "key" PNone in
     memory.delete_memory E (PDict [("key", key)])).

Definition api_list_memory (request : flask_request) : world -> response * world :=
  view 200 error_body
    (memory.list_memory E
       (PDict [("filterKey", args_get (fr_args request) "filterKey" PNone);
               ("limit", args_get (fr_args request) "limit" (PInt 100));
               ("offset", args_get (fr_args request) "offset" (PInt 0))])).

Definition api_search_memory (request : flask_request) : world -> response * world :=
  view 200 error_body
    (let query := args_get (fr_args request) "q" PNone in
     memory.search_memory E (PDict [("q", query)])).

End Routes.
End memory_api.

Module puppeteer_api.
Section Routes.
Variable E : env.

Definition failure_body (msg : string) : pyval :=
  PDict [("success", PBool false); ("error", PStr msg)].

Definition api_screenshot (request : flask_request) : world -> response * world :=
  view 200 failure_body
    (data <- lift_outcome (fr_json request) ;;
     puppeteer.take_screenshot E data).

Definition api_pdf (request : flask_request) : world -> response * world :=
  view 200 failure_body
    (data <- lift_outcome (fr_json request) ;;
     puppeteer.generate_pdf E data).

Definition api_extract (request : flask_request) : world -> response * world :=
  view 200 failure_body
    (data <- lift_outcome (fr_json request) ;;
     puppeteer.extract_content E data).

End Routes.
End puppeteer_api.

(** What a direct route answers where the gateway answers [r]: the bare
    result with the route's success code for a success envelope, the bare
    message with 400 for an error envelope. *)
Definition direct_of_gateway (ok : Z) (on_error : string -> pyval) (r : response)
  : response :=
  match r with
  | Response (PDict d) status =>
      if status =? 200 then Response (dict_get d "result" PNone) ok
      else if status =? 500 then
        match dict_get (as_dict (dict_get d "error" PNone)) "message" PNone with
        | PStr msg => Response (on_error msg) 400
        | _ => r
        end
      else r
  | _ => r
  end.

(** ** python-client.py: [MCPClient] against this server *)

(** What a client method comes to: a value, or the [HTTPError] that
    [raise_for_status] raises for a 4xx or 5xx answer, or a [ValueError]. *)
Inductive client_result (A : Type) : Type :=
| Got (a : A)
| HTTPError (status : Z)
| ClientValueError (msg : string).
Arguments Got {A} a.
Arguments HTTPError {A} status.
Arguments ClientValueError {A} msg.

Module MCPClient.
Section Methods.
Variable E : env.

(** [response.raise_for_status(); return response.json()]. An exception
    that escapes a view reaches the client as Flask's 500 page. *)
Definition raise_for_status (r : response) : client_result pyval :=
  match r with
  | Response body status =>
      if (400 <=? status) && (status <? 600) then HTTPError status else Got body
  | Unhandled _ => HTTPError 500
  end.

(** [get_manifest]: fetches the manifest and keeps it in [self.manifest]. *)
Definition get_manifest : client_result pyval := raise_for_status mcp_manifest.

Definition call_tool (tool action parameters : pyval)
  : world -> client_result pyval * world :=
  fun w =>
    let payload := PDict [("tool", tool); ("action", action);
                          ("parameters", parameters)] in
    let (response, w') := mcp_gateway E payload w in
    (raise_for_status response, w').

(** [list_tools] on a client that has not fetched the manifest yet
    ([self.manifest] is [None]). *)
Definition list_tools : client_result (list string) :=
  match get_manifest with
  | Got manifest => Got (dict_keys (as_dict (dict_get (as_dict manifest) "tools" PNone)))
  | HTTPError s => HTTPError s
  | ClientValueError m => ClientValueError m
  end.

(** [list_actions(tool)], likewise. *)
Definition list_actions (tool : string) : client_result pyval :=
  match get_manifest with
  | Got manifest =>
      let tools := as_dict (dict_get (as_dict manifest) "tools" PNone) in
      if negb (dict_has tools tool) then ClientValueError ("Unknown tool: " +s+ tool)
      else Got (dict_get (as_dict (dict_get tools tool PNone)) "actions" PNone)
  | HTTPError s => HTTPError s
  | ClientValueError m => ClientValueError m
  end.

End Methods.
End MCPClient.

(** The defaults the manifest documents: (tool, action, parameter) and the
    default value. *)
Definition manifest_defaults : list ((string * string * string) * pyval) :=
  flat_map (fun tool =>
    flat_map (fun action =>
      flat_map (fun param =>
                  if dict_has (as_dict (snd param)) "default"
                  then [((fst tool, fst action, fst param),
                         dict_get (as_dict (snd param)) "default" PNone)]
                  else [])
               (as_dict (dict_get (as_dict (snd action)) "parameters" PNone)))
      (as_dict (dict_get (as_dict (snd tool)) "actions" PNone)))
    (as_dict (dict_get (as_dict manifest) "tools" PNone)).

(** The direct-route view of a gateway outcome: the same world, the answer
    unwrapped. *)
Definition as_direct (ok : Z) (on_error : string -> pyval) (g : response * world)
  : response * world :=
  (direct_of_gateway ok on_error (fst g), snd g).

(** The parameter names the manifest documents for an action. *)
Definition manifest_parameters (tool action : string) : list string :=
  dict_keys
    (as_dict
       (dict_get
          (as_dict
             (dict_get
                (as_dict
                   (dict_get
                      (as_dict
                         (dict_get (as_dict (dict_get (as_dict manifest) "tools" PNone))
                                   tool PNone))
                      "actions" PNone))
                action PNone))
          "parameters" PNone)).

(** The base address each HTTP tool is configured with. *)
Definition api_base (E : env) (tool : string) : string :=
  if String.eqb tool "github" then GITHUB_API_URL (config E)
  else if String.eqb tool "gitlab" then GITLAB_API_URL (config E)
  else "https://maps.googleapis.com/maps/api/".

(** The optional parameters each puppeteer handler passes on to its script
    when the caller sends them. *)
Definition optional_arguments (action : string) : list string :=
  if String.eqb action "screenshot"
  then ["waitForSelector"; "waitTime"; "viewport"; "userAgent"; "quality"]
  else if String.eqb action "pdf"
  then ["format"; "margin"; "waitForSelector"; "waitTime"; "viewport"; "userAgent"]
  else ["waitForSelector"; "waitTime"; "userAgent"].

(** * Properties *)

Arguments String.eqb : simpl nomatch.
Arguments String.append : simpl nomatch.
Arguments puppeteer.copy_optional : simpl never.
Arguments sql_text E !v : simpl nomatch.

(** ** Values *)

Lemma pyval_nested_ind (P : pyval -> Prop) :
  P PNone ->
  (forall b, P (PBool b)) ->
  (forall z, P (PInt z)) ->
  (forall q, P (PFloat q)) ->
  (forall s, P (PStr s)) ->
  (forall l, Forall P l -> P (PList l)) ->
  (forall d, Forall (fun kv => P (snd kv)) d -> P (PDict d)) ->
  forall v, P v.
Proof.
  intros HN HB HI HF HS HL HD.
  fix IH 1.
  intros [ | b | z | q | s | l | d ].
  - exact HN.
  - apply HB.
  - apply HI.
  - apply HF.
  - apply HS.
  - apply HL. induction l as [ | x l IHl ]; constructor; [ apply IH | exact IHl ].
  - apply HD. induction d as [ | [k x] d IHd ]; constructor; [ apply IH | exact IHd ].
Qed.

Lemma pyval_eqb_refl (v : pyval) : pyval_eqb v v = true.
Proof.
  induction v as [ | b | z | q | s | l IHl | d IHd ] using pyval_nested_ind; simpl.
  - reflexivity.
  - destruct b; reflexivity.
  - apply Z.eqb_refl.
  - now rewrite Z.eqb_refl, Pos.eqb_refl.
  - apply String.eqb_refl.
  - induction IHl as [ | x l Hx _ IH ]; [ reflexivity | now rewrite Hx, IH ].
  - induction IHd as [ | [k x] d Hx _ IH ]; [ reflexivity | ].
    simpl in Hx. now rewrite String.eqb_refl, Hx, IH.
Qed.

Lemma pyval_eqb_eq (a b : pyval) : pyval_eqb a b = true -> a = b.
Proof.
  revert b.
  induction a as [ | x | x | x | x | l IHl | d IHd ] using pyval_nested_ind;
    intros [ | y | y | y | y | l' | d' ]; simpl; try discriminate.
  - reflexivity.
  - intros H. apply Bool.eqb_prop in H. now subst.
  - intros H. apply Z.eqb_eq in H. now subst.
  - intros H. apply andb_true_iff in H as [H1 H2].
    apply Z.eqb_eq in H1. apply Pos.eqb_eq in H2.
    destruct x, y; simpl in *; now subst.
  - intros H. apply String.eqb_eq in H. now subst.
  - intros H. f_equal. revert l' H.
    induction IHl as [ | x l Hx _ IH ]; intros [ | y l' ] H; try discriminate.
    + reflexivity.
    + apply andb_true_iff in H as [H1 H2]. f_equal; [ now apply Hx | now apply IH ].
  - intros H. f_equal. revert d' H.
    induction IHd as [ | [k x] d Hx _ IH ]; intros [ | [k' y] d' ] H; try discriminate.
    + reflexivity.
    + apply andb_true_iff in H as [H1 H2]. apply andb_true_iff in H1 as [H0 H1].
      apply String.eqb_eq in H0. simpl in Hx.
      f_equal; [ f_equal; [ exact H0 | now apply Hx ] | now apply IH ].
Qed.

Lemma pyval_eqb_neq (a b : pyval) : a <> b -> pyval_eqb a b = false.
Proof.
  intros H. destruct (pyval_eqb a b) eqn:Hab; [ | reflexivity ].
  elim H. now apply pyval_eqb_eq.
Qed.

Lemma pyval_eqb_sym (a b : pyval) : pyval_eqb a b = pyval_eqb b a.
Proof.
  destruct (pyval_eqb a b) eqn:Hab.
  - apply pyval_eqb_eq in Hab. subst. symmetry. apply pyval_eqb_refl.
  - destruct (pyval_eqb b a) eqn:Hba; [ | reflexivity ].
    apply pyval_eqb_eq in Hba. subst. now rewrite pyval_eqb_refl in Hab.
Qed.

(** ** Manifest and registry *)

Lemma lookup_handler_some_in (tbl : handler_table) (a : string) (h : handler) :
  lookup_handler tbl a = Some h -> In (a, h) tbl.
Proof.
  induction tbl as [ | [n h'] tbl IH ]; simpl; [ discriminate | ].
  destruct (String.eqb n a) eqn:Hn.
  - intros [= <-]. apply String.eqb_eq in Hn. subst. now left.
  - intros H. right. now apply IH.
Qed.

Lemma lookup_handler_none_notin (tbl : handler_table) (a : string) :
  lookup_handler tbl a = None <-> ~ In a (map fst tbl).
Proof.
  induction tbl as [ | [n h'] tbl IH ]; simpl.
  - split; [ intros _ [] | reflexivity ].
  - destruct (String.eqb n a) eqn:Hn.
    + apply String.eqb_eq in Hn. split; [ discriminate | intros H; elim H; now left ].
    + apply String.eqb_neq in Hn. rewrite IH. split.
      * intros H [H1 | H1]; [ now apply Hn | now apply H ].
      * intros H H1. apply H. now right.
Qed.

(** Every action the manifest advertises is one the gateway can dispatch. *)
Lemma manifest_actions_resolve (E : env) (t a : string) :
  In (t, a) manifest_actions -> resolve E t a <> None.
Proof.
  intros H. vm_compute in H.
  repeat (destruct H as [H | H]; [ injection H as <- <-; discriminate | ]).
  destruct H.
Qed.

(** The manifest advertises no action twice. *)
Lemma manifest_actions_nodup : NoDup manifest_actions.
Proof.
  assert (Hdec : forall l : list (string * string),
             (fix nodupb (l : list (string * string)) : bool :=
                match l with
                | [] => true
                | x :: l' => negb (existsb (pair_eqb x) l') && nodupb l'
                end) l = true -> NoDup l).
  { induction l as [ | x l IH ]; intros H; constructor.
    - apply andb_true_iff in H as [H _]. intros Hin.
      apply negb_true_iff in H.
      assert (existsb (pair_eqb x) l = true); [ | congruence ].
      apply existsb_exists. exists x. split; [ exact Hin | ].
      unfold pair_eqb. now rewrite !String.eqb_refl.
    - apply andb_true_iff in H as [_ H]. now apply IH. }
  apply Hdec. vm_compute. reflexivity.
Qed.

Lemma lookup_tool_some_in (r : list (string * handler_table)) (t : string)
    (tbl : handler_table) :
  lookup_tool r t = Some tbl -> In (t, tbl) r.
Proof.
  induction r as [ | [n tbl'] r IH ]; simpl; [ discriminate | ].
  destruct (String.eqb n t) eqn:Hn.
  - intros [= <-]. apply String.eqb_eq in Hn. subst. now left.
  - intros H. right. now apply IH.
Qed.

(** The pairs [resolve] answers for are those of [registered_actions]. *)
Lemma resolve_registered (E : env) (t a : string) :
  resolve E t a <> None <-> In (t, a) (registered_actions E).
Proof.
  split.
  - unfold resolve, registered_actions.
    destruct (lookup_tool (registry E) t) as [tbl | ] eqn:Ht; [ | now intros [] ].
    destruct (lookup_handler tbl a) as [h | ] eqn:Ha; [ intros _ | now intros [] ].
    apply in_flat_map. exists (t, tbl). split.
    + now apply lookup_tool_some_in.
    + apply in_map_iff. exists (a, h). split; [ reflexivity | ].
      now apply lookup_handler_some_in.
  - intros H. unfold registered_actions in H. simpl in H.
    repeat (destruct H as [H | H]; [ injection H as <- <-; discriminate | ]).
    destruct H.
Qed.

(** The actions the gateway dispatches and the manifest leaves out. *)
Lemma unadvertised_actions (E : env) :
  filter (fun x => Nat.eqb (occurrences x manifest_actions) 0) (registered_actions E)
  = [("gitlab", "getIssues"); ("gitlab", "createIssue"); ("gitlab", "getPipelines");
     ("gmaps", "searchPlaces"); ("gmaps", "getPlaceDetails"); ("memory", "search")].
Proof. reflexivity. Qed.

(** C1, at the pair (gitlab, getIssues): the gateway routes the tool to the
    gitlab module, whose table sends the action to [get_issues], so dispatch
    resolves the pair; the manifest lists it zero times. *)
Theorem gitlab_getIssues_dispatched_not_advertised
    (E : env) (parameters : pyval) :
  resolve E "gitlab" "getIssues" = Some (gitlab.get_issues E) /\
  route E (PStr "gitlab") = Some (gitlab.handle_action E) /\
  gitlab.handle_action E (PStr "getIssues") parameters
    = gitlab.get_issues E parameters /\
  occurrences ("gitlab", "getIssues") manifest_actions = 0%nat.
Proof. repeat split. Qed.

(** ** The gateway *)

Lemma truthy_get_nonempty (d : dict) (k : string) :
  truthy (dict_get d k PNone) = true -> truthy (PDict d) = true.
Proof. destruct d; [ discriminate | reflexivity ]. Qed.

(** Past its two presence checks the gateway is the routed handler, wrapped. *)
Lemma gateway_dispatch (E : env) (d : dict) (w : world) :
  truthy (dict_get d "tool" PNone) = true ->
  truthy (dict_get d "action" PNone) = true ->
  mcp_gateway E (PDict d) w =
    match route E (dict_get d "tool" PNone) with
    | Some handle_action =>
        match handle_action (dict_get d "action" PNone)
                            (dict_get d "parameters" (PDict [])) w with
        | (Return result, w') =>
            (Response (success_envelope (dict_get d "tool" PNone)
                                        (dict_get d "action" PNone) result) 200, w')
        | (Raise e, w') =>
            (Response (error_envelope (dict_get d "tool" PNone)
                                      (dict_get d "action" PNone) e) 500, w')
        end
    | None =>
        (Response (PDict [("error",
                           PStr ("Unknown tool: " +s+ py_str E (dict_get d "tool" PNone)))])
                  404, w)
    end.
Proof.
  intros Ht Ha. unfold mcp_gateway.
  rewrite (truthy_get_nonempty d "tool" Ht). cbv beta iota zeta.
  rewrite Ht, Ha. reflexivity.
Qed.

(** The gateway's chain of comparisons and the registry name the same
    tables; the puppeteer module prepares its script directory first. *)
Lemma route_registry (E : env) (t : string) (tbl : handler_table) :
  lookup_tool (registry E) t = Some tbl ->
  exists h, route E (PStr t) = Some h /\
    forall a p, h a p =
      if String.eqb t "puppeteer"
      then (puppeteer.ensure_script_dir E ;;; run_action E tbl a p)
      else run_action E tbl a p.
Proof.
  unfold registry, route. simpl lookup_tool.
  repeat match goal with
         | |- context [String.eqb ?x t] =>
             destruct (String.eqb x t) eqn:?Ht;
             [ apply String.eqb_eq in Ht; subst t; intros [= <-];
               eexists; split; [ reflexivity | intros; reflexivity ]
             | clear Ht ]
         end.
  discriminate.
Qed.

Lemma route_unregistered (E : env) (t : string) :
  lookup_tool (registry E) t = None -> route E (PStr t) = None.
Proof.
  unfold registry, route. simpl lookup_tool.
  repeat match goal with
         | |- context [String.eqb ?x t] =>
             destruct (String.eqb x t) eqn:?Ht;
             [ discriminate | rewrite String.eqb_sym in Ht; rewrite Ht; clear Ht ]
         end.
  reflexivity.
Qed.

(** C6, as the claim states it, fails: with an empty tool name the body is a
    bare error message; it has no status field and no error object, so no
    error kind. *)
Lemma missing_tool_body_is_not_an_envelope :
  fst (mcp_gateway env0
         (PDict [("tool", PStr ""); ("action", PStr "listRepos");
                 ("parameters", PDict [])]) world0)
    = Response (PDict [("error", PStr "Tool name is required")]) 400 /\
  envelope_status
    (fst (mcp_gateway env0
            (PDict [("tool", PStr ""); ("action", PStr "listRepos");
                    ("parameters", PDict [])]) world0)) <> Some (PStr "error") /\
  error_kind
    (fst (mcp_gateway env0
            (PDict [("tool", PStr ""); ("action", PStr "listRepos");
                    ("parameters", PDict [])]) world0)) <> Some (PStr "MissingTool").
Proof. repeat split; discriminate. Qed.

(** C6, amended: when the body is a JSON object whose tool field is absent
    or falsy, the gateway answers 400 with the one-field body
    [{"error": "Tool name is required"}] ([{"error": "Request body is
    required"}] when the object is empty), whatever the action and the
    parameters, and leaves the world as it was: nothing is routed or run. *)
Theorem missing_tool_rejected (E : env) (d : dict) (w : world) :
  truthy (dict_get d "tool" PNone) = false ->
  mcp_gateway E (PDict d) w =
    (Response
       (PDict [("error",
                PStr (match d with
                      | [] => "Request body is required"
                      | _ => "Tool name is required"
                      end))])
       400, w).
Proof.
  intros Ht. unfold mcp_gateway. destruct d as [ | kv d ].
  - reflexivity.
  - change (truthy (PDict (kv :: d))) with true. cbn [negb].
    rewrite Ht. reflexivity.
Qed.

Lemma missing_tool_rejected_witness :
  mcp_gateway env0 (PDict [("action", PStr "listRepos");
                           ("parameters", PDict [("username", PStr "octocat")])])
              world0
  = (Response (PDict [("error", PStr "Tool name is required")]) 400, world0).
Proof.
  apply (missing_tool_rejected env0
           [("action", PStr "listRepos");
            ("parameters", PDict [("username", PStr "octocat")])] world0).
  reflexivity.
Defined.

(** C8, as the claim states it, fails: a request naming a tool the gateway
    does not know is answered 404, not 500. *)
Lemma unknown_tool_status_is_404 :
  lookup_tool (registry env0) "nope" = None /\
  response_status (fst (mcp_gateway env0 (call "nope" "x" []) world0)) = Some 404 /\
  response_status (fst (mcp_gateway env0 (call "nope" "x" []) world0)) <> Some 500.
Proof. repeat split; discriminate. Qed.

(** C8, amended: for a JSON-object body the status code is 400 when the
    tool or the action is absent or falsy, 404 when the tool is not one the
    gateway routes, 200 when the routed handler returns and 500 when it
    raises. *)
Theorem gateway_status (E : env) (d : dict) (w : world) :
  response_status (fst (mcp_gateway E (PDict d) w)) =
    Some (if negb (truthy (dict_get d "tool" PNone))
             || negb (truthy (dict_get d "action" PNone))
          then 400
          else match route E (dict_get d "tool" PNone) with
               | None => 404
               | Some handle_action =>
                   match fst (handle_action (dict_get d "action" PNone)
                                            (dict_get d "parameters" (PDict [])) w) with
                   | Return _ => 200
                   | Raise _ => 500
                   end
               end).
Proof.
  destruct (truthy (dict_get d "tool" PNone)) eqn:Ht.
  - destruct (truthy (dict_get d "action" PNone)) eqn:Ha.
    + rewrite (gateway_dispatch E d w Ht Ha). cbn [negb orb].
      destruct (route E (dict_get d "tool" PNone)) as [h | ]; [ | reflexivity ].
      destruct (h _ _ w) as [[r | e] w']; reflexivity.
    + unfold mcp_gateway. rewrite (truthy_get_nonempty d "tool" Ht).
      cbv beta iota zeta. rewrite Ht, Ha. reflexivity.
  - unfold mcp_gateway. destruct d as [ | kv d ]; [ reflexivity | ].
    change (truthy (PDict (kv :: d))) with true. cbn [negb].
    rewrite Ht. reflexivity.
Qed.

(** C2, as the claim states it, fails: the answer to an unknown tool is a
    bare message without an error object, hence without a kind, and the
    error raised for an unknown action has the type ValueError. *)
Lemma unknown_tool_and_action_kinds :
  lookup_tool (registry env0) "nope" = None /\
  error_kind (fst (mcp_gateway env0 (call "nope" "x" []) world0))
    <> Some (PStr "UnknownTool") /\
  resolve env0 "github" "nope" = None /\
  error_kind (fst (mcp_gateway env0 (call "github" "nope" []) world0))
    = Some (PStr "ValueError") /\
  error_kind (fst (mcp_gateway env0 (call "github" "nope" []) world0))
    <> Some (PStr "UnknownAction").
Proof. repeat split; discriminate. Qed.

(** C2, amended: with tool and action both present, a tool name the
    gateway does not route is answered 404 with the body
    [{"error": "Unknown tool: <tool>"}] and nothing is run; a routed tool
    with an action name missing from its table is answered 500 with the
    error envelope of a ValueError whose message is
    ["Unknown action: <action>"] (for puppeteer, once its script directory
    has been prepared without fault). *)
Theorem unknown_tool_or_action (E : env) (d : dict) (w : world) (t a : string) :
  dict_get d "tool" PNone = PStr t ->
  dict_get d "action" PNone = PStr a ->
  t <> "" -> a <> "" ->
  (lookup_tool (registry E) t = None ->
   mcp_gateway E (PDict d) w
     = (Response (PDict [("error", PStr ("Unknown tool: " +s+ t))]) 404, w))
  /\
  (forall tbl,
     lookup_tool (registry E) t = Some tbl ->
     lookup_handler tbl a = None ->
     (t = "puppeteer" -> script_dir_fault E = None) ->
     fst (mcp_gateway E (PDict d) w)
       = Response (error_envelope (PStr t) (PStr a)
                     (ValueError ("Unknown action: " +s+ a))) 500).
Proof.
  intros Ht Ha Hte Hae.
  assert (Htt : truthy (dict_get d "tool" PNone) = true).
  { rewrite Ht. simpl. apply negb_true_iff. now apply String.eqb_neq. }
  assert (Hta : truthy (dict_get d "action" PNone) = true).
  { rewrite Ha. simpl. apply negb_true_iff. now apply String.eqb_neq. }
  rewrite (gateway_dispatch E d w Htt Hta), Ht, Ha.
  split.
  - intros Hnone. rewrite (route_unregistered E t Hnone). reflexivity.
  - intros tbl Htbl Hnoa Hfault.
    destruct (route_registry E t tbl Htbl) as [h [Hr Hh]].
    rewrite Hr, Hh.
    destruct (String.eqb t "puppeteer") eqn:Hp.
    + apply String.eqb_eq in Hp. specialize (Hfault Hp).
      unfold bind, puppeteer.ensure_script_dir. rewrite Hfault.
      unfold run_action. rewrite Hnoa. reflexivity.
    + unfold run_action. rewrite Hnoa. reflexivity.
Qed.

Lemma unknown_tool_or_action_witness :
  mcp_gateway env0 (call "nope" "x" []) world0
    = (Response (PDict [("error", PStr "Unknown tool: nope")]) 404, world0) /\
  fst (mcp_gateway env0 (call "puppeteer" "nope" []) world0)
    = Response (error_envelope (PStr "puppeteer") (PStr "nope")
                  (ValueError "Unknown action: nope")) 500.
Proof.
  split.
  - apply (unknown_tool_or_action env0 (as_dict (call "nope" "x" [])) world0 "nope" "x");
      try reflexivity; discriminate.
  - apply (unknown_tool_or_action env0 (as_dict (call "puppeteer" "nope" [])) world0
             "puppeteer" "nope" eq_refl eq_refl)
      with (tbl := puppeteer.action_handlers env0);
      try reflexivity; discriminate.
Defined.

(** ** Parameter checks *)

Create HintDb handlers.
Create HintDb effects.

#[export] Hint Unfold
  github.handle_action gitlab.handle_action gmaps.handle_action
  memory.handle_action puppeteer.handle_action run_action
  github.list_repos github.get_repo github.search_repos github.get_issues
  github.create_issue
  gitlab.list_projects gitlab.get_project gitlab.search_projects gitlab.get_issues
  gitlab.create_issue gitlab.get_pipelines
  gmaps.geocode gmaps.reverse_geocode gmaps.get_directions gmaps.search_places
  gmaps.get_place_details
  memory.get_memory memory.set_memory memory.delete_memory memory.list_memory
  memory.search_memory
  puppeteer.take_screenshot puppeteer.generate_pdf puppeteer.extract_content
  : handlers.

#[export] Hint Unfold
  bind ret raise try_except lift_outcome modify get_world py_get
  requests_get requests_post requests_send api_result
  memory.ensure_engine memory.query_by_key memory.run_query memory.now memory.uuid4
  puppeteer.ensure_script_dir puppeteer.make_tmp puppeteer.unlink puppeteer.run_node
  : effects.

(** Enter the handler a concrete tool and action name select. *)
Ltac enter_handler :=
  cbn [dict_get String.eqb Ascii.eqb Bool.eqb route first_missing forallb];
  autounfold with handlers;
  cbn [lookup_handler github.action_handlers gitlab.action_handlers
       gmaps.action_handlers memory.action_handlers puppeteer.action_handlers
       String.eqb Ascii.eqb Bool.eqb];
  autounfold with handlers.

Ltac split_truthy :=
  repeat match goal with
         | |- context [truthy (dict_get ?p ?k PNone)] =>
             destruct (truthy (dict_get p k PNone)) eqn:?;
             cbn [negb orb andb]
         end.

(** Case on everything the environment decides. *)
Ltac run_backend :=
  repeat match goal with
         | |- context [http_reply ?E ?h ?r] =>
             destruct (http_reply E h r) as [? | ? [? | ?]]; cbn
         | |- context [mktemp ?E ?n ?s] =>
             destruct (mktemp E n s) as [? | ?]; cbn
         | |- context [node_run ?E ?h ?s ?a] =>
             destruct (node_run E h s a) as [? | ? | ?]; cbn
         | |- context [json_loads ?E ?s] =>
             destruct (json_loads E s) as [? | ?]; cbn
         | |- context [read_b64 ?E ?s] =>
             destruct (read_b64 E s) as [? | ?]; cbn
         | |- context [sql_text ?E ?v] =>
             destruct (sql_text E v) as [? | ?]; cbn
         | |- context [find ?f ?l] => destruct (find f l); cbn
         | |- context [if ?b then _ else _] => destruct b; cbn
         | |- context [match ?v with PNone => _ | _ => _ end] => destruct v; cbn
         end.

Ltac count_calls :=
  unfold backend_calls; cbn; rewrite ?length_app; cbn; lia.

(** C7, as the claim states it, fails: the error raised for a missing
    required parameter has the type ValueError. *)
Lemma missing_parameter_kind :
  first_missing [(["username"], "Username parameter is required")] [] 
    = Some "Username parameter is required" /\
  error_kind (fst (mcp_gateway env0 (call "github" "listRepos" []) world0))
    = Some (PStr "ValueError") /\
  error_kind (fst (mcp_gateway env0 (call "github" "listRepos" []) world0))
    <> Some (PStr "InvalidParameters").
Proof. repeat split; discriminate. Qed.

(** C7, amended: for every action that checks for required parameters (the
    table [required_checks]), a call through the gateway with a parameter
    object in which a checked parameter is absent or falsy is answered 500
    with the error envelope of a ValueError carrying the message of the
    first failing check, and no backend operation is performed; when every
    checked parameter is truthy the handler goes on to its backend
    operation. For puppeteer this is once its script directory has been
    prepared without fault. *)
Theorem required_parameters_checked
    (E : env) (t a : string) (checks : list (list string * string))
    (p : dict) (w : world) :
  In ((t, a), checks) required_checks ->
  (t = "puppeteer" -> script_dir_fault E = None) ->
  match first_missing checks p with
  | Some msg =>
      fst (mcp_gateway E (call t a p) w)
        = Response (error_envelope (PStr t) (PStr a) (ValueError msg)) 500 /\
      backend_calls (snd (mcp_gateway E (call t a p) w)) = backend_calls w
  | None =>
      (backend_calls w < backend_calls (snd (mcp_gateway E (call t a p) w)))%nat
  end.
Proof.
  intros Hin Hfault. simpl in Hin.
  repeat (destruct Hin as [H | Hin];
          [ injection H as <- <- <-;
            try (specialize (Hfault eq_refl)); unfold call;
            rewrite gateway_dispatch by reflexivity;
            enter_handler; autounfold with effects;
            try rewrite Hfault; cbn [w_tmp_made set_scripts];
            split_truthy;
            try (split; reflexivity);
            autounfold with effects; cbn; run_backend; count_calls
          | ]).
  destruct Hin.
Qed.

Lemma required_parameters_checked_witness :
  (fst (mcp_gateway env0 (call "github" "listRepos" []) world0)
     = Response (error_envelope (PStr "github") (PStr "listRepos")
                   (ValueError "Username parameter is required")) 500 /\
   backend_calls (snd (mcp_gateway env0 (call "github" "listRepos" []) world0))
     = backend_calls world0) /\
  (backend_calls world0
   < backend_calls
       (snd (mcp_gateway env0
               (call "puppeteer" "screenshot" [("url", PStr "https://example.com")])
               world0)))%nat.
Proof.
  split.
  - apply (required_parameters_checked env0 "github" "listRepos"
             [(["username"], "Username parameter is required")] [] world0).
    + simpl. left. reflexivity.
    + discriminate.
  - apply (required_parameters_checked env0 "puppeteer" "screenshot"
             [(["url"], "URL parameter is required")]
             [("url", PStr "https://example.com")] world0).
    + simpl. do 17 right. left. reflexivity.
    + reflexivity.
Defined.

(** ** Faults and the status field *)

(** C3, as the claim states it, fails: when the node subprocess of a
    screenshot exits with an error, the handler returns a result saying so
    and the gateway delivers it with status "success" and code 200. *)
Lemma subprocess_failure_inside_success :
  (forall history script argv,
     node_run (env_with (CalledProcessError "boom")) history script argv
       = CalledProcessError "boom") /\
  mcp_gateway (env_with (CalledProcessError "boom"))
      (call "puppeteer" "screenshot" [("url", PStr "https://example.com")]) world0
    = (Response
         (PDict [("tool", PStr "puppeteer"); ("action", PStr "screenshot");
                 ("status", PStr "success");
                 ("result", PDict [("success", PBool false);
                                   ("error", PStr "boom")])])
         200,
       mkWorld [] [("/app/node_scripts/screenshot.js", "{}")] [] 1 true false [] 0 0 0) /\
  envelope_status
    (fst (mcp_gateway (env_with (CalledProcessError "boom"))
            (call "puppeteer" "screenshot" [("url", PStr "https://example.com")])
            world0))
    <> Some (PStr "error").
Proof. repeat split; discriminate. Qed.

Ltac http_cases :=
  repeat match goal with
         | |- context [http_reply ?E ?h ?r] =>
             destruct (http_reply E h r) as [? | ? [? | ?]] eqn:?; cbn
         | |- context [Z.eqb ?c ?k] => destruct (Z.eqb_spec c k); cbn
         | |- context [truthy ?v] => destruct (truthy v); cbn
         | |- context [String.eqb ?x ?a] => destruct (String.eqb x a); cbn
         | |- context [match ?v with PNone => _ | _ => _ end] => destruct v; cbn
         end.

(** Case on the action name, one registered name at a time. *)
Ltac pick_action a :=
  repeat match goal with
         | |- context [String.eqb ?x a] =>
             let H := fresh "Hact" in
             destruct (String.eqb x a) eqn:H;
             [ apply String.eqb_eq in H; subst a;
               cbn [lookup_handler String.eqb Ascii.eqb Bool.eqb]
             | apply String.eqb_neq in H ]
         end.

Ltac code_side :=
  repeat split;
  first [ assumption | reflexivity | discriminate | lia
        | left; code_side | right; code_side ].

Ltac http_leaf :=
  first
    [ left; split;
      [ reflexivity
      | eexists; split;
        [ reflexivity | first [ left; reflexivity | right; reflexivity ] ] ]
    | right; eexists; split; [ reflexivity | ];
      match goal with
      | H : http_reply _ _ _ = _ |- _ => rewrite H
      end;
      first [ reflexivity
            | left; split; [ reflexivity | code_side ]
            | right; split; [ reflexivity | code_side ] ] ].

(** C3, amended. For the tools backed by an HTTP API (github, gitlab,
    gmaps) a dispatch ends in one of two ways. Either the handler raises
    before any request is sent, a ValueError (unknown action, missing
    parameter) or an AttributeError (parameters that are not an object),
    and the answer is the error envelope of that exception with code 500.
    Or exactly one request is sent and its outcome decides the answer: a
    transport error or an undecodable body gives the error envelope of
    that very exception (its own class name as [type]) with code 500; a
    decoded body under an accepted upstream code, which is 200, and 201
    for createIssue only, gives the success envelope of that body with
    code 200; a decoded body under any other upstream code gives the error
    envelope of an [Exception] whose message is the tool's label followed
    by the body, with code 500. What the decoded body itself says plays no
    part. The puppeteer handlers, once past the URL check and the
    temporary file, launch node once on the script of the action and never
    raise: whatever becomes of that run the gateway answers with status
    "success" and code 200; when the run exits with an error the result is
    the [success: false] record built from its stderr, when node cannot be
    started it is the [success: false] record of that exception. *)
Theorem handler_faults_and_status (E : env) :
  (forall (t a : string) (p : pyval) (w : world),
     In t ["github"; "gitlab"; "gmaps"] -> a <> "" ->
     let r := mcp_gateway E
                (PDict [("tool", PStr t); ("action", PStr a); ("parameters", p)]) w in
     (snd r = w /\
      exists e,
        fst r = Response (error_envelope (PStr t) (PStr a) e) 500 /\
        (exn_type e = "ValueError" \/ exn_type e = "AttributeError"))
     \/
     (exists rq,
        snd r = set_requests (w_requests w ++ [rq]) w /\
        match http_reply E (w_requests w) rq with
        | NetError e | Reply _ (Raise e) =>
            fst r = Response (error_envelope (PStr t) (PStr a) e) 500
        | Reply code (Return body) =>
            (fst r = Response (success_envelope (PStr t) (PStr a) body) 200 /\
             (code = 200 \/ (code = 201 /\ a = "createIssue")))
            \/
            (fst r = Response
                       (error_envelope (PStr t) (PStr a)
                          (Exception (api_error_label t +s+ py_str E body))) 500 /\
             code <> 200 /\ (code <> 201 \/ a <> "createIssue"))
        end))
  /\
  (forall (a : string) (p : dict) (w : world),
     In a ["screenshot"; "pdf"; "extract"] ->
     truthy (dict_get p "url" PNone) = true ->
     script_dir_fault E = None ->
     (forall suffix, exists path, mktemp E (w_tmp_made w) suffix = Return path) ->
     let r := mcp_gateway E (call "puppeteer" a p) w in
     exists argv result,
       w_procs (snd r) = w_procs w ++ [(script_dir E +s+ "/" +s+ a +s+ ".js", argv)] /\
       fst r = Response (success_envelope (PStr "puppeteer") (PStr a) result) 200 /\
       match node_run E (w_procs w) (script_dir E +s+ "/" +s+ a +s+ ".js") argv with
       | Exited0 _ =>
           dict_get (as_dict result) "success" PNone = PBool true \/
           exists msg, result = puppeteer.failure (PStr msg)
       | CalledProcessError stderr => result = puppeteer.stderr_failure E stderr
       | SpawnError e => result = puppeteer.failure (PStr (exn_msg e))
       end).
Proof.
  split.
  - intros t a p w Ht Ha r. subst r.
    assert (Hta : truthy (PStr a) = true).
    { simpl. apply negb_true_iff. now apply String.eqb_neq. }
    simpl in Ht.
    repeat (destruct Ht as [<- | Ht];
            [ rewrite gateway_dispatch by (try reflexivity; exact Hta);
              cbn [dict_get String.eqb Ascii.eqb Bool.eqb route];
              autounfold with handlers;
              cbn [lookup_handler github.action_handlers gitlab.action_handlers
                   gmaps.action_handlers];
              pick_action a;
              autounfold with handlers; autounfold with effects; cbn;
              http_cases; http_leaf
            | ]).
    destruct Ht.
  - intros a p w Ha Hurl Hfault Hmk r. subst r. simpl in Ha.
    unfold call.
    repeat (destruct Ha as [<- | Ha];
            [ rewrite gateway_dispatch by reflexivity;
              enter_handler; autounfold with effects;
              rewrite Hfault, Hurl; cbn [negb w_tmp_made set_scripts];
              try match goal with
                  | |- context [mktemp E ?n ?s] =>
                      destruct (Hmk s) as [path ->]
                  end;
              cbn [w_procs w_scripts set_tmp set_scripts set_procs];
              match goal with
              | |- context [node_run E ?h ?s ?argv] =>
                  destruct (node_run E h s argv) as [out | err | e] eqn:Hnode
              end;
              cbn;
              repeat match goal with
                     | |- context [json_loads E ?s] =>
                         destruct (json_loads E s) as [? | ?]; cbn
                     | |- context [read_b64 E ?s] =>
                         destruct (read_b64 E s) as [? | ?]; cbn
                     | |- context [match ?v with PNone => _ | _ => _ end] =>
                         destruct v; cbn
                     end;
              do 2 eexists;
              (split; [ reflexivity | split; [ reflexivity | ] ]);
              cbn in Hnode |- *; rewrite Hnode;
              first [ reflexivity
                    | left; reflexivity
                    | right; eexists; reflexivity ]
            | ]).
    destruct Ha.
Qed.

Lemma handler_faults_and_status_witness :
  ((snd (mcp_gateway env0
           (PDict [("tool", PStr "github"); ("action", PStr "listRepos");
                   ("parameters", PDict [("username", PStr "octocat")])]) world0)
      = world0 /\
    exists e,
      fst (mcp_gateway env0
             (PDict [("tool", PStr "github"); ("action", PStr "listRepos");
                     ("parameters", PDict [("username", PStr "octocat")])]) world0)
        = Response (error_envelope (PStr "github") (PStr "listRepos") e) 500 /\
      (exn_type e = "ValueError" \/ exn_type e = "AttributeError"))
   \/
   (exists rq,
      snd (mcp_gateway env0
             (PDict [("tool", PStr "github"); ("action", PStr "listRepos");
                     ("parameters", PDict [("username", PStr "octocat")])]) world0)
        = set_requests (w_requests world0 ++ [rq]) world0 /\
      match http_reply env0 (w_requests world0) rq with
      | NetError e | Reply _ (Raise e) =>
          fst (mcp_gateway env0
                 (PDict [("tool", PStr "github"); ("action", PStr "listRepos");
                         ("parameters", PDict [("username", PStr "octocat")])]) world0)
            = Response (error_envelope (PStr "github") (PStr "listRepos") e) 500
      | Reply code (Return body) =>
          (fst (mcp_gateway env0
                  (PDict [("tool", PStr "github"); ("action", PStr "listRepos");
                          ("parameters", PDict [("username", PStr "octocat")])]) world0)
             = Response (success_envelope (PStr "github") (PStr "listRepos") body) 200 /\
           (code = 200 \/ (code = 201 /\ "listRepos" = "createIssue")))
          \/
          (fst (mcp_gateway env0
                  (PDict [("tool", PStr "github"); ("action", PStr "listRepos");
                          ("parameters", PDict [("username", PStr "octocat")])]) world0)
             = Response
                 (error_envelope (PStr "github") (PStr "listRepos")
                    (Exception (api_error_label "github" +s+ py_str env0 body))) 500 /\
           code <> 200 /\ (code <> 201 \/ "listRepos" <> "createIssue"))
      end))
  /\
  (exists argv result,
     w_procs (snd (mcp_gateway (env_with (CalledProcessError "boom"))
                     (call "puppeteer" "screenshot" [("url", PStr "https://example.com")])
                     world0))
       = w_procs world0
           ++ [(script_dir (env_with (CalledProcessError "boom"))
                  +s+ "/" +s+ "screenshot" +s+ ".js", argv)] /\
     fst (mcp_gateway (env_with (CalledProcessError "boom"))
            (call "puppeteer" "screenshot" [("url", PStr "https://example.com")]) world0)
       = Response (success_envelope (PStr "puppeteer") (PStr "screenshot") result) 200 /\
     match node_run (env_with (CalledProcessError "boom")) (w_procs world0)
             (script_dir (env_with (CalledProcessError "boom"))
                +s+ "/" +s+ "screenshot" +s+ ".js") argv with
     | Exited0 _ =>
         dict_get (as_dict result) "success" PNone = PBool true \/
         exists msg, result = puppeteer.failure (PStr msg)
     | CalledProcessError stderr =>
         result = puppeteer.stderr_failure (env_with (CalledProcessError "boom")) stderr
     | SpawnError e => result = puppeteer.failure (PStr (exn_msg e))
     end).
Proof.
  split.
  - apply (proj1 (handler_faults_and_status env0) "github" "listRepos"
             (PDict [("username", PStr "octocat")]) world0).
    + simpl. left. reflexivity.
    + discriminate.
  - apply (proj2 (handler_faults_and_status (env_with (CalledProcessError "boom")))
             "screenshot" [("url", PStr "https://example.com")] world0).
    + simpl. left. reflexivity.
    + reflexivity.
    + reflexivity.
    + intros suffix. eexists. reflexivity.
Defined.

(** ** The memory store *)

Section Memory.
Variable E : env.

Lemma find_key_sound (k : pyval) (t : list MemoryItem) (it : MemoryItem) :
  find (fun r => pyval_eqb (it_key r) k) t = Some it -> In it t /\ it_key it = k.
Proof.
  intros H. apply find_some in H as [Hin Hk]. split; [ exact Hin | ].
  now apply pyval_eqb_eq.
Qed.

Lemma find_key_none (k : pyval) (t : list MemoryItem) :
  find (fun r => pyval_eqb (it_key r) k) t = None <-> ~ In k (map it_key t).
Proof.
  induction t as [ | r t IH ]; simpl.
  - split; [ intros _ [] | reflexivity ].
  - destruct (pyval_eqb (it_key r) k) eqn:Hr.
    + apply pyval_eqb_eq in Hr. split; [ discriminate | intros H; elim H; now left ].
    + rewrite IH. split.
      * intros H [H1 | H1]; [ | now apply H ].
        subst. now rewrite pyval_eqb_refl in Hr.
      * intros H H1. apply H. now right.
Qed.

Lemma find_key_app_new (k : pyval) (t : list MemoryItem) (x : MemoryItem) :
  find (fun r => pyval_eqb (it_key r) k) t = None ->
  it_key x = k ->
  find (fun r => pyval_eqb (it_key r) k) (t ++ [x]) = Some x.
Proof.
  intros Hnone Hx. induction t as [ | r t IH ]; simpl in *.
  - subst. now rewrite pyval_eqb_refl.
  - destruct (pyval_eqb (it_key r) k); [ discriminate | now apply IH ].
Qed.

Lemma find_key_update (k : pyval) (t : list MemoryItem) (old new : MemoryItem) :
  find (fun r => pyval_eqb (it_key r) k) t = Some old ->
  it_key new = k ->
  find (fun r => pyval_eqb (it_key r) k)
       (map (fun r => if it_id r =? it_id old then new else r) t) = Some new.
Proof.
  intros Hold Hnew. induction t as [ | r t IH ]; simpl in *; [ discriminate | ].
  destruct (pyval_eqb (it_key r) k) eqn:Hr.
  - injection Hold as ->. rewrite Z.eqb_refl. simpl.
    subst k. now rewrite pyval_eqb_refl.
  - destruct (it_id r =? it_id old); simpl.
    + subst k. now rewrite pyval_eqb_refl.
    + rewrite Hr. now apply IH.
Qed.

(** What a text column holds is null or a text; the values it holds
    unchanged are null and the strings. *)
Lemma sql_text_stored (v b : pyval) :
  sql_text E v = Return b -> b = PNone \/ exists s, b = PStr s.
Proof.
  destruct v as [ | [ | ] | z | q | s | l | d ]; unfold sql_text;
    try destruct (fits_int64 z); intros [= <-];
    first [ now left | right; eexists; reflexivity ].
Qed.

Lemma sql_text_unchanged (v : pyval) :
  sql_text E v = Return v <-> v = PNone \/ exists s, v = PStr s.
Proof.
  split.
  - intros H. exact (sql_text_stored v v H).
  - intros [-> | [s ->]]; reflexivity.
Qed.

(** [get] on a truthy key that binds reads the first row whose key is the
    bound text and changes neither the table nor the clock. *)
Lemma get_memory_spec (p : dict) (w : world) (b : pyval) :
  truthy (dict_get p "key" PNone) = true ->
  sql_text E (dict_get p "key" PNone) = Return b ->
  exists w',
    memory.get_memory E (PDict p) w =
      (match find (fun r => pyval_eqb (it_key r) b) (w_table w) with
       | Some it => Return (memory.to_dict E it)
       | None =>
           Raise (ValueError ("Memory item with key '"
                                +s+ py_str E (dict_get p "key" PNone) +s+ "' not found"))
       end, w') /\
    w_table w' = w_table w /\ w_clock w' = w_clock w.
Proof.
  intros Hk Hb. unfold memory.get_memory. autounfold with effects.
  rewrite Hk, Hb. cbn [negb].
  destruct (w_engine w); cbn [w_table set_engine set_queries];
    destruct (find _ (w_table w)); eexists; (split; [ reflexivity | ]); split; reflexivity.
Qed.

(** A key the driver refuses makes [get] and [delete] raise the driver's
    error. *)
Lemma get_memory_unbound (p : dict) (w : world) (e : exn) :
  truthy (dict_get p "key" PNone) = true ->
  sql_text E (dict_get p "key" PNone) = Raise e ->
  exists w',
    memory.get_memory E (PDict p) w = (Raise e, w') /\ w_table w' = w_table w.
Proof.
  intros Hk Hb. unfold memory.get_memory. autounfold with effects.
  rewrite Hk, Hb. cbn [negb].
  destruct (w_engine w); eexists; split; reflexivity.
Qed.

Lemma delete_memory_unbound (p : dict) (w : world) (e : exn) :
  truthy (dict_get p "key" PNone) = true ->
  sql_text E (dict_get p "key" PNone) = Raise e ->
  exists w',
    memory.delete_memory E (PDict p) w = (Raise e, w') /\ w_table w' = w_table w.
Proof.
  intros Hk Hb. unfold memory.delete_memory. autounfold with effects.
  rewrite Hk, Hb. cbn [negb].
  destruct (w_engine w); eexists; split; reflexivity.
Qed.

(** [set] with a key and a value that bind.  The key it works with is the
    one given, or a fresh UUID string when the given one is absent or
    falsy; the row it leaves is found under the bound key. *)
Lemma set_memory_spec (p : dict) (w : world) (key b stored : pyval) :
  key = (if truthy (dict_get p "key" PNone) then dict_get p "key" PNone
         else PStr (uuid_str (uuid4_int (urandom16 E (w_uuids w))))) ->
  sql_text E key = Return b ->
  sql_text E (dict_get p "value" PNone) = Return stored ->
  exists it w',
    memory.set_memory E (PDict p) w = (Return (memory.to_dict E it), w') /\
    find (fun r => pyval_eqb (it_key r) b) (w_table w') = Some it /\
    it_key it = b /\
    it_value it = stored /\
    it_metadata it = dict_get p "metadata" (PDict []) /\
    (exists i, (w_clock w <= i < w_clock w')%nat /\ it_updated_at it = utcnow E i) /\
    (forall old,
       find (fun r => pyval_eqb (it_key r) b) (w_table w) = Some old ->
       it_id it = it_id old /\
       it_created_at it = it_created_at old /\
       w_table w' = map (fun r => if it_id r =? it_id old then it else r) (w_table w)) /\
    (find (fun r => pyval_eqb (it_key r) b) (w_table w) = None ->
     it_id it = next_rowid (w_table w) /\
     w_table w' = w_table w ++ [it]) /\
    w_uuids w' = (if truthy (dict_get p "key" PNone) then w_uuids w else S (w_uuids w)).
Proof.
  intros Hkey Hb Hv. unfold memory.set_memory. autounfold with effects.
  destruct (truthy (dict_get p "key" PNone)); cbn [negb]; cbv beta iota;
    rewrite <- Hkey, Hb; cbn [w_engine set_uuids];
    (destruct (find (fun r => pyval_eqb (it_key r) b) (w_table w))
       as [old | ] eqn:Hold;
     [ destruct (find_key_sound _ _ _ Hold) as [_ Hk];
       destruct (w_engine w); cbn [w_table set_engine set_queries set_uuids];
       rewrite Hold, Hv;
       eexists; eexists; (split; [ reflexivity | ]); cbn;
       (split; [ apply find_key_update; [ exact Hold | exact Hk ] | ]);
       (split; [ exact Hk | ]); (split; [ reflexivity | ]); (split; [ reflexivity | ]);
       (split; [ exists (w_clock w); split; [ lia | reflexivity ] | ]);
       (split; [ intros old' [= <-]; repeat split; reflexivity
               | split; [ discriminate | reflexivity ] ])
     | destruct (w_engine w); cbn [w_table set_engine set_queries set_uuids];
       rewrite Hold, Hv;
       eexists; eexists; (split; [ reflexivity | ]); cbn;
       (split; [ apply find_key_app_new; [ exact Hold | reflexivity ] | ]);
       (split; [ reflexivity | ]); (split; [ reflexivity | ]); (split; [ reflexivity | ]);
       (split; [ exists (S (w_clock w)); split; [ lia | reflexivity ] | ]);
       (split; [ discriminate | split; [ split; reflexivity | reflexivity ] ]) ]).
Qed.

(** [set] with a value the driver refuses raises the driver's error and
    leaves the table as it was. *)
Lemma set_memory_unbound_value (p : dict) (w : world) (key b : pyval) (e : exn) :
  key = (if truthy (dict_get p "key" PNone) then dict_get p "key" PNone
         else PStr (uuid_str (uuid4_int (urandom16 E (w_uuids w))))) ->
  sql_text E key = Return b ->
  sql_text E (dict_get p "value" PNone) = Raise e ->
  exists w',
    memory.set_memory E (PDict p) w = (Raise e, w') /\ w_table w' = w_table w.
Proof.
  intros Hkey Hb Hv. unfold memory.set_memory. autounfold with effects.
  destruct (truthy (dict_get p "key" PNone)); cbn [negb]; cbv beta iota;
    rewrite <- Hkey, Hb; cbn [w_engine set_uuids];
    destruct (find (fun r => pyval_eqb (it_key r) b) (w_table w)) eqn:Hold;
    destruct (w_engine w); cbn [w_table set_engine set_queries set_uuids];
    rewrite Hold, Hv; eexists; split; reflexivity.
Qed.

Lemma set_memory_unbound_key (p : dict) (w : world) (e : exn) :
  truthy (dict_get p "key" PNone) = true ->
  sql_text E (dict_get p "key" PNone) = Raise e ->
  exists w',
    memory.set_memory E (PDict p) w = (Raise e, w') /\ w_table w' = w_table w.
Proof.
  intros Hk Hb. unfold memory.set_memory. autounfold with effects.
  rewrite Hk. cbn [negb]. cbv beta iota. rewrite Hb.
  destruct (w_engine w); eexists; split; reflexivity.
Qed.

Lemma nodup_map_inj {A B : Type} (f : A -> B) (l : list A) (x y : A) :
  NoDup (map f l) -> In x l -> In y l -> f x = f y -> x = y.
Proof.
  induction l as [ | a l IH ]; simpl; intros Hnd Hx Hy Hf; [ contradiction | ].
  inversion Hnd as [ | ? ? Hnotin Hnd' ]; subst.
  destruct Hx as [-> | Hx], Hy as [-> | Hy].
  - reflexivity.
  - elim Hnotin. rewrite Hf. now apply in_map.
  - elim Hnotin. rewrite <- Hf. now apply in_map.
  - now apply IH.
Qed.







(** [delete] on a truthy key that binds removes the row it finds, by its
    id, and fails without touching the table when it finds none. *)
Lemma delete_memory_spec (p : dict) (w : world) (b : pyval) :
  truthy (dict_get p "key" PNone) = true ->
  sql_text E (dict_get p "key" PNone) = Return b ->
  exists w',
    memory.delete_memory E (PDict p) w =
      (match find (fun r => pyval_eqb (it_key r) b) (w_table w) with
       | Some it =>
           Return (PDict [("success", PBool true);
                          ("message",
                           PStr ("Memory item with key "
                                   +s+ py_str E (dict_get p "key" PNone)
                                   +s+ " deleted successfully"))])
       | None =>
           Raise (ValueError ("Memory item with key '"
                                +s+ py_str E (dict_get p "key" PNone) +s+ "' not found"))
       end, w') /\
    w_table w' =
      match find (fun r => pyval_eqb (it_key r) b) (w_table w) with
      | Some it => filter (fun r => negb (it_id r =? it_id it)) (w_table w)
      | None => w_table w
      end.
Proof.
  intros Hk Hb. unfold memory.delete_memory. autounfold with effects.
  rewrite Hk, Hb. cbn [negb].
  destruct (w_engine w); cbn [w_table set_engine set_queries];
    destruct (find _ (w_table w)); eexists; (split; [ reflexivity | ]); reflexivity.
Qed.

(** C5, amended: on a store that respects its unique constraints, take a
    non-empty key [k]. When the database binds it, to the text [kb] (a
    string binds to itself, a number to its text): if [kb] is a key of the
    store, [delete] returns its success message and removes exactly the
    rows with that key, after which [get] of [k] raises a ValueError with
    the message ["Memory item with key '<k>' not found"]; if [kb] is not a
    key of the store, [delete] raises that same ValueError and leaves the
    table as it was. When the driver refuses to bind [k] (a list, an
    object, an integer beyond 64 bits), [delete] raises the driver's error
    and leaves the table as it was. *)
Theorem delete_then_get (k : pyval) (pd pg : dict) (w : world) :
  truthy k = true ->
  dict_get pd "key" PNone = k ->
  dict_get pg "key" PNone = k ->
  table_ok (w_table w) ->
  (forall kb,
     sql_text E k = Return kb ->
     (In kb (map it_key (w_table w)) ->
      exists w1 w2,
        memory.delete_memory E (PDict pd) w =
          (Return (PDict [("success", PBool true);
                          ("message", PStr ("Memory item with key " +s+ py_str E k
                                              +s+ " deleted successfully"))]), w1) /\
        (forall r, In r (w_table w1) <-> In r (w_table w) /\ it_key r <> kb) /\
        memory.get_memory E (PDict pg) w1 =
          (Raise (ValueError ("Memory item with key '" +s+ py_str E k +s+ "' not found")),
           w2))
     /\
     (~ In kb (map it_key (w_table w)) ->
      exists w1,
        memory.delete_memory E (PDict pd) w =
          (Raise (ValueError ("Memory item with key '" +s+ py_str E k +s+ "' not found")),
           w1) /\
        w_table w1 = w_table w))
  /\
  (forall e,
     sql_text E k = Raise e ->
     exists w1,
       memory.delete_memory E (PDict pd) w = (Raise e, w1) /\
       w_table w1 = w_table w).
Proof.
  intros Hk Hpd Hpg [Hids Hkeys].
  split.
  2: { intros e He. apply delete_memory_unbound; now rewrite Hpd. }
  intros kb Hkb.
  destruct (delete_memory_spec pd w kb) as (w1 & Hdel & Htab);
    [ now rewrite Hpd | now rewrite Hpd | ].
  rewrite Hpd in Hdel.
  split.
  - intros Hin.
    destruct (find (fun r => pyval_eqb (it_key r) kb) (w_table w)) as [it | ] eqn:Hfind.
    2: { apply find_key_none in Hfind. contradiction. }
    destruct (find_key_sound _ _ _ Hfind) as [Hit Hitk].
    assert (Hrows : forall r, In r (w_table w1) <-> In r (w_table w) /\ it_key r <> kb).
    { intros r. rewrite Htab, filter_In. split.
      - intros [Hr Hid]. split; [ exact Hr | ]. intros Hrk.
        apply negb_true_iff, Z.eqb_neq in Hid. apply Hid. f_equal.
        apply (nodup_map_inj it_key (w_table w)); congruence.
      - intros [Hr Hrk]. split; [ exact Hr | ].
        apply negb_true_iff, Z.eqb_neq. intros Hid. apply Hrk.
        rewrite (nodup_map_inj it_id (w_table w) r it Hids Hr Hit Hid). exact Hitk. }
    destruct (get_memory_spec pg w1 kb) as (w2 & Hget & _);
      [ now rewrite Hpg | now rewrite Hpg | ].
    rewrite Hpg in Hget.
    assert (Hgone : find (fun r => pyval_eqb (it_key r) kb) (w_table w1) = None).
    { apply find_key_none. intros Hink. apply in_map_iff in Hink as (r & Hrk & Hr).
      apply Hrows in Hr as [_ Hne]. now apply Hne. }
    rewrite Hgone in Hget.
    exists w1, w2. repeat split; try assumption; now apply Hrows.
  - intros Hnotin. apply find_key_none in Hnotin. rewrite Hnotin in Hdel, Htab.
    exists w1. split; assumption.
Qed.

Lemma fits_int64_bounds (z : Z) : - 2 ^ 63 <= z < 2 ^ 63 -> fits_int64 z = true.
Proof.
  intros [Hlo Hhi]. unfold fits_int64.
  apply andb_true_intro. split; [ now apply Z.leb_le | now apply Z.ltb_lt ].
Qed.

(** C10, amended: for a [list] call whose limit and offset convert to
    integers that fit a 64-bit column, the limit not negative, the items
    returned are the rendered first [limit] of the selected rows after
    skipping [offset] of them (none when the offset is negative), so at
    most [limit]; the total is the number of selected rows, whatever the
    limit and the offset; and the integer values of limit and offset are
    returned with them. The selected rows are all rows when [filterKey] is
    absent or falsy, and otherwise those whose key matches the SQL pattern
    [%filterKey%], in table order. *)
Theorem list_pagination (p : dict) (w : world) (limit offset : Z) :
  py_int E (dict_get p "limit" (PInt 100)) = Return limit ->
  py_int E (dict_get p "offset" (PInt 0)) = Return offset ->
  0 <= limit < 2 ^ 63 ->
  - 2 ^ 63 <= offset < 2 ^ 63 ->
  let selected :=
    if truthy (dict_get p "filterKey" PNone)
    then filter (fun it =>
                   sql_like E ("%" +s+ py_str E (dict_get p "filterKey" PNone) +s+ "%")
                            (it_key it))
                (w_table w)
    else w_table w in
  let page := firstn (Z.to_nat limit) (skipn (Z.to_nat offset) selected) in
  exists w',
    memory.list_memory E (PDict p) w =
      (Return
         (PDict [("items",
                  PList (map (fun it =>
                                PDict [("id", PInt (it_id it));
                                       ("key", it_key it);
                                       ("value", it_value it);
                                       ("metadata", it_metadata it);
                                       ("created_at", PStr (isoformat E (it_created_at it)));
                                       ("updated_at", PStr (isoformat E (it_updated_at it)))])
                             page));
                 ("total", PInt (Z.of_nat (length selected)));
                 ("limit", PInt limit);
                 ("offset", PInt offset)]), w') /\
    Z.of_nat (length page) <= limit /\
    w_table w' = w_table w.
Proof.
  intros Hl Ho Hlim Hoff selected page. subst page selected.
  unfold memory.list_memory. autounfold with effects.
  rewrite Hl, Ho.
  rewrite (fits_int64_bounds limit) by lia.
  rewrite (fits_int64_bounds offset) by lia.
  cbn [andb negb]. unfold sql_limit_offset, memory.filtered_rows.
  replace (limit <? 0) with false by (symmetry; apply Z.ltb_ge; lia).
  destruct (w_engine w); cbn [w_table set_engine set_queries];
    eexists; (split; [ reflexivity | ]);
    (split; [ rewrite length_firstn; lia | reflexivity ]).
Qed.

(** The unique constraints hold of the empty table and are kept by [set]
    and by [delete]. *)
Lemma table_ok_empty : table_ok [].
Proof. split; constructor. Qed.

Lemma next_rowid_fresh (t : list MemoryItem) : ~ In (next_rowid t) (map it_id t).
Proof.
  assert (H : forall z, In z (map it_id t) -> z <= fold_right Z.max 0 (map it_id t)).
  { induction t as [ | r t IH ]; simpl; intros z Hz; [ contradiction | ].
    destruct Hz as [<- | Hz]; [ lia | ]. specialize (IH z Hz). lia. }
  intros Hin. apply H in Hin. unfold next_rowid in Hin. lia.
Qed.

Lemma nodup_map_filter {A B : Type} (f : A -> B) (g : A -> bool) (l : list A) :
  NoDup (map f l) -> NoDup (map f (filter g l)).
Proof.
  induction l as [ | a l IH ]; simpl; intros Hnd; [ constructor | ].
  inversion Hnd as [ | ? ? Hnotin Hnd' ]; subst.
  destruct (g a); simpl; [ constructor | ]; [ | now apply IH | now apply IH ].
  intros Hin. apply Hnotin. apply in_map_iff in Hin as (x & Hx & Hin).
  apply filter_In in Hin as [Hin _]. rewrite <- Hx. now apply in_map.
Qed.

(** The table after a [set]: unchanged when the driver refuses the key or
    the value, and otherwise the row found under the bound key replaced, or
    a row appended under that key. *)
Lemma set_memory_table (p : dict) (w : world) :
  w_table (snd (memory.set_memory E (PDict p) w)) = w_table w
  \/
  exists b v m c u,
    sql_text E (if truthy (dict_get p "key" PNone) then dict_get p "key" PNone
                else PStr (uuid_str (uuid4_int (urandom16 E (w_uuids w))))) = Return b /\
    w_table (snd (memory.set_memory E (PDict p) w)) =
      match find (fun r => pyval_eqb (it_key r) b) (w_table w) with
      | Some old =>
          map (fun r => if it_id r =? it_id old
                        then mkItem (it_id old) (it_key old) v m (it_created_at old) u
                        else r) (w_table w)
      | None => w_table w ++ [mkItem (next_rowid (w_table w)) b v m c u]
      end.
Proof.
  set (key := if truthy (dict_get p "key" PNone) then dict_get p "key" PNone
              else PStr (uuid_str (uuid4_int (urandom16 E (w_uuids w))))).
  destruct (sql_text E key) as [b | e] eqn:Hb.
  - destruct (sql_text E (dict_get p "value" PNone)) as [stored | e] eqn:Hv.
    + destruct (set_memory_spec p w key b stored eq_refl Hb Hv)
        as (it & w' & Hs & _ & Hkey & Hval & Hmd & _ & Hold & Hnew & _).
      right. rewrite Hs. cbn [snd].
      destruct (find (fun r => pyval_eqb (it_key r) b) (w_table w)) as [old | ] eqn:Hfind.
      * destruct (Hold old eq_refl) as (Hid & Hcr & Htab).
        destruct (find_key_sound _ _ _ Hfind) as [_ Hkold].
        exists b, (it_value it), (it_metadata it), 0, (it_updated_at it).
        split; [ reflexivity | ]. rewrite Hfind, Htab.
        replace (mkItem (it_id old) (it_key old) (it_value it) (it_metadata it)
                        (it_created_at old) (it_updated_at it)) with it;
          [ reflexivity | ].
        destruct it; cbn in *; congruence.
      * destruct (Hnew eq_refl) as (Hid & Htab).
        exists b, (it_value it), (it_metadata it), (it_created_at it), (it_updated_at it).
        split; [ reflexivity | ]. rewrite Hfind, Htab. do 2 f_equal.
        destruct it; cbn in *; congruence.
    + destruct (set_memory_unbound_value p w key b e eq_refl Hb Hv) as (w' & Hs & Htab).
      left. now rewrite Hs.
  - destruct (truthy (dict_get p "key" PNone)) eqn:Hk; subst key.
    + destruct (set_memory_unbound_key p w e Hk Hb) as (w' & Hs & Htab).
      left. now rewrite Hs.
    + discriminate.
Qed.

Lemma set_memory_table_ok (p : dict) (w : world) :
  table_ok (w_table w) -> table_ok (w_table (snd (memory.set_memory E (PDict p) w))).
Proof.
  intros [Hids Hkeys].
  destruct (set_memory_table p w) as [-> | (b & v & m & c & u & _ & ->)];
    [ now split | ].
  destruct (find (fun r => pyval_eqb (it_key r) b) (w_table w)) as [old | ] eqn:Hfind.
  - destruct (find_key_sound _ _ _ Hfind) as [Hin _].
    split.
    + rewrite map_map. erewrite map_ext; [ exact Hids | ].
      intros r. simpl. destruct (Z.eqb_spec (it_id r) (it_id old)); simpl; congruence.
    + rewrite map_map. erewrite map_ext_in; [ exact Hkeys | ].
      intros r Hr. simpl. destruct (Z.eqb_spec (it_id r) (it_id old)); simpl.
      * now rewrite (nodup_map_inj it_id (w_table w) r old Hids Hr Hin).
      * reflexivity.
  - split; rewrite map_app; simpl.
    + apply NoDup_app; [ exact Hids | constructor; [ intros [] | constructor ] | ].
      intros z Hz [<- | []]. now apply next_rowid_fresh in Hz.
    + apply NoDup_app; [ exact Hkeys | constructor; [ intros [] | constructor ] | ].
      intros z Hz [<- | []]. apply find_key_none in Hfind. contradiction.
Qed.

Lemma delete_memory_table_ok (p : dict) (w : world) :
  table_ok (w_table w) -> table_ok (w_table (snd (memory.delete_memory E (PDict p) w))).
Proof.
  intros Hok. unfold memory.delete_memory. autounfold with effects.
  destruct (truthy (dict_get p "key" PNone)); cbn [negb]; [ | exact Hok ].
  destruct Hok as [Hids Hkeys].
  destruct (sql_text E (dict_get p "key" PNone));
    destruct (w_engine w); cbn [w_table set_engine set_queries];
    try destruct (find _ (w_table w)); cbn; split;
    try assumption; now apply nodup_map_filter.
Qed.

End Memory.





(** C5, as the claim states it, fails: after a successful [delete], the
    error of the following [get] is a ValueError, and so is the error of a
    [delete] on an absent key; no error of kind NotFound is produced. *)
Lemma not_found_is_a_ValueError :
  envelope_status
    (fst (mcp_gateway env0 (call "memory" "delete" [("key", PStr "k")]) world_with_k))
    = Some (PStr "success") /\
  error_kind
    (fst (mcp_gateway env0 (call "memory" "get" [("key", PStr "k")])
            (snd (mcp_gateway env0 (call "memory" "delete" [("key", PStr "k")])
                    world_with_k))))
    = Some (PStr "ValueError") /\
  error_kind
    (fst (mcp_gateway env0 (call "memory" "get" [("key", PStr "k")])
            (snd (mcp_gateway env0 (call "memory" "delete" [("key", PStr "k")])
                    world_with_k))))
    <> Some (PStr "NotFound") /\
  error_kind
    (fst (mcp_gateway env0 (call "memory" "delete" [("key", PStr "k")]) world0))
    = Some (PStr "ValueError") /\
  error_kind
    (fst (mcp_gateway env0 (call "memory" "delete" [("key", PStr "k")]) world0))
    <> Some (PStr "NotFound").
Proof. repeat split; discriminate. Qed.

Lemma delete_then_get_witness :
  (exists w1 w2,
     memory.delete_memory env0 (PDict [("key", PStr "k")]) world_with_k =
       (Return (PDict [("success", PBool true);
                       ("message", PStr ("Memory item with key " +s+ py_str env0 (PStr "k")
                                           +s+ " deleted successfully"))]), w1) /\
     (forall r, In r (w_table w1) <-> In r (w_table world_with_k) /\ it_key r <> PStr "k") /\
     memory.get_memory env0 (PDict [("key", PStr "k")]) w1 =
       (Raise (ValueError ("Memory item with key '" +s+ py_str env0 (PStr "k")
                             +s+ "' not found")), w2))
  /\
  (exists w1,
     memory.delete_memory env0 (PDict [("key", PInt 5)]) world_with_k =
       (Raise (ValueError ("Memory item with key '" +s+ py_str env0 (PInt 5)
                             +s+ "' not found")), w1) /\
     w_table w1 = w_table world_with_k)
  /\
  (exists w1,
     memory.delete_memory env0 (PDict [("key", PList [PInt 1])]) world_with_k =
       (Raise (sql_bind_error env0 (PList [PInt 1])), w1) /\
     w_table w1 = w_table world_with_k).
Proof.
  assert (Hok : table_ok (w_table world_with_k)).
  { split; (constructor; [ intros [] | constructor ]). }
  split; [ | split ].
  - apply (proj1 (proj1 (delete_then_get env0 (PStr "k") [("key", PStr "k")]
                           [("key", PStr "k")] world_with_k eq_refl eq_refl eq_refl Hok)
                    (PStr "k") eq_refl)).
    simpl. left. reflexivity.
  - apply (proj2 (proj1 (delete_then_get env0 (PInt 5) [("key", PInt 5)]
                           [("key", PInt 5)] world_with_k eq_refl eq_refl eq_refl Hok)
                    (PStr "5") eq_refl)).
    simpl. intros [H | []]. discriminate.
  - apply (proj2 (delete_then_get env0 (PList [PInt 1]) [("key", PList [PInt 1])]
                    [("key", PList [PInt 1])] world_with_k eq_refl eq_refl eq_refl Hok)).
    reflexivity.
Defined.

(** C10, as the claim states it, fails: a [list] call with limit -1 on a
    store of one item returns that item, one entry more than the limit
    allows. *)
Lemma negative_limit_returns_every_row :
  exists items w',
    memory.list_memory env0 (PDict [("limit", PInt (-1))]) world_with_k
      = (Return (PDict [("items", PList items); ("total", PInt 1);
                        ("limit", PInt (-1)); ("offset", PInt 0)]), w') /\
    length items = 1%nat /\
    ~ (Z.of_nat (length items) <= -1).
Proof.
  exists [memory.to_dict env0 (mkItem 1 (PStr "k") (PStr "v") (PDict []) 0 1)],
         (snd (memory.list_memory env0 (PDict [("limit", PInt (-1))]) world_with_k)).
  split; [ reflexivity | ]. split; [ reflexivity | ].
  simpl. lia.
Qed.

(** On the store of "alpha", "beta" and "alphabet", the second page of
    size one of the keys that contain "alpha" is the row of "alphabet",
    out of two selected. *)
Lemma list_pagination_witness :
  exists w',
    memory.list_memory env_like
        (PDict [("filterKey", PStr "alpha"); ("limit", PInt 1); ("offset", PInt 1)])
        world_abc =
      (Return
         (PDict [("items",
                  PList [PDict [("id", PInt 3);
                                ("key", PStr "alphabet");
                                ("value", PStr "3");
                                ("metadata", PDict []);
                                ("created_at", PStr "1970-01-01T00:00:00");
                                ("updated_at", PStr "1970-01-01T00:00:00")]]);
                 ("total", PInt 2);
                 ("limit", PInt 1);
                 ("offset", PInt 1)]), w') /\
    1 <= 1 /\
    w_table w' = w_table world_abc.
Proof.
  apply (list_pagination env_like
           [("filterKey", PStr "alpha"); ("limit", PInt 1); ("offset", PInt 1)]
           world_abc 1 1);
    try reflexivity; lia.
Defined.

(** ** Runs of the model *)

Example uuid_of_zero_bits :
  uuid_str (uuid4_int 0) = "00000000-0000-4000-8000-000000000000".
Proof. reflexivity. Qed.

Example uuid_of_all_ones :
  uuid_str (uuid4_int (N.ones 128)) = "ffffffff-ffff-4fff-bfff-ffffffffffff".
Proof. reflexivity. Qed.

Example gateway_memory_set :
  fst (mcp_gateway env0 (call "memory" "set" [("key", PStr "k"); ("value", PStr "v")])
         world0)
  = Response
      (PDict [("tool", PStr "memory"); ("action", PStr "set");
              ("status", PStr "success");
              ("result",
               PDict [("id", PInt 1); ("key", PStr "k"); ("value", PStr "v");
                      ("metadata", PDict []);
                      ("created_at", PStr "1970-01-01T00:00:00");
                      ("updated_at", PStr "1970-01-01T00:00:00")])])
      200.
Proof. reflexivity. Qed.

Example gateway_body_not_an_object :
  mcp_gateway env0 (PList [PInt 1]) world0
  = (Unhandled (AttributeError "'list' object has no attribute 'get'"), world0).
Proof. reflexivity. Qed.

Example gateway_unhashable_action :
  fst (mcp_gateway env0
         (PDict [("tool", PStr "github"); ("action", PList [PInt 1])]) world0)
  = Response (error_envelope (PStr "github") (PList [PInt 1])
                (TypeError "unhashable type: 'list'")) 500.
Proof. reflexivity. Qed.

Example gateway_parameters_not_an_object :
  fst (mcp_gateway env0
         (PDict [("tool", PStr "memory"); ("action", PStr "get");
                 ("parameters", PNone)]) world0)
  = Response (error_envelope (PStr "memory") (PStr "get")
                (AttributeError "'NoneType' object has no attribute 'get'")) 500.
Proof. reflexivity. Qed.

Example list_with_offset_past_the_end :
  fst (memory.list_memory env0 (PDict [("offset", PInt 5)]) world_with_k)
  = Return (PDict [("items", PList []); ("total", PInt 1);
                   ("limit", PInt 100); ("offset", PInt 5)]).
Proof. reflexivity. Qed.

Example list_with_limit_not_a_number :
  fst (memory.list_memory env0 (PDict [("limit", PNone)]) world_with_k)
  = Raise (TypeError
             "int() argument must be a string, a bytes-like object or a real number, not 'NoneType'").
Proof. reflexivity. Qed.

(** * Further properties *)

(** ** Discovery: the manifest, the client and the gateway *)

(** X1: every (tool, action) pair the manifest advertises is advertised
    exactly once and is one that dispatch resolves to a handler. *)
Theorem advertised_actions_dispatch (E : env) (t a : string) :
  In (t, a) manifest_actions ->
  occurrences (t, a) manifest_actions = 1%nat /\
  exists h, resolve E t a = Some h.
Proof.
  intros H. vm_compute in H.
  repeat (destruct H as [H | H];
          [ injection H as <- <-; split; [ reflexivity | eexists; reflexivity ] | ]).
  destruct H.
Qed.

Lemma advertised_actions_dispatch_witness :
  occurrences ("memory", "delete") manifest_actions = 1%nat /\
  exists h, resolve env0 "memory" "delete" = Some h.
Proof.
  apply (advertised_actions_dispatch env0 "memory" "delete").
  vm_compute. do 13 right. left. reflexivity.
Defined.

Lemma dict_has_get_actions (d : dict) (a : string) :
  dict_has d a = true -> In a (map fst d).
Proof.
  induction d as [ | [k v] d IH ]; simpl; [ discriminate | ].
  destruct (String.eqb k a) eqn:Hk; simpl.
  - apply String.eqb_eq in Hk. now left.
  - intros H. right. now apply IH.
Qed.

(** X2: what a fresh client discovers can be called. The tools
    [list_tools] returns are exactly the tool names the gateway routes;
    [list_actions] raises a ValueError for any other tool name, and for a
    routed tool returns actions that dispatch all resolves. *)
Theorem client_discovery_is_sound (E : env) (t : string) :
  (In t (match MCPClient.list_tools with Got l => l | _ => [] end)
     <-> route E (PStr t) <> None) /\
  (route E (PStr t) = None ->
     MCPClient.list_actions t = ClientValueError ("Unknown tool: " +s+ t)) /\
  (route E (PStr t) <> None ->
     exists actions,
       MCPClient.list_actions t = Got (PDict actions) /\
       forall a, dict_has actions a = true -> resolve E t a <> None).
Proof.
  unfold route.
  destruct (String.eqb t "github") eqn:Ht;
    [ | destruct (String.eqb t "gitlab") eqn:Ht0;
        [ | destruct (String.eqb t "gmaps") eqn:Ht1;
            [ | destruct (String.eqb t "memory") eqn:Ht2;
                [ | destruct (String.eqb t "puppeteer") eqn:Ht3 ] ] ] ];
    try match goal with
        | H : String.eqb t ?x = true |- _ => apply String.eqb_eq in H; subst t
        end.
  1-5: split; [ split; [ discriminate | intros _; vm_compute; tauto ] | ];
       (split; [ discriminate | ]); intros _;
       eexists; (split; [ vm_compute; reflexivity | ]);
       intros a Ha; apply dict_has_get_actions in Ha; simpl in Ha;
       repeat (destruct Ha as [<- | Ha]; [ discriminate | ]); destruct Ha.
  split; [ split | split ].
  - intros H. vm_compute in H.
    repeat (destruct H as [<- | H]; [ discriminate | ]). destruct H.
  - intros H. now elim H.
  - intros _. unfold MCPClient.list_actions, MCPClient.get_manifest, mcp_manifest,
      MCPClient.raise_for_status.
    cbn [Z.leb Z.ltb Z.compare Pos.compare Pos.compare_cont andb as_dict].
    assert (Hno : dict_has (as_dict (dict_get (as_dict manifest) "tools" PNone)) t
                  = false).
    { cbn [manifest as_dict dict_get String.eqb Ascii.eqb Bool.eqb dict_has].
      rewrite (String.eqb_sym "github"), (String.eqb_sym "gitlab"),
        (String.eqb_sym "gmaps"), (String.eqb_sym "memory"),
        (String.eqb_sym "puppeteer").
      rewrite Ht, Ht0, Ht1, Ht2, Ht3. reflexivity. }
    rewrite Hno. reflexivity.
  - intros H. now elim H.
Qed.

Lemma dict_get_absent (p : dict) (n : string) (default : pyval) :
  dict_has p n = false -> dict_get p n default = default.
Proof.
  induction p as [ | [k v] p IH ]; simpl; [ reflexivity | ].
  destruct (String.eqb k n); simpl; [ discriminate | exact IH ].
Qed.

Lemma dict_get_snoc (p : dict) (n k : string) (d default : pyval) :
  dict_has p n = false ->
  dict_get (p ++ [(n, d)]) k default
    = if String.eqb n k then d else dict_get p k default.
Proof.
  induction p as [ | [k' v] p IH ]; simpl.
  - intros _. reflexivity.
  - destruct (String.eqb k' n) eqn:Hn; simpl; [ discriminate | ].
    intros Hp. destruct (String.eqb k' k) eqn:Hk; [ | now apply IH ].
    apply String.eqb_eq in Hk. subst k'. rewrite String.eqb_sym, Hn. reflexivity.
Qed.

Lemma dict_has_snoc (p : dict) (n k : string) (d : pyval) :
  dict_has (p ++ [(n, d)]) k = dict_has p k || String.eqb n k.
Proof.
  induction p as [ | [k' v] p IH ]; simpl.
  - now rewrite orb_false_r.
  - now rewrite IH, orb_assoc.
Qed.

Lemma copy_optional_snoc (names : list string) (p : dict) (n : string) (d : pyval)
    (base : dict) :
  dict_has p n = false -> ~ In n names ->
  puppeteer.copy_optional names (PDict (p ++ [(n, d)])) base
    = puppeteer.copy_optional names (PDict p) base.
Proof.
  intros Hp. unfold puppeteer.copy_optional. revert base.
  induction names as [ | x names IH ]; intros base Hn; simpl; [ reflexivity | ].
  assert (Hx : String.eqb n x = false).
  { apply String.eqb_neq. intros ->. apply Hn. now left. }
  rewrite dict_has_snoc, dict_get_snoc, Hx, orb_false_r by assumption.
  apply IH. intros H. apply Hn. now right.
Qed.

(** X3: the defaults the manifest documents are the defaults the handlers
    apply. For every parameter the manifest gives a default for, a call in
    which the parameter is absent gets the same answer, and leaves the same
    world, as the call with the parameter set to the documented default. *)
Theorem manifest_defaults_are_applied
    (E : env) (t a n : string) (d : pyval) (p : dict) (w : world) :
  In ((t, a, n), d) manifest_defaults ->
  dict_has p n = false ->
  mcp_gateway E (call t a (p ++ [(n, d)])) w = mcp_gateway E (call t a p) w.
Proof.
  intros Hin Hp. vm_compute in Hin.
  repeat (destruct Hin as [H | Hin];
          [ injection H as <- <- <- <-; unfold call;
            rewrite !gateway_dispatch by reflexivity;
            enter_handler; autounfold with effects;
            rewrite ?dict_has_snoc, ?dict_get_snoc by assumption;
            rewrite ?(dict_get_absent p _ _ Hp);
            cbn [String.eqb Ascii.eqb Bool.eqb orb];
            repeat first
              [ reflexivity
              | rewrite copy_optional_snoc
                  by (try assumption; cbn; intuition discriminate)
              | match goal with
                | |- context [script_dir_fault E] => destruct (script_dir_fault E)
                | |- context [truthy ?v] => destruct (truthy v); cbn [negb]
                | |- context [mktemp E ?n ?s] => destruct (mktemp E n s)
                end ]
          | ]).
  destruct Hin.
Qed.

Lemma manifest_defaults_are_applied_witness :
  mcp_gateway env0
    (call "memory" "list" ([("filterKey", PStr "k")] ++ [("limit", PInt 100)]))
    world_with_k
  = mcp_gateway env0 (call "memory" "list" [("filterKey", PStr "k")]) world_with_k.
Proof.
  apply (manifest_defaults_are_applied env0 "memory" "list" "limit" (PInt 100)
           [("filterKey", PStr "k")] world_with_k).
  - vm_compute. do 3 right. left. reflexivity.
  - reflexivity.
Defined.

(** ** More of the memory store *)

Ltac memory_cases :=
  repeat match goal with
         | |- context [py_int ?E ?v] => destruct (py_int E v); cbn
         | |- context [sql_text ?E ?v] => destruct (sql_text E v); cbn
         | |- context [w_engine ?w] => destruct (w_engine w); cbn
         | |- context [find ?f ?l] => destruct (find f l); cbn
         | |- context [truthy ?v] => destruct (truthy v); cbn
         | |- context [fits_int64 ?z] => destruct (fits_int64 z); cbn
         end.

(** X4: the reading actions of the memory tool ([get], [list], [search])
    never change the stored rows, whatever their parameters and whether they
    succeed or fail; they read no clock and draw no UUID. *)
Theorem memory_reads_leave_store (E : env) (a : string) (p : pyval) (w : world) :
  In a ["get"; "list"; "search"] ->
  w_table (snd (memory.handle_action E (PStr a) p w)) = w_table w /\
  w_clock (snd (memory.handle_action E (PStr a) p w)) = w_clock w /\
  w_uuids (snd (memory.handle_action E (PStr a) p w)) = w_uuids w.
Proof.
  intros Ha. simpl in Ha.
  repeat (destruct Ha as [<- | Ha];
          [ unfold memory.handle_action, run_action;
            cbn [lookup_handler memory.action_handlers String.eqb Ascii.eqb Bool.eqb];
            autounfold with handlers; autounfold with effects;
            destruct p; cbn; memory_cases; repeat split
          | ]).
  destruct Ha.
Qed.

Lemma memory_reads_leave_store_witness :
  w_table (snd (memory.handle_action env0 (PStr "list")
                  (PDict [("limit", PStr "many")]) world_with_k))
    = w_table world_with_k /\
  w_clock (snd (memory.handle_action env0 (PStr "list")
                  (PDict [("limit", PStr "many")]) world_with_k))
    = w_clock world_with_k /\
  w_uuids (snd (memory.handle_action env0 (PStr "list")
                  (PDict [("limit", PStr "many")]) world_with_k))
    = w_uuids world_with_k.
Proof.
  apply (memory_reads_leave_store env0 "list" (PDict [("limit", PStr "many")])
           world_with_k).
  simpl. right. left. reflexivity.
Defined.

Lemma filter_other_ids (t : list MemoryItem) (z : Z) :
  ~ In z (map it_id t) -> filter (fun r => negb (it_id r =? z)) t = t.
Proof.
  induction t as [ | r t IH ]; simpl; intros H; [ reflexivity | ].
  destruct (Z.eqb_spec (it_id r) z) as [Heq | Hne]; simpl.
  - elim H. now left.
  - f_equal. apply IH. intros Hin. apply H. now right.
Qed.

(** X5: a [set] under a non-empty key that is not in the store, with a
    value the text column accepts, followed by a [delete] of that key,
    succeeds and leaves the table exactly as it was before the [set]. Keys
    are the same when the database binds them to the same text [kb]: what
    was set under the string "7" is deleted under the number 7. *)
Theorem set_then_delete_restores
    (E : env) (k k' kb stored : pyval) (p pd : dict) (w : world) :
  truthy k = true ->
  truthy k' = true ->
  sql_text E k = Return kb ->
  sql_text E k' = Return kb ->
  sql_text E (dict_get p "value" PNone) = Return stored ->
  dict_get p "key" PNone = k ->
  dict_get pd "key" PNone = k' ->
  ~ In kb (map it_key (w_table w)) ->
  exists w2,
    memory.delete_memory E (PDict pd) (snd (memory.set_memory E (PDict p) w))
      = (Return (PDict [("success", PBool true);
                        ("message", PStr ("Memory item with key " +s+ py_str E k'
                                            +s+ " deleted successfully"))]), w2) /\
    w_table w2 = w_table w.
Proof.
  intros Hk Hk' Hkb Hkb' Hv Hp Hpd Hfresh.
  apply find_key_none in Hfresh.
  destruct (set_memory_spec E p w k kb stored)
    as (it & w1 & Hset & Hf & _ & _ & _ & _ & _ & Hnew & _);
    [ now rewrite Hp, Hk | exact Hkb | exact Hv | ].
  destruct (Hnew Hfresh) as (Hid & Htab).
  rewrite Hset. cbn [snd].
  destruct (delete_memory_spec E pd w1 kb) as (w2 & Hdel & Htab2);
    [ now rewrite Hpd | now rewrite Hpd | ].
  rewrite Hpd, Hf in Hdel. rewrite Hf in Htab2.
  exists w2. split; [ exact Hdel | ].
  rewrite Htab2, Htab, filter_app.
  rewrite filter_other_ids by (rewrite Hid; apply next_rowid_fresh).
  cbn [filter]. rewrite Z.eqb_refl. cbn [negb]. apply app_nil_r.
Qed.

Lemma set_then_delete_restores_witness :
  exists w2,
    memory.delete_memory env0 (PDict [("key", PInt 7)])
      (snd (memory.set_memory env0 (PDict [("key", PStr "7"); ("value", PInt 1)])
              world_with_k))
      = (Return (PDict [("success", PBool true);
                        ("message", PStr ("Memory item with key " +s+ py_str env0 (PInt 7)
                                            +s+ " deleted successfully"))]), w2) /\
    w_table w2 = w_table world_with_k.
Proof.
  apply (set_then_delete_restores env0 (PStr "7") (PInt 7) (PStr "7") (PStr "1")
           [("key", PStr "7"); ("value", PInt 1)] [("key", PInt 7)]
           world_with_k); try reflexivity.
  simpl. intros [H | H]; [ discriminate | exact H ].
Defined.

Lemma find_map_frame {A : Type} (f : A -> bool) (g : A -> A) (t : list A) :
  (forall r, In r t -> g r = r \/ (f r = false /\ f (g r) = false)) ->
  find f (map g t) = find f t.
Proof.
  induction t as [ | r t IH ]; simpl; intros H; [ reflexivity | ].
  destruct (H r (or_introl eq_refl)) as [-> | [-> ->]];
    (rewrite IH; [ reflexivity | intros r' Hr'; apply H; now right ]).
Qed.

Lemma find_filter_frame {A : Type} (f h : A -> bool) (t : list A) :
  (forall r, In r t -> h r = false -> f r = false) ->
  find f (filter h t) = find f t.
Proof.
  induction t as [ | r t IH ]; simpl; intros H; [ reflexivity | ].
  destruct (h r) eqn:Hh; simpl.
  - rewrite IH; [ reflexivity | intros r' Hr'; apply H; now right ].
  - rewrite (H r (or_introl eq_refl) Hh).
    apply IH. intros r' Hr'. apply H. now right.
Qed.

Lemma find_app_frame {A : Type} (f : A -> bool) (t : list A) (x : A) :
  f x = false -> find f (t ++ [x]) = find f t.
Proof.
  intros Hx. induction t as [ | r t IH ]; simpl.
  - now rewrite Hx.
  - now rewrite IH.
Qed.

(** What [get] returns depends on the table only through the row found
    under the bound key. *)
Lemma get_memory_find (E : env) (pg : dict) (w1 w2 : world) :
  (forall b, sql_text E (dict_get pg "key" PNone) = Return b ->
             find (fun r => pyval_eqb (it_key r) b) (w_table w1)
               = find (fun r => pyval_eqb (it_key r) b) (w_table w2)) ->
  fst (memory.get_memory E (PDict pg) w1) = fst (memory.get_memory E (PDict pg) w2).
Proof.
  intros H. unfold memory.get_memory. autounfold with effects.
  destruct (truthy (dict_get pg "key" PNone)); cbn [negb]; [ | reflexivity ].
  destruct (sql_text E (dict_get pg "key" PNone)) as [b | e].
  - specialize (H b eq_refl).
    destruct (w_engine w1), (w_engine w2); cbn [w_table set_engine set_queries];
      rewrite H; destruct (find _ (w_table w2)); reflexivity.
  - destruct (w_engine w1), (w_engine w2); reflexivity.
Qed.

(** X6: writes under one key leave every other key alone. On a store that
    respects its unique constraints, after a [set] or a [delete] of a
    non-empty key [k], whether it succeeds or not, a [get] of any other key
    returns what it returned before. Two keys are different when the
    database binds them to different texts: the number 5 and the string
    "5" are one key. *)
Theorem memory_writes_frame
    (E : env) (k k' kb kb' : pyval) (p pd pg : dict) (w : world) :
  truthy k = true ->
  sql_text E k = Return kb ->
  sql_text E k' = Return kb' ->
  kb' <> kb ->
  dict_get p "key" PNone = k ->
  dict_get pd "key" PNone = k ->
  dict_get pg "key" PNone = k' ->
  table_ok (w_table w) ->
  fst (memory.get_memory E (PDict pg) (snd (memory.set_memory E (PDict p) w)))
    = fst (memory.get_memory E (PDict pg) w) /\
  fst (memory.get_memory E (PDict pg) (snd (memory.delete_memory E (PDict pd) w)))
    = fst (memory.get_memory E (PDict pg) w).
Proof.
  intros Hk Hkb Hkb' Hne Hp Hpd Hpg [Hids Hkeys].
  assert (Hkk : pyval_eqb kb kb' = false).
  { apply pyval_eqb_neq. congruence. }
  split; apply get_memory_find; rewrite Hpg, Hkb'; intros b [= <-].
  - destruct (set_memory_table E p w) as [-> | (b & v & m & c & u & Hb & ->)];
      [ reflexivity | ].
    rewrite Hp, Hk, Hkb in Hb. injection Hb as <-.
    destruct (find (fun r => pyval_eqb (it_key r) kb) (w_table w)) as [old | ] eqn:Hold.
    + destruct (find_key_sound _ _ _ Hold) as [Hin Hkey].
      apply find_map_frame. intros r Hr.
      destruct (Z.eqb_spec (it_id r) (it_id old)) as [Hid | Hid]; [ right | now left ].
      rewrite (nodup_map_inj it_id (w_table w) r old Hids Hr Hin Hid).
      cbn [it_key]. rewrite Hkey. now split.
    + apply find_app_frame. exact Hkk.
  - destruct (delete_memory_spec E pd w kb) as (w1 & Hdel & Htab);
      [ now rewrite Hpd | now rewrite Hpd | ].
    rewrite Hdel. cbn [snd]. rewrite Htab.
    destruct (find (fun r => pyval_eqb (it_key r) kb) (w_table w)) as [old | ] eqn:Hold;
      [ | reflexivity ].
    destruct (find_key_sound _ _ _ Hold) as [Hin Hkey].
    apply find_filter_frame. intros r Hr Hid.
    apply negb_false_iff, Z.eqb_eq in Hid.
    rewrite (nodup_map_inj it_id (w_table w) r old Hids Hr Hin Hid).
    now rewrite Hkey.
Qed.

Lemma memory_writes_frame_witness :
  fst (memory.get_memory env0 (PDict [("key", PStr "k")])
         (snd (memory.set_memory env0 (PDict [("key", PInt 5); ("value", PInt 2)])
                 world_with_k)))
    = fst (memory.get_memory env0 (PDict [("key", PStr "k")]) world_with_k) /\
  fst (memory.get_memory env0 (PDict [("key", PStr "k")])
         (snd (memory.delete_memory env0 (PDict [("key", PInt 5)]) world_with_k)))
    = fst (memory.get_memory env0 (PDict [("key", PStr "k")]) world_with_k).
Proof.
  apply (memory_writes_frame env0 (PInt 5) (PStr "k") (PStr "5") (PStr "k")
           [("key", PInt 5); ("value", PInt 2)] [("key", PInt 5)]
           [("key", PStr "k")] world_with_k); try reflexivity.
  - discriminate.
  - exact (conj (NoDup_cons 1 (fun H : In 1 [] => H) (NoDup_nil Z))
                (NoDup_cons (PStr "k") (fun H : In (PStr "k") [] => H)
                            (NoDup_nil pyval))).
Defined.

Lemma memory_handlers_keep_table (E : env) (p : pyval) (w : world) :
  w_table (snd (memory.get_memory E p w)) = w_table w /\
  w_table (snd (memory.list_memory E p w)) = w_table w /\
  w_table (snd (memory.search_memory E p w)) = w_table w.
Proof.
  repeat split; autounfold with handlers; autounfold with effects;
    destruct p; cbn; memory_cases; reflexivity.
Qed.

(** X7: every action of the memory tool keeps the unique constraints of the
    table (no two rows with one id, no two rows with one key), whatever the
    action name and the parameters and whether the action succeeds. *)
Theorem memory_actions_keep_constraints
    (E : env) (action parameters : pyval) (w : world) :
  table_ok (w_table w) ->
  table_ok (w_table (snd (memory.handle_action E action parameters w))).
Proof.
  intros Hok. unfold memory.handle_action, run_action.
  destruct action as [ | b | z | q | a | l | d ]; try exact Hok.
  cbn [lookup_handler memory.action_handlers].
  destruct (memory_handlers_keep_table E parameters w) as (Hget & Hlist & Hsearch).
  repeat match goal with
         | |- context [String.eqb ?x a] => destruct (String.eqb x a)
         end;
    try exact Hok; try (rewrite Hget || rewrite Hlist || rewrite Hsearch; exact Hok).
  - destruct parameters; try exact Hok. now apply set_memory_table_ok.
  - destruct parameters; try exact Hok. now apply delete_memory_table_ok.
Qed.

Lemma memory_actions_keep_constraints_witness :
  table_ok (w_table (snd (memory.handle_action env0 (PStr "set")
                            (PDict [("key", PStr "j")]) world0))).
Proof.
  apply (memory_actions_keep_constraints env0 (PStr "set") (PDict [("key", PStr "j")])
           world0).
  exact table_ok_empty.
Defined.

Lemma firstn_plus {A : Type} (a b : nat) (l : list A) :
  firstn (a + b) l = firstn a l ++ firstn b (skipn a l).
Proof.
  revert l. induction a as [ | a IH ]; intros [ | x l ]; simpl;
    try reflexivity.
  - now destruct b.
  - now rewrite IH.
Qed.

(** What [list] returns for integer limit and offset in range, the limit
    not negative. *)
Lemma list_memory_page (E : env) (f : pyval) (limit offset : Z) (w : world) :
  0 <= limit < 2 ^ 63 ->
  - 2 ^ 63 <= offset < 2 ^ 63 ->
  exists w',
    memory.list_memory E
      (PDict [("filterKey", f); ("limit", PInt limit); ("offset", PInt offset)]) w
    = (Return
         (PDict [("items",
                  PList (map (memory.to_dict E)
                           (firstn (Z.to_nat limit)
                              (skipn (Z.to_nat offset)
                                 (memory.filtered_rows E f (w_table w))))));
                 ("total",
                  PInt (Z.of_nat (length (memory.filtered_rows E f (w_table w)))));
                 ("limit", PInt limit);
                 ("offset", PInt offset)]), w') /\
    w_table w' = w_table w.
Proof.
  intros Hlim Hoff.
  unfold memory.list_memory. autounfold with effects.
  cbn [dict_get String.eqb Ascii.eqb Bool.eqb py_int].
  rewrite (fits_int64_bounds limit) by lia.
  rewrite (fits_int64_bounds offset) by lia.
  cbn [andb negb]. unfold sql_limit_offset.
  replace (limit <? 0) with false by (symmetry; apply Z.ltb_ge; lia).
  destruct (w_engine w); cbn [w_table set_engine set_queries];
    eexists; split; reflexivity.
Qed.

(** X8: consecutive pages of [list] join up. With the same filter and the
    store untouched in between, the items of the page of [l1] rows at
    offset [o] followed by the items of the page of [l2] rows at offset
    [o + l1] are the items of the single page of [l1 + l2] rows at offset
    [o], and all three calls report the same total. *)
Theorem list_pages_concatenate
    (E : env) (f : pyval) (l1 l2 o : Z) (w : world) :
  0 <= l1 -> 0 <= l2 -> 0 <= o -> o + l1 + l2 < 2 ^ 63 ->
  exists items1 items2 total w1 w2 w3,
    memory.list_memory E
      (PDict [("filterKey", f); ("limit", PInt l1); ("offset", PInt o)]) w
    = (Return (PDict [("items", PList items1); ("total", PInt total);
                      ("limit", PInt l1); ("offset", PInt o)]), w1) /\
    memory.list_memory E
      (PDict [("filterKey", f); ("limit", PInt l2); ("offset", PInt (o + l1))]) w1
    = (Return (PDict [("items", PList items2); ("total", PInt total);
                      ("limit", PInt l2); ("offset", PInt (o + l1))]), w2) /\
    memory.list_memory E
      (PDict [("filterKey", f); ("limit", PInt (l1 + l2)); ("offset", PInt o)]) w
    = (Return (PDict [("items", PList (items1 ++ items2)); ("total", PInt total);
                      ("limit", PInt (l1 + l2)); ("offset", PInt o)]), w3).
Proof.
  intros H1 H2 Ho Hmax.
  destruct (list_memory_page E f l1 o w) as (w1 & Hp1 & Ht1); [ lia | lia | ].
  destruct (list_memory_page E f l2 (o + l1) w1) as (w2 & Hp2 & _); [ lia | lia | ].
  destruct (list_memory_page E f (l1 + l2) o w) as (w3 & Hp12 & _); [ lia | lia | ].
  rewrite Ht1 in Hp2.
  do 3 eexists. exists w1, w2, w3.
  split; [ exact Hp1 | ]. split; [ exact Hp2 | ].
  rewrite Hp12. repeat f_equal.
  rewrite <- map_app. f_equal.
  rewrite Z2Nat.inj_add by lia. rewrite firstn_plus. f_equal.
  rewrite skipn_skipn. do 2 f_equal. lia.
Qed.

Lemma list_pages_concatenate_witness :
  exists items1 items2 total w1 w2 w3,
    memory.list_memory env0
      (PDict [("filterKey", PNone); ("limit", PInt 1); ("offset", PInt 0)]) world_with_k
    = (Return (PDict [("items", PList items1); ("total", PInt total);
                      ("limit", PInt 1); ("offset", PInt 0)]), w1) /\
    memory.list_memory env0
      (PDict [("filterKey", PNone); ("limit", PInt 2); ("offset", PInt (0 + 1))]) w1
    = (Return (PDict [("items", PList items2); ("total", PInt total);
                      ("limit", PInt 2); ("offset", PInt (0 + 1))]), w2) /\
    memory.list_memory env0
      (PDict [("filterKey", PNone); ("limit", PInt (1 + 2)); ("offset", PInt 0)])
      world_with_k
    = (Return (PDict [("items", PList (items1 ++ items2)); ("total", PInt total);
                      ("limit", PInt (1 + 2)); ("offset", PInt 0)]), w3).
Proof.
  apply (list_pages_concatenate env0 PNone 1 2 0 world_with_k); lia.
Defined.

(** ** Tools keep to themselves *)

Ltac world_leaf :=
  first [ left; reflexivity | right; eexists; reflexivity ].

Lemma gateway_empty_action (E : env) (t : string) (p : pyval) (w : world) :
  snd (mcp_gateway E (PDict [("tool", PStr t); ("action", PStr "");
                             ("parameters", p)]) w) = w.
Proof.
  unfold mcp_gateway. cbn [truthy negb dict_get String.eqb Ascii.eqb Bool.eqb].
  destruct (negb (String.eqb t "")); reflexivity.
Qed.

(** X9: a dispatch touches only the backend of its tool. A call to github,
    gitlab or gmaps leaves the world as it was or adds exactly one HTTP
    exchange to it and changes nothing else; a call to memory makes no HTTP
    exchange, launches no subprocess and makes no temporary file; a call to
    puppeteer makes no HTTP exchange and does not touch the memory table,
    the clock or the UUID source. *)
Theorem tools_are_isolated (E : env) (t a : string) (p : pyval) (w : world) :
  (In t ["github"; "gitlab"; "gmaps"] ->
   snd (mcp_gateway E (PDict [("tool", PStr t); ("action", PStr a);
                              ("parameters", p)]) w) = w
   \/ exists rq,
        snd (mcp_gateway E (PDict [("tool", PStr t); ("action", PStr a);
                                   ("parameters", p)]) w)
          = set_requests (w_requests w ++ [rq]) w)
  /\
  (t = "memory" ->
   w_requests (snd (mcp_gateway E (PDict [("tool", PStr t); ("action", PStr a);
                                          ("parameters", p)]) w)) = w_requests w /\
   w_procs (snd (mcp_gateway E (PDict [("tool", PStr t); ("action", PStr a);
                                       ("parameters", p)]) w)) = w_procs w /\
   w_tmp_made (snd (mcp_gateway E (PDict [("tool", PStr t); ("action", PStr a);
                                          ("parameters", p)]) w)) = w_tmp_made w)
  /\
  (t = "puppeteer" ->
   w_requests (snd (mcp_gateway E (PDict [("tool", PStr t); ("action", PStr a);
                                          ("parameters", p)]) w)) = w_requests w /\
   w_table (snd (mcp_gateway E (PDict [("tool", PStr t); ("action", PStr a);
                                       ("parameters", p)]) w)) = w_table w /\
   w_clock (snd (mcp_gateway E (PDict [("tool", PStr t); ("action", PStr a);
                                       ("parameters", p)]) w)) = w_clock w /\
   w_uuids (snd (mcp_gateway E (PDict [("tool", PStr t); ("action", PStr a);
                                       ("parameters", p)]) w)) = w_uuids w).
Proof.
  destruct (string_dec a "") as [-> | Ha].
  { rewrite gateway_empty_action. repeat split; now left. }
  assert (Hta : truthy (PStr a) = true).
  { simpl. apply negb_true_iff. now apply String.eqb_neq. }
  split; [ | split ].
  - intros Ht. simpl in Ht.
    repeat (destruct Ht as [<- | Ht];
            [ rewrite gateway_dispatch by (try reflexivity; exact Hta);
              cbn [dict_get String.eqb Ascii.eqb Bool.eqb route];
              autounfold with handlers;
              cbn [lookup_handler github.action_handlers gitlab.action_handlers
                   gmaps.action_handlers];
              repeat match goal with
                     | |- context [String.eqb ?x a] => destruct (String.eqb x a)
                     end;
              autounfold with handlers; autounfold with effects; cbn;
              http_cases; world_leaf
            | ]).
    destruct Ht.
  - intros ->.
    rewrite gateway_dispatch by (try reflexivity; exact Hta).
    cbn [dict_get String.eqb Ascii.eqb Bool.eqb route].
    autounfold with handlers. cbn [lookup_handler memory.action_handlers].
    repeat match goal with
           | |- context [String.eqb ?x a] => destruct (String.eqb x a)
           end;
      autounfold with handlers; autounfold with effects;
      destruct p; cbn; memory_cases; repeat split.
  - intros ->.
    rewrite gateway_dispatch by (try reflexivity; exact Hta).
    cbn [dict_get String.eqb Ascii.eqb Bool.eqb route].
    autounfold with handlers. autounfold with effects.
    destruct (script_dir_fault E); [ repeat split | ].
    cbn [lookup_handler puppeteer.action_handlers].
    repeat match goal with
           | |- context [String.eqb ?x a] => destruct (String.eqb x a)
           end;
      autounfold with handlers; autounfold with effects;
      destruct p; cbn; run_backend; repeat split.
Qed.

Lemma tools_are_isolated_witness :
  (snd (mcp_gateway env0 (PDict [("tool", PStr "gmaps"); ("action", PStr "geocode");
                                 ("parameters", PDict [("address", PStr "Paris")])])
          world_with_k) = world_with_k
   \/ exists rq,
        snd (mcp_gateway env0
               (PDict [("tool", PStr "gmaps"); ("action", PStr "geocode");
                       ("parameters", PDict [("address", PStr "Paris")])])
               world_with_k)
          = set_requests (w_requests world_with_k ++ [rq]) world_with_k).
Proof.
  apply (proj1 (tools_are_isolated env0 "gmaps" "geocode"
                  (PDict [("address", PStr "Paris")]) world_with_k)).
  simpl. do 2 right. left. reflexivity.
Defined.

Ltac tmp_cases :=
  repeat match goal with
         | |- context [String.eqb ?x ?x] => rewrite (String.eqb_refl x); cbn
         | |- context [mktemp ?E ?n ?s] =>
             destruct (mktemp E n s) as [? | ?]; cbn
         | |- context [node_run ?E ?h ?s ?a] =>
             destruct (node_run E h s a) as [? | ? | ?]; cbn
         | |- context [json_loads ?E ?s] =>
             destruct (json_loads E s) as [? | ?]; cbn
         | |- context [read_b64 ?E ?s] =>
             destruct (read_b64 E s) as [? | ?]; cbn
         | |- context [truthy ?v] => destruct (truthy v); cbn
         | |- context [match ?v with PNone => _ | _ => _ end] => destruct v; cbn
         end.

(** X10: the puppeteer tool leaves no temporary file behind. Whatever the
    action, the parameters and the outcome of the subprocess, every
    temporary file present after a dispatch was present before it. *)
Theorem puppeteer_leaves_no_temporary_file
    (E : env) (action parameters : pyval) (w : world) (path : string) :
  In path (w_tmp (snd (puppeteer.handle_action E action parameters w))) ->
  In path (w_tmp w).
Proof.
  unfold puppeteer.handle_action, run_action. autounfold with effects.
  destruct (script_dir_fault E); [ exact (fun H => H) | ].
  destruct action as [ | b | z | q | a | l | d ]; try exact (fun H => H).
  cbn [lookup_handler puppeteer.action_handlers].
  repeat match goal with
         | |- context [String.eqb ?x a] => destruct (String.eqb x a)
         end;
    try exact (fun H => H);
    autounfold with handlers; autounfold with effects;
    destruct parameters; cbn; tmp_cases;
    intros Hx; first [ exact Hx | apply filter_In in Hx; exact (proj1 Hx) ].
Qed.

Lemma puppeteer_leaves_no_temporary_file_witness :
  In "/tmp/old.png" ["/tmp/old.png"].
Proof.
  apply (puppeteer_leaves_no_temporary_file (env_with (CalledProcessError "boom"))
           (PStr "screenshot") (PDict [("url", PStr "https://example.com")])
           (mkWorld [] [] ["/tmp/old.png"] 0 false false [] 0 0 0) "/tmp/old.png").
  simpl. left. reflexivity.
Defined.

(** ** Script arguments *)

Lemma dict_get_set_other (d : dict) (k k' : string) (v default : pyval) :
  k' <> k -> dict_get (dict_set d k v) k' default = dict_get d k' default.
Proof.
  intros Hne. induction d as [ | [x y] d IH ]; simpl.
  - destruct (String.eqb k k') eqn:Hk; [ | reflexivity ].
    apply String.eqb_eq in Hk. congruence.
  - destruct (String.eqb x k) eqn:Hx; simpl.
    + apply String.eqb_eq in Hx. subst x.
      destruct (String.eqb k k') eqn:Hk; [ | reflexivity ].
      apply String.eqb_eq in Hk. congruence.
    + destruct (String.eqb x k'); [ reflexivity | exact IH ].
Qed.

Lemma dict_get_set_same (d : dict) (k : string) (v default : pyval) :
  dict_get (dict_set d k v) k default = v.
Proof.
  induction d as [ | [x y] d IH ]; simpl.
  - now rewrite String.eqb_refl.
  - destruct (String.eqb x k) eqn:Hx; simpl; rewrite Hx; [ reflexivity | exact IH ].
Qed.

(** In the arguments [copy_optional] builds, an argument whose name is
    not in the list keeps the value the handler gave it, whatever the
    caller sent under that name; an argument whose name is in the list and
    which the caller sent carries the caller's value. *)
Lemma copy_optional_spec
    (names : list string) (d base : dict) (k : string) (default : pyval) :
  (~ In k names ->
   dict_get (puppeteer.copy_optional names (PDict d) base) k default
     = dict_get base k default) /\
  (In k names -> dict_has d k = true ->
   dict_get (puppeteer.copy_optional names (PDict d) base) k default
     = dict_get d k PNone).
Proof.
  unfold puppeteer.copy_optional. split.
  - revert base. induction names as [ | n names IH ]; intros base Hk; simpl;
      [ reflexivity | ].
    rewrite IH by (intros H; apply Hk; now right).
    destruct (dict_has d n); [ | reflexivity ].
    apply dict_get_set_other. intros ->. apply Hk. now left.
  - intros Hin Hd.
    assert (Hkeep : forall names base,
              dict_get base k default = dict_get d k PNone ->
              dict_get (fold_left
                          (fun acc param =>
                             if dict_has d param
                             then dict_set acc param (dict_get d param PNone)
                             else acc) names base) k default
              = dict_get d k PNone).
    { clear Hin. intros ns. induction ns as [ | n ns IH ]; intros b Hb; simpl;
        [ exact Hb | ].
      apply IH. destruct (dict_has d n); [ | exact Hb ].
      destruct (string_dec k n) as [-> | Hne].
      - apply dict_get_set_same.
      - rewrite dict_get_set_other by exact Hne. exact Hb. }
    revert base. induction names as [ | n names IH ]; intros base; simpl;
      [ contradiction | ].
    destruct Hin as [-> | Hin].
    + apply Hkeep. rewrite Hd. apply dict_get_set_same.
    + now apply IH.
Qed.

Ltac not_listed :=
  let H := fresh in
  simpl; intros H;
  repeat (destruct H as [H | H]; [ discriminate H | ]); exact H.

(** X11: the node script runs on arguments the server controls. For each
    of [screenshot], [pdf] and [extract], past the URL check and the
    temporary file, the handler launches node exactly once, on the script
    of the action, with the JSON text of an argument object in which
    [url] is the caller's, [headless] and [executablePath] are the
    configured ones and [outputPath] is the temporary file just made
    (absent for [extract]), whatever the caller sent under these names;
    and in which each optional parameter of the action that the caller
    sent carries the caller's value. *)
Theorem script_arguments_are_the_servers
    (E : env) (a : string) (p : dict) (w : world) :
  In a ["screenshot"; "pdf"; "extract"] ->
  truthy (dict_get p "url" PNone) = true ->
  script_dir_fault E = None ->
  (forall suffix, exists path, mktemp E (w_tmp_made w) suffix = Return path) ->
  exists args,
    w_procs (snd (puppeteer.handle_action E (PStr a) (PDict p) w))
      = w_procs w ++ [(script_dir E +s+ "/" +s+ a +s+ ".js",
                       json_dumps E (PDict args))] /\
    dict_get args "url" PNone = dict_get p "url" PNone /\
    dict_get args "headless" PNone = PBool (PUPPETEER_HEADLESS (config E)) /\
    dict_get args "executablePath" PNone = PStr (CHROME_PATH (config E)) /\
    ((a = "extract" /\ dict_get args "outputPath" PNone = PNone) \/
     (exists suffix path,
        mktemp E (w_tmp_made w) suffix = Return path /\
        dict_get args "outputPath" PNone = PStr path)) /\
    (forall name,
       In name (optional_arguments a) -> dict_has p name = true ->
       dict_get args name PNone = dict_get p name PNone).
Proof.
  intros Ha Hurl Hfault Hmk. simpl in Ha.
  destruct Ha as [<- | [<- | [<- | []]]];
    unfold puppeteer.handle_action, run_action;
    cbn [lookup_handler puppeteer.action_handlers String.eqb Ascii.eqb Bool.eqb];
    autounfold with handlers; autounfold with effects;
    rewrite Hfault, Hurl; cbn [negb w_tmp_made set_scripts];
    try match goal with
        | |- context [mktemp E ?n ?s] =>
            let Hp := fresh "Hpath" in
            destruct (Hmk s) as [path Hp]; rewrite Hp
        end;
    match goal with
    | |- context [puppeteer.copy_optional ?names ?params ?base] =>
        exists (puppeteer.copy_optional names params base)
    end;
    (split;
     [ cbn [w_procs w_scripts set_tmp set_scripts set_procs];
       match goal with
       | |- context [node_run E ?h ?s ?argv] =>
           destruct (node_run E h s argv) as [out | err | e]
       end;
       cbn;
       repeat match goal with
              | |- context [json_loads E ?s] =>
                  destruct (json_loads E s) as [? | ?]; cbn
              | |- context [read_b64 E ?s] =>
                  destruct (read_b64 E s) as [? | ?]; cbn
              | |- context [match ?v with PNone => _ | _ => _ end] =>
                  destruct v; cbn
              end;
       reflexivity
     | ]);
    (split; [ now rewrite (proj1 (copy_optional_spec _ _ _ "url" PNone))
                by not_listed | ]);
    (split; [ now rewrite (proj1 (copy_optional_spec _ _ _ "headless" PNone))
                by not_listed | ]);
    (split; [ now rewrite (proj1 (copy_optional_spec _ _ _ "executablePath" PNone))
                by not_listed | ]);
    (split;
     [ first [ left; split; [ reflexivity | ];
               now rewrite (proj1 (copy_optional_spec _ _ _ "outputPath" PNone))
                 by not_listed
             | right; do 2 eexists; split; [ eassumption | ];
               now rewrite (proj1 (copy_optional_spec _ _ _ "outputPath" PNone))
                 by not_listed ]
     | intros name Hname Hsent;
       now apply (proj2 (copy_optional_spec _ _ _ name PNone)) ]).
Qed.

Lemma script_arguments_are_the_servers_witness :
  exists args,
    w_procs (snd (puppeteer.handle_action env0 (PStr "screenshot")
                    (PDict [("url", PStr "https://example.com");
                            ("executablePath", PStr "/bin/sh");
                            ("outputPath", PStr "/etc/passwd");
                            ("headless", PBool false);
                            ("waitTime", PInt 5)]) world0))
      = w_procs world0 ++ [(script_dir env0 +s+ "/" +s+ "screenshot" +s+ ".js",
                            json_dumps env0 (PDict args))] /\
    dict_get args "url" PNone
      = dict_get [("url", PStr "https://example.com");
                  ("executablePath", PStr "/bin/sh");
                  ("outputPath", PStr "/etc/passwd");
                  ("headless", PBool false);
                  ("waitTime", PInt 5)] "url" PNone /\
    dict_get args "headless" PNone = PBool (PUPPETEER_HEADLESS (config env0)) /\
    dict_get args "executablePath" PNone = PStr (CHROME_PATH (config env0)) /\
    (("screenshot" = "extract" /\ dict_get args "outputPath" PNone = PNone) \/
     (exists suffix path,
        mktemp env0 (w_tmp_made world0) suffix = Return path /\
        dict_get args "outputPath" PNone = PStr path)) /\
    (forall name,
       In name (optional_arguments "screenshot") ->
       dict_has [("url", PStr "https://example.com");
                 ("executablePath", PStr "/bin/sh");
                 ("outputPath", PStr "/etc/passwd");
                 ("headless", PBool false);
                 ("waitTime", PInt 5)] name = true ->
       dict_get args name PNone
         = dict_get [("url", PStr "https://example.com");
                     ("executablePath", PStr "/bin/sh");
                     ("outputPath", PStr "/etc/passwd");
                     ("headless", PBool false);
                     ("waitTime", PInt 5)] name PNone).
Proof.
  apply (script_arguments_are_the_servers env0 "screenshot"
           [("url", PStr "https://example.com");
            ("executablePath", PStr "/bin/sh");
            ("outputPath", PStr "/etc/passwd");
            ("headless", PBool false);
            ("waitTime", PInt 5)] world0).
  - simpl. left. reflexivity.
  - reflexivity.
  - reflexivity.
  - intros suffix. eexists. reflexivity.
Defined.

(** ** The HTTP handlers *)

(** X12: the success path of the HTTP tools. For every github, gitlab and
    gmaps action with required parameters, when every required parameter is
    truthy and the upstream answers 200 with a body that decodes, the
    gateway answers 200 with the success envelope whose result is that
    body. *)
Theorem http_success_path
    (E : env) (t a : string) (checks : list (list string * string))
    (p : dict) (w : world) (body : pyval) :
  In ((t, a), checks) required_checks ->
  In t ["github"; "gitlab"; "gmaps"] ->
  first_missing checks p = None ->
  (forall rq, http_reply E (w_requests w) rq = Reply 200 (Return body)) ->
  fst (mcp_gateway E (call t a p) w)
    = Response (success_envelope (PStr t) (PStr a) body) 200.
Proof.
  intros Hin Ht Hnone Hreply. simpl in Hin.
  repeat (destruct Hin as [H | Hin];
          [ injection H as <- <- <-;
            first
              [ (* not an HTTP tool *)
                simpl in Ht;
                repeat (destruct Ht as [Ht | Ht]; [ discriminate Ht | ]);
                now destruct Ht
              | unfold call; rewrite gateway_dispatch by reflexivity;
                enter_handler; autounfold with effects;
                cbn [first_missing forallb] in Hnone;
                repeat match type of Hnone with
                       | context [truthy (dict_get p ?k PNone)] =>
                           destruct (truthy (dict_get p k PNone));
                           cbn [andb] in Hnone; try discriminate Hnone
                       end;
                cbn [negb orb]; cbv beta iota; rewrite Hreply; reflexivity ]
          | ]).
  destruct Hin.
Qed.

Lemma http_success_path_witness :
  fst (mcp_gateway env0 (call "github" "getRepo"
                           [("owner", PStr "octocat"); ("repo", PStr "hello")]) world0)
    = Response (success_envelope (PStr "github") (PStr "getRepo") (PList [])) 200.
Proof.
  apply (http_success_path env0 "github" "getRepo"
           [(["owner"; "repo"], "Owner and repo parameters are required")]
           [("owner", PStr "octocat"); ("repo", PStr "hello")] world0 (PList [])).
  - simpl. right. left. reflexivity.
  - simpl. left. reflexivity.
  - reflexivity.
  - reflexivity.
Defined.

(** X13: the check of gmaps [searchPlaces]. Without a truthy query and
    without both a truthy location and a truthy type the handler raises its
    ValueError and makes no request; with a truthy query it makes one text
    search carrying the key and the query only; otherwise it makes one
    nearby search carrying the key, the location, the radius (1000 when
    absent) and the type. *)
Theorem search_places_check (E : env) (p : dict) (w : world) :
  let query := dict_get p "query" PNone in
  let location := dict_get p "location" PNone in
  let place_type := dict_get p "type" PNone in
  if truthy query then
    w_requests (snd (gmaps.search_places E (PDict p) w))
      = w_requests w
        ++ [HttpRequest "GET"
              "https://maps.googleapis.com/maps/api/place/textsearch/json" []
              [("key", GMAPS_API_KEY (config E)); ("query", query)] None]
  else if truthy location && truthy place_type then
    w_requests (snd (gmaps.search_places E (PDict p) w))
      = w_requests w
        ++ [HttpRequest "GET"
              "https://maps.googleapis.com/maps/api/place/nearbysearch/json" []
              [("key", GMAPS_API_KEY (config E)); ("location", location);
               ("radius", dict_get p "radius" (PInt 1000)); ("type", place_type)]
              None]
  else
    gmaps.search_places E (PDict p) w
      = (Raise (ValueError
                  "Either query or location with type parameters are required"), w).
Proof.
  intros query location place_type. subst query location place_type.
  unfold gmaps.search_places. autounfold with effects.
  destruct (truthy (dict_get p "query" PNone)); cbn [negb andb].
  - destruct (http_reply E _ _) as [e | code [b | e]]; cbn;
      repeat match goal with
             | |- context [if ?b then _ else _] => destruct b; cbn
             end; reflexivity.
  - destruct (truthy (dict_get p "location" PNone) && truthy (dict_get p "type" PNone));
      cbn [negb]; [ | reflexivity ].
    destruct (http_reply E _ _) as [e | code [b | e]]; cbn;
      repeat match goal with
             | |- context [if ?b then _ else _] => destruct b; cbn
             end; reflexivity.
Qed.

(** ** The direct routes and the gateway *)

(** Unwrap the gateway around the handler a concrete call selects, and case
    on what the handler does. *)
Ltac same_handler :=
  unfold as_direct, call; rewrite gateway_dispatch by reflexivity;
  cbn [dict_get String.eqb Ascii.eqb Bool.eqb route];
  unfold github.handle_action, gitlab.handle_action, gmaps.handle_action,
    memory.handle_action, run_action;
  cbn [lookup_handler github.action_handlers gitlab.action_handlers
       gmaps.action_handlers memory.action_handlers
       String.eqb Ascii.eqb Bool.eqb];
  unfold view;
  match goal with
  | |- context [match ?h ?p ?w with _ => _ end] =>
      destruct (h p w) as [[? | ?] ?]
  end; reflexivity.

(** X14: each direct github route runs the handler the gateway runs for the
    same parameters, on the same world: where the gateway answers 200 with a
    success envelope the route answers with the bare result (code 200, and
    201 for createIssue), and where the gateway answers 500 with an error
    envelope the route answers 400 with [{"error": message}]. *)
Theorem github_routes_agree_with_gateway
    (E : env) (request : flask_request) (owner repo : string) (d : dict)
    (w : world) :
  github_api.api_list_repos E request w
    = as_direct 200 error_body
        (mcp_gateway E (call "github" "listRepos"
           [("username", args_get (fr_args request) "username" PNone)]) w) /\
  github_api.api_get_repo E owner repo request w
    = as_direct 200 error_body
        (mcp_gateway E (call "github" "getRepo"
           [("owner", PStr owner); ("repo", PStr repo)]) w) /\
  github_api.api_search_repos E request w
    = as_direct 200 error_body
        (mcp_gateway E (call "github" "searchRepos"
           [("query", args_get (fr_args request) "query" PNone)]) w) /\
  github_api.api_get_issues E owner repo request w
    = as_direct 200 error_body
        (mcp_gateway E (call "github" "getIssues"
           [("owner", PStr owner); ("repo", PStr repo);
            ("state", args_get (fr_args request) "state" (PStr "open"))]) w) /\
  (fr_json request = Return (PDict d) ->
   github_api.api_create_issue E owner repo request w
     = as_direct 201 error_body
         (mcp_gateway E (call "github" "createIssue"
            [("owner", PStr owner); ("repo", PStr repo);
             ("title", dict_get d "title" PNone);
             ("body", dict_get d "body" (PStr ""))]) w)).
Proof.
  repeat split;
    try (intros Hjson; unfold github_api.api_create_issue; rewrite Hjson;
         unfold lift_outcome, bind, py_get, ret);
    unfold github_api.api_list_repos, github_api.api_get_repo,
      github_api.api_search_repos, github_api.api_get_issues;
    same_handler.
Qed.

(** X15: each direct gitlab route runs the handler the gateway runs for the
    same parameters, on the same world: it answers with the bare result
    (code 200, and 201 for createIssue) where the gateway answers 200 with a
    success envelope, and with 400 and [{"error": message}] where the
    gateway answers 500 with an error envelope. *)
Theorem gitlab_routes_agree_with_gateway
    (E : env) (request : flask_request) (project_id : string) (d : dict)
    (w : world) :
  gitlab_api.api_list_projects E request w
    = as_direct 200 error_body (mcp_gateway E (call "gitlab" "listProjects" []) w) /\
  gitlab_api.api_get_project E project_id request w
    = as_direct 200 error_body
        (mcp_gateway E (call "gitlab" "getProject"
           [("projectId", PStr project_id)]) w) /\
  gitlab_api.api_search_projects E request w
    = as_direct 200 error_body
        (mcp_gateway E (call "gitlab" "searchProjects"
           [("query", args_get (fr_args request) "query" PNone)]) w) /\
  gitlab_api.api_get_issues E project_id request w
    = as_direct 200 error_body
        (mcp_gateway E (call "gitlab" "getIssues"
           [("projectId", PStr project_id);
            ("state", args_get (fr_args request) "state" (PStr "opened"))]) w) /\
  gitlab_api.api_get_pipelines E project_id request w
    = as_direct 200 error_body
        (mcp_gateway E (call "gitlab" "getPipelines"
           [("projectId", PStr project_id)]) w) /\
  (fr_json request = Return (PDict d) ->
   gitlab_api.api_create_issue E project_id request w
     = as_direct 201 error_body
         (mcp_gateway E (call "gitlab" "createIssue"
            [("projectId", PStr project_id);
             ("title", dict_get d "title" PNone);
             ("description", dict_get d "description" (PStr ""))]) w)).
Proof.
  repeat split;
    try (intros Hjson; unfold gitlab_api.api_create_issue; rewrite Hjson;
         unfold lift_outcome, bind, py_get, ret);
    unfold gitlab_api.api_list_projects, gitlab_api.api_get_project,
      gitlab_api.api_search_projects, gitlab_api.api_get_issues,
      gitlab_api.api_get_pipelines;
    same_handler.
Qed.

(** X16: each direct gmaps route runs the handler the gateway runs for the
    same parameters, on the same world: it answers 200 with the bare result
    where the gateway answers 200 with a success envelope, and 400 with
    [{"error": message}] where the gateway answers 500 with an error
    envelope. *)
Theorem gmaps_routes_agree_with_gateway
    (E : env) (request : flask_request) (w : world) :
  gmaps_api.api_geocode E request w
    = as_direct 200 error_body
        (mcp_gateway E (call "gmaps" "geocode"
           [("address", args_get (fr_args request) "address" PNone)]) w) /\
  gmaps_api.api_reverse_geocode E request w
    = as_direct 200 error_body
        (mcp_gateway E (call "gmaps" "reverseGeocode"
           [("lat", args_get (fr_args request) "lat" PNone);
            ("lng", args_get (fr_args request) "lng" PNone)]) w) /\
  gmaps_api.api_get_directions E request w
    = as_direct 200 error_body
        (mcp_gateway E (call "gmaps" "getDirections"
           [("origin", args_get (fr_args request) "origin" PNone);
            ("destination", args_get (fr_args request) "destination" PNone);
            ("mode", args_get (fr_args request) "mode" (PStr "driving"))]) w) /\
  gmaps_api.api_search_places E request w
    = as_direct 200 error_body
        (mcp_gateway E (call "gmaps" "searchPlaces"
           [("query", args_get (fr_args request) "query" PNone);
            ("location", args_get (fr_args request) "location" PNone);
            ("radius", args_get (fr_args request) "radius" (PInt 1000));
            ("type", args_get (fr_args request) "type" PNone)]) w) /\
  gmaps_api.api_get_place_details E request w
    = as_direct 200 error_body
        (mcp_gateway E (call "gmaps" "getPlaceDetails"
           [("placeId", args_get (fr_args request) "placeId" PNone)]) w).
Proof.
  repeat split;
    unfold gmaps_api.api_geocode, gmaps_api.api_reverse_geocode,
      gmaps_api.api_get_directions, gmaps_api.api_search_places,
      gmaps_api.api_get_place_details;
    same_handler.
Qed.

(** X17: each direct memory route runs the handler the gateway runs for the
    same parameters, on the same world (the limit and the offset of the
    query string reach [list] as strings): it answers 200 with the bare
    result where the gateway answers 200 with a success envelope, and 400
    with [{"error": message}] where the gateway answers 500 with an error
    envelope. *)
Theorem memory_routes_agree_with_gateway
    (E : env) (request : flask_request) (d : dict) (w : world) :
  memory_api.api_get_memory E request w
    = as_direct 200 error_body
        (mcp_gateway E (call "memory" "get"
           [("key", args_get (fr_args request) "key" PNone)]) w) /\
  memory_api.api_delete_memory E request w
    = as_direct 200 error_body
        (mcp_gateway E (call "memory" "delete"
           [("key", args_get (fr_args request) "key" PNone)]) w) /\
  memory_api.api_list_memory E request w
    = as_direct 200 error_body
        (mcp_gateway E (call "memory" "list"
           [("filterKey", args_get (fr_args request) "filterKey" PNone);
            ("limit", args_get (fr_args request) "limit" (PInt 100));
            ("offset", args_get (fr_args request) "offset" (PInt 0))]) w) /\
  memory_api.api_search_memory E request w
    = as_direct 200 error_body
        (mcp_gateway E (call "memory" "search"
           [("q", args_get (fr_args request) "q" PNone)]) w) /\
  (fr_json request = Return (PDict d) ->
   memory_api.api_set_memory E request w
     = as_direct 200 error_body
         (mcp_gateway E (call "memory" "set"
            [("key", dict_get d "key" PNone);
             ("value", dict_get d "value" PNone);
             ("metadata", dict_get d "metadata" (PDict []))]) w)).
Proof.
  repeat split;
    try (intros Hjson; unfold memory_api.api_set_memory; rewrite Hjson;
         unfold lift_outcome, bind, py_get, ret);
    unfold memory_api.api_get_memory, memory_api.api_delete_memory,
      memory_api.api_list_memory, memory_api.api_search_memory;
    same_handler.
Qed.

Lemma github_routes_agree_with_gateway_witness :
  github_api.api_create_issue env0 "octocat" "hello"
    (mkRequest [] (Return (PDict [("title", PStr "Bug")]))) world0
  = as_direct 201 error_body
      (mcp_gateway env0 (call "github" "createIssue"
         [("owner", PStr "octocat"); ("repo", PStr "hello");
          ("title", dict_get [("title", PStr "Bug")] "title" PNone);
          ("body", dict_get [("title", PStr "Bug")] "body" (PStr ""))]) world0).
Proof.
  apply (github_routes_agree_with_gateway env0
           (mkRequest [] (Return (PDict [("title", PStr "Bug")])))
           "octocat" "hello" [("title", PStr "Bug")] world0).
  reflexivity.
Defined.

Lemma gitlab_routes_agree_with_gateway_witness :
  gitlab_api.api_create_issue env0 "42"
    (mkRequest [] (Return (PDict [("title", PStr "Bug")]))) world0
  = as_direct 201 error_body
      (mcp_gateway env0 (call "gitlab" "createIssue"
         [("projectId", PStr "42");
          ("title", dict_get [("title", PStr "Bug")] "title" PNone);
          ("description", dict_get [("title", PStr "Bug")] "description" (PStr ""))])
         world0).
Proof.
  apply (gitlab_routes_agree_with_gateway env0
           (mkRequest [] (Return (PDict [("title", PStr "Bug")])))
           "42" [("title", PStr "Bug")] world0).
  reflexivity.
Defined.

Lemma memory_routes_agree_with_gateway_witness :
  memory_api.api_set_memory env0
    (mkRequest [] (Return (PDict [("key", PStr "k"); ("value", PStr "v")]))) world0
  = as_direct 200 error_body
      (mcp_gateway env0 (call "memory" "set"
         [("key", dict_get [("key", PStr "k"); ("value", PStr "v")] "key" PNone);
          ("value", dict_get [("key", PStr "k"); ("value", PStr "v")] "value" PNone);
          ("metadata",
           dict_get [("key", PStr "k"); ("value", PStr "v")] "metadata" (PDict []))])
         world0).
Proof.
  apply (memory_routes_agree_with_gateway env0
           (mkRequest [] (Return (PDict [("key", PStr "k"); ("value", PStr "v")])))
           [("key", PStr "k"); ("value", PStr "v")] world0).
  reflexivity.
Defined.

(** X18: the direct puppeteer routes hand the whole JSON body to the
    handler and, unlike the gateway, do not write the node scripts. When
    the scripts are already in place, a route gives the answer of the
    gateway for the same parameters (the bare result with code 200, or 400
    with a [success: false] body where the gateway answers 500) and leaves
    the same world. When they are not, a route never succeeds: its body
    says [success: false], whatever the request, and the scripts are still
    missing afterwards. *)
Theorem puppeteer_routes_and_gateway
    (E : env) (request : flask_request) (w : world) :
  (w_scripts w = true ->
   script_dir_fault E = None ->
   forall data,
     fr_json request = Return data ->
     puppeteer_api.api_screenshot E request w
       = as_direct 200 puppeteer_api.failure_body
           (mcp_gateway E (PDict [("tool", PStr "puppeteer");
                                  ("action", PStr "screenshot");
                                  ("parameters", data)]) w) /\
     puppeteer_api.api_pdf E request w
       = as_direct 200 puppeteer_api.failure_body
           (mcp_gateway E (PDict [("tool", PStr "puppeteer");
                                  ("action", PStr "pdf");
                                  ("parameters", data)]) w) /\
     puppeteer_api.api_extract E request w
       = as_direct 200 puppeteer_api.failure_body
           (mcp_gateway E (PDict [("tool", PStr "puppeteer");
                                  ("action", PStr "extract");
                                  ("parameters", data)]) w))
  /\
  (w_scripts w = false ->
   forall route,
     In route [puppeteer_api.api_screenshot E; puppeteer_api.api_pdf E;
               puppeteer_api.api_extract E] ->
     w_scripts (snd (route request w)) = false /\
     exists body code,
       fst (route request w) = Response body code /\
       dict_get (as_dict body) "success" PNone = PBool false).
Proof.
  split.
  - intros Hs Hfault data Hjson.
    unfold puppeteer_api.api_screenshot, puppeteer_api.api_pdf,
      puppeteer_api.api_extract, view, as_direct.
    rewrite Hjson.
    repeat split;
      rewrite gateway_dispatch by reflexivity;
      enter_handler; autounfold with effects; rewrite Hfault;
      destruct w; cbn in Hs; subst; destruct data; cbn; tmp_cases; reflexivity.
  - intros Hs route Hroute. simpl in Hroute.
    destruct Hroute as [<- | [<- | [<- | []]]];
      unfold puppeteer_api.api_screenshot, puppeteer_api.api_pdf,
        puppeteer_api.api_extract, view;
      autounfold with handlers; autounfold with effects;
      destruct w; cbn in Hs; subst;
      (destruct (fr_json request) as [data | e];
       [ destruct data | ]); cbn; tmp_cases;
      unfold puppeteer.stderr_failure; tmp_cases;
      (split; [ reflexivity | do 2 eexists; split; reflexivity ]).
Qed.

Lemma puppeteer_routes_and_gateway_witness :
  (puppeteer_api.api_extract env0
     (mkRequest [] (Return (PDict [("url", PStr "https://example.com")])))
     (mkWorld [] [] [] 0 true false [] 0 0 0)
   = as_direct 200 puppeteer_api.failure_body
       (mcp_gateway env0
          (PDict [("tool", PStr "puppeteer"); ("action", PStr "extract");
                  ("parameters", PDict [("url", PStr "https://example.com")])])
          (mkWorld [] [] [] 0 true false [] 0 0 0)))
  /\
  (w_scripts
     (snd (puppeteer_api.api_extract env0
             (mkRequest [] (Return (PDict [("url", PStr "https://example.com")])))
             world0)) = false /\
   exists body code,
     fst (puppeteer_api.api_extract env0
            (mkRequest [] (Return (PDict [("url", PStr "https://example.com")])))
            world0) = Response body code /\
     dict_get (as_dict body) "success" PNone = PBool false).
Proof.
  split.
  - apply (proj1 (puppeteer_routes_and_gateway env0
                    (mkRequest [] (Return (PDict [("url", PStr "https://example.com")])))
                    (mkWorld [] [] [] 0 true false [] 0 0 0))
             eq_refl eq_refl (PDict [("url", PStr "https://example.com")]) eq_refl).
  - apply (proj2 (puppeteer_routes_and_gateway env0
                    (mkRequest [] (Return (PDict [("url", PStr "https://example.com")])))
                    world0)
             eq_refl (puppeteer_api.api_extract env0)).
    simpl. do 2 right. left. reflexivity.
Defined.

(** ** The client *)

(** X19: [call_tool] returns only success envelopes. Against this gateway
    a call either returns the success envelope of the handler's result, or
    raises the HTTPError of [raise_for_status] with status 400 (tool or
    action missing), 404 (unknown tool) or 500 (the handler raised, or the
    view did); an error envelope never reaches the caller as a return
    value. *)
Theorem call_tool_returns_only_success
    (E : env) (tool action parameters : pyval) (w : world) :
  (exists result,
     fst (MCPClient.call_tool E tool action parameters w)
       = Got (success_envelope tool action result))
  \/
  (exists status,
     fst (MCPClient.call_tool E tool action parameters w) = HTTPError status /\
     In status [400; 404; 500]).
Proof.
  unfold MCPClient.call_tool, mcp_gateway.
  cbn [truthy negb dict_get String.eqb Ascii.eqb Bool.eqb].
  destruct (truthy tool); cbn [negb];
    [ | right; exists 400; split; [ reflexivity | simpl; tauto ] ].
  destruct (truthy action); cbn [negb];
    [ | right; exists 400; split; [ reflexivity | simpl; tauto ] ].
  destruct (route E tool) as [h | ];
    [ | right; exists 404; split; [ reflexivity | simpl; tauto ] ].
  destruct (h action parameters w) as [[result | e] w'].
  - left. exists result. reflexivity.
  - right. exists 500. split; [ reflexivity | simpl; tauto ].
Qed.

Lemma prefix_append (a b : string) : prefix a (a +s+ b) = true.
Proof.
  induction a as [ | c a IH ]; simpl; [ now destruct b | ].
  destruct (ascii_dec c c) as [_ | Hne]; [ exact IH | now elim Hne ].
Qed.

Lemma not_self_append {A : Type} (l : list A) (x : A) : l <> l ++ [x].
Proof.
  intros H. apply (f_equal (@length A)) in H. rewrite length_app in H.
  simpl in H. lia.
Qed.

Ltac url_leaf :=
  intros rq Hrq; cbn in Hrq;
  first [ now apply not_self_append in Hrq
        | apply app_inv_head in Hrq; injection Hrq as <-;
          cbn [rq_url api_base String.eqb Ascii.eqb Bool.eqb];
          first [ apply prefix_append | reflexivity ] ].

(** X20: each HTTP tool talks to its own upstream only. Every request a
    dispatch to github, gitlab or gmaps makes goes to an address that begins
    with the tool's base address: the configured GITHUB_API_URL, the
    configured GITLAB_API_URL, or https://maps.googleapis.com/maps/api/. *)
Theorem http_tools_stay_on_their_api
    (E : env) (t a : string) (p : pyval) (w : world) :
  In t ["github"; "gitlab"; "gmaps"] ->
  forall rq,
    w_requests (snd (mcp_gateway E (PDict [("tool", PStr t); ("action", PStr a);
                                           ("parameters", p)]) w))
      = w_requests w ++ [rq] ->
    prefix (api_base E t) (rq_url rq) = true.
Proof.
  intros Ht.
  destruct (string_dec a "") as [-> | Ha].
  { rewrite gateway_empty_action. intros rq Hrq. now apply not_self_append in Hrq. }
  assert (Hta : truthy (PStr a) = true).
  { simpl. apply negb_true_iff. now apply String.eqb_neq. }
  simpl in Ht.
  repeat (destruct Ht as [<- | Ht];
          [ rewrite gateway_dispatch by (try reflexivity; exact Hta);
            cbn [dict_get String.eqb Ascii.eqb Bool.eqb route];
            autounfold with handlers;
            cbn [lookup_handler github.action_handlers gitlab.action_handlers
                 gmaps.action_handlers];
            repeat match goal with
                   | |- context [String.eqb ?x a] => destruct (String.eqb x a)
                   end;
            autounfold with handlers; autounfold with effects; cbn;
            http_cases; url_leaf
          | ]).
  destruct Ht.
Qed.

Lemma http_tools_stay_on_their_api_witness :
  prefix (api_base env0 "github")
    (rq_url (HttpRequest "GET" "https://api.github.com/users/octocat/repos"
               [("Authorization", PStr "token None")] [] None)) = true.
Proof.
  apply (http_tools_stay_on_their_api env0 "github" "listRepos"
           (PDict [("username", PStr "octocat")]) world0 (or_introl eq_refl)
           (HttpRequest "GET" "https://api.github.com/users/octocat/repos"
              [("Authorization", PStr "token None")] [] None)).
  reflexivity.
Defined.

(** X21: outside puppeteer the manifest documents every parameter a handler
    reads. For every advertised action of github, gitlab, gmaps and memory,
    adding to the parameters a key the manifest does not document for that
    action changes neither the answer nor the world. *)
Theorem undocumented_parameters_are_ignored
    (E : env) (t a n : string) (v : pyval) (p : dict) (w : world) :
  In (t, a) manifest_actions ->
  t <> "puppeteer" ->
  ~ In n (manifest_parameters t a) ->
  dict_has p n = false ->
  mcp_gateway E (call t a (p ++ [(n, v)])) w = mcp_gateway E (call t a p) w.
Proof.
  intros Hin Ht Hn Hp. vm_compute in Hin.
  repeat (destruct Hin as [H | Hin];
          [ injection H as <- <-;
            first
              [ now elim Ht
              | vm_compute in Hn; unfold call;
                rewrite !gateway_dispatch by reflexivity;
                enter_handler; autounfold with effects;
                rewrite ?dict_get_snoc by assumption;
                repeat match goal with
                       | |- context [String.eqb n ?k] =>
                           replace (String.eqb n k) with false
                             by (symmetry; apply String.eqb_neq; intros ->;
                                 apply Hn; tauto)
                       end;
                reflexivity ]
          | ]).
  destruct Hin.
Qed.

Lemma undocumented_parameters_are_ignored_witness :
  mcp_gateway env0
    (call "memory" "get" ([("key", PStr "k")] ++ [("verbose", PBool true)]))
    world_with_k
  = mcp_gateway env0 (call "memory" "get" [("key", PStr "k")]) world_with_k.
Proof.
  apply (undocumented_parameters_are_ignored env0 "memory" "get" "verbose"
           (PBool true) [("key", PStr "k")] world_with_k).
  - vm_compute. do 11 right. left. reflexivity.
  - discriminate.
  - vm_compute. intros [H | H]; [ discriminate H | exact H ].
  - reflexivity.
Defined.

Lemma client_discovery_is_sound_witness :
  exists actions,
    MCPClient.list_actions "memory" = Got (PDict actions) /\
    forall a, dict_has actions a = true -> resolve env0 "memory" a <> None.
Proof.
  apply (proj2 (proj2 (client_discovery_is_sound env0 "memory"))).
  discriminate.
Defined.
